(** * Xer0byteAII: the chat-assistant server and its single-page client

    A shallow embedding of the three revisions of the Express server
    ([src/server.ts], [src/unnamed/part_001], [src/unnamed/part_002]) and
    of the client ([src/src/App.tsx], [src/unnamed/part_000]): the [view]
    state of [App], what its handlers send to the server, and the node
    array of [ParticleBackground].

    Part I holds the definitions, Part II the theorems. *)

From Stdlib Require Import List String Ascii ZArith Bool PeanoNat Lia.
From Stdlib Require Import Sorted Permutation.
From Stdlib Require Import Floats.
Import ListNotations.
Local Open Scope string_scope.

(* ===================================================================== *)
(** * Part I. Definitions                                                 *)
(* ===================================================================== *)

(** ** JSON values, HTTP responses, and the handler monad *)

Module Http.

(** What [res.json] sends. *)
#[local] Unset Elimination Schemes.
Inductive json : Type :=
| JNull
| JBool (b : bool)
| JNum (n : Z)
| JStr (s : string)
| JArr (items : list json)
| JObj (fields : list (string * json)).
#[local] Set Elimination Schemes.

Record response : Type := mkResponse { status : nat; body : json }.

(** What a client receives: the JSON response of a route, or the HTML
    page of Express's default error handler. *)
Inductive reply : Type :=
| Json (r : response)
| ErrorPage (code : nat).

Definition reply_status (a : reply) : nat :=
  match a with
  | Json r => status r
  | ErrorPage code => code
  end.

(** [res.json(j)]: Express answers with status 200. *)
Definition res_json (j : json) : response := mkResponse 200 j.

(** [res.status(code).json({ error: msg })]. *)
Definition res_error (code : nat) (msg : string) : response :=
  mkResponse code (JObj [("error", JStr msg)]).

(** A body that carries an error message string and nothing else. *)
Definition error_only (j : json) : Prop :=
  exists msg, j = JObj [("error", JStr msg)].

Definition is_5xx (code : nat) : bool := Nat.leb 500 code && Nat.leb code 599.

Definition is_4xx (code : nat) : bool := Nat.leb 400 code && Nat.leb code 499.

(** The response is a 200 whose body is an array, the encoding of a list
    that holds [x]. *)
Definition returns_item {A} (enc : A -> json) (x : A) (r : response) : Prop :=
  exists l, r = res_json (JArr (map enc l)) /\ In x l.

(** [{ success: true }]. *)
Definition success_body : json := JObj [("success", JBool true)].

(** A nullable column of a row: SQL [NULL] is sent as [null]. *)
Definition JOptStr (o : option string) : json :=
  match o with Some s => JStr s | None => JNull end.

(** A field of an object; [JSON.stringify] drops it when its value is
    [undefined]. *)
Definition opt_field (key : string) (o : option string) : list (string * json) :=
  match o with
  | Some s => [(key, JStr s)]
  | None => []
  end.

(** The string of a truthy string-or-undefined value: what [if (x)]
    lets through. *)
Definition truthy (o : option string) : option string :=
  match o with
  | None => None
  | Some s => if s =? "" then None else Some s
  end.

(** [a || b] on a string-or-undefined value with a string default. *)
Definition or_else (o : option string) (d : string) : string :=
  match o with
  | None => d
  | Some s => if s =? "" then d else s
  end.

(** [String.prototype.split] on a one-character separator. *)
Fixpoint split (sep : ascii) (s : string) : list string :=
  match s with
  | EmptyString => [EmptyString]
  | String c rest =>
      if Ascii.eqb c sep then EmptyString :: split sep rest
      else match split sep rest with
           | [] => [String c EmptyString]
           | h :: t => String c h :: t
           end
  end.

(** Exceptions a handler can see.  [ServiceError] stands for a failure of
    a service the handler awaits (database connection, remote model);
    [IllegalArguments] is what [bcryptjs] rejects a call with when an
    argument is not a string; [SqliteError code] carries the [code] field
    that one catch block inspects. *)
Inductive error : Type :=
| ValidationError
| TypeError
| ServiceError
| IllegalArguments
| SqliteError (code : string).

Definition error_code (e : error) : option string :=
  match e with
  | SqliteError c => Some c
  | _ => None
  end.

Inductive outcome (A : Type) : Type :=
| Ok (a : A)
| Throw (e : error).
Arguments Ok {A} a.
Arguments Throw {A} e.

(** A computation over a world [W] that may throw.  The world reached at
    the throw is kept: writes made before an exception are not undone. *)
Definition M (W A : Type) : Type := W -> outcome A * W.

Definition ret {W A} (a : A) : M W A := fun w => (Ok a, w).

Definition throw {W A} (e : error) : M W A := fun w => (Throw e, w).

Definition bind {W A B} (m : M W A) (k : A -> M W B) : M W B :=
  fun w =>
    match m w with
    | (Ok a, w') => k a w'
    | (Throw e, w') => (Throw e, w')
    end.

(** [try { m } catch (e) { h e }]. *)
Definition try_catch {W A} (m : M W A) (h : error -> M W A) : M W A :=
  fun w =>
    match m w with
    | (Ok a, w') => (Ok a, w')
    | (Throw e, w') => h e w'
    end.

Definition lift_outcome {W A} (o : outcome A) : M W A :=
  match o with
  | Ok a => ret a
  | Throw e => throw e
  end.

(** [m] takes every world to one related to it by [R], whether it
    returns or throws. *)
Definition keeps {W A} (R : W -> W -> Prop) (m : M W A) : Prop :=
  forall w, R w (snd (m w)).

End Http.

Import Http.

Declare Scope handler_scope.
Delimit Scope handler_scope with handler.
Notation "x <- m ;; k" := (bind m (fun x => k))
  (at level 100, m at next level, right associativity) : handler_scope.
Notation "m ;;; k" := (bind m (fun _ => k))
  (at level 100, right associativity) : handler_scope.
Local Open Scope handler_scope.

(** ** The world a handler runs in *)

Module Runtime.

(** The database [D], and the part of the outside that a handler
    observes.  [faults] schedules the database operations (the head is
    consumed by the next one, [true] makes it fail; an empty schedule
    means no failure); [clock] and [random] are the successive readings
    of the clock and of the random source, [ticks] and [draws] count the
    readings made so far. *)
Record world (D : Type) : Type := mkWorld {
  db : D;
  faults : list bool;
  clock : nat -> Z;
  ticks : nat;
  random : nat -> nat;
  draws : nat }.
Arguments mkWorld {D} _ _ _ _ _ _.
Arguments db {D} _.
Arguments faults {D} _.
Arguments clock {D} _.
Arguments ticks {D} _.
Arguments random {D} _.
Arguments draws {D} _.

Section Primitives.

Context {D : Type}.

Definition set_db (d : D) (w : world D) : world D :=
  mkWorld d (faults w) (clock w) (ticks w) (random w) (draws w).

Definition set_faults (fs : list bool) (w : world D) : world D :=
  mkWorld (db w) fs (clock w) (ticks w) (random w) (draws w).

(** A round trip to the database. *)
Definition await_db : M (world D) unit :=
  fun w =>
    match faults w with
    | true :: fs => (Throw ServiceError, set_faults fs w)
    | false :: fs => (Ok tt, set_faults fs w)
    | [] => (Ok tt, w)
    end.

Definition get_db : M (world D) D := fun w => (Ok (db w), w).

Definition put_db (d : D) : M (world D) unit := fun w => (Ok tt, set_db d w).

(** [Date.now()], [new Date()], [CURRENT_TIMESTAMP]. *)
Definition Date_now : M (world D) Z :=
  fun w =>
    (Ok (clock w (ticks w)),
     mkWorld (db w) (faults w) (clock w) (S (ticks w)) (random w) (draws w)).

(** [Math.floor(Math.random() * n)]: a draw below [n]. *)
Definition random_below (n : nat) : M (world D) nat :=
  fun w =>
    (Ok (random w (draws w) mod n),
     mkWorld (db w) (faults w) (clock w) (ticks w) (random w) (S (draws w))).

(** The raw draw, used to salt a password hash. *)
Definition random_draw : M (world D) nat :=
  fun w =>
    (Ok (random w (draws w)),
     mkWorld (db w) (faults w) (clock w) (ticks w) (random w) (S (draws w))).

(** The next [n] database operations succeed. *)
Definition quiet (n : nat) (w : world D) : Prop :=
  existsb (fun failing : bool => failing) (firstn n (faults w)) = false.

(** The world after a database operation that changed nothing. *)
Definition after_db_op (w : world D) : world D :=
  set_faults (tl (faults w)) w.

(** [w2] is a later world in which the database is still the one of
    [w] and the next database operation succeeds. *)
Definition later (w w2 : world D) : Prop :=
  db w2 = db w /\ quiet 1 w2.


(** The database operations made between [w] and [w'] all succeeded. *)
Definition all_succeeded (w w' : world D) : Prop :=
  exists fs, faults w = (fs ++ faults w')%list /\
             existsb (fun failing : bool => failing) fs = false.

(** [m] hides no failure of the database: if one of its operations
    fails, [m] throws [ServiceError]. *)
Definition tracked {A} (m : M (world D) A) : Prop :=
  forall w,
    match m w with
    | (Ok _, w') => all_succeeded w w'
    | (Throw e, w') => all_succeeded w w' \/ e = ServiceError
    end.

End Primitives.

End Runtime.

Import Runtime.

(** ** Query helpers shared by the database models *)

Module Query.

(** Sorting a query result on a date key: [sort({ key: 1 })] and
    [ORDER BY key ASC] ascend, [sort({ key: -1 })] and [ORDER BY key DESC]
    descend.  Insertion sort, stable. *)
Fixpoint insert_by {A} (le : A -> A -> bool) (x : A) (l : list A) : list A :=
  match l with
  | [] => [x]
  | y :: t => if le x y then x :: y :: t else y :: insert_by le x t
  end.

Fixpoint sort_by {A} (le : A -> A -> bool) (l : list A) : list A :=
  match l with
  | [] => []
  | x :: t => insert_by le x (sort_by le t)
  end.

Definition ascending {A} (key : A -> Z) (x y : A) : bool :=
  Z.leb (key x) (key y).

Definition descending {A} (key : A -> Z) (x y : A) : bool :=
  Z.leb (key y) (key x).

(** Drop the first element that satisfies [f] ([deleteOne]). *)
Fixpoint remove_first {A} (f : A -> bool) (l : list A) : list A :=
  match l with
  | [] => []
  | x :: t => if f x then t else x :: remove_first f t
  end.

(** Change the first element that satisfies [f] ([findOneAndUpdate]). *)
Fixpoint update_first {A} (f : A -> bool) (g : A -> A) (l : list A) : list A :=
  match l with
  | [] => []
  | x :: t => if f x then g x :: t else x :: update_first f g t
  end.

End Query.

Import Query.

(** ** The token-based server: [src/server.ts] and [src/unnamed/part_001]

    The two files share their schemas, the [authenticateToken] middleware
    and every route except [POST /api/chat] and [POST /api/generate-image],
    which are embedded once per file. *)

Module Mongo.

Inductive revision : Type :=
| ServerTs    (* src/server.ts *)
| Part001.    (* src/unnamed/part_001 *)

(** [mongoose.Schema.Types.ObjectId] and [Date] values. *)
Definition ObjectId : Type := nat.
Definition Date : Type := Z.

(** *** Schemas *)

(** [userSchema] *)
Record User : Type := mkUser {
  u_id : ObjectId;
  u_name : string;
  u_email : string;
  u_password : string;
  u_avatarColor : string }.

(** [conversationSchema] *)
Record Conversation : Type := mkConversation {
  c_id : ObjectId;
  c_userId : ObjectId;
  c_title : string;
  c_updatedAt : Date }.

(** [role: { type: String, enum: ['user', 'ai'] }] *)
Inductive Role : Type := RoleUser | RoleAi.

Definition Role_string (r : Role) : string :=
  match r with RoleUser => "user" | RoleAi => "ai" end.

(** [messageSchema] *)
Record Message : Type := mkMessage {
  m_id : ObjectId;
  m_conversationId : ObjectId;
  m_userId : ObjectId;
  m_role : Role;
  m_text : string;
  m_timestamp : Date }.

(** [projectSchema]: [description] and [content] are not required. *)
Record Project : Type := mkProject {
  p_id : ObjectId;
  p_userId : ObjectId;
  p_name : string;
  p_description : option string;
  p_content : option string;
  p_createdAt : Date }.

(** [taskSchema] *)
Record Task : Type := mkTask {
  t_id : ObjectId;
  t_userId : ObjectId;
  t_title : string;
  t_completed : bool;
  t_createdAt : Date }.

(** The five collections behind the models [User], [Conversation],
    [Message], [Project] and [Task], and the supply of fresh [_id]s. *)
Record database : Type := mkDatabase {
  users : list User;
  conversations : list Conversation;
  messages : list Message;
  projects : list Project;
  tasks : list Task;
  next_id : ObjectId }.

Definition H (A : Type) : Type := M (world database) A.

(** The [_id] a document gets at [new Model(...)]. *)
Definition fresh_id : H ObjectId :=
  fun w =>
    let d := db w in
    (Ok (next_id d),
     set_db (mkDatabase (users d) (conversations d) (messages d)
                        (projects d) (tasks d) (S (next_id d))) w).

(** *** Mongoose operations used by the routes *)

(** [User.findOne({ email })] *)
Definition User_findOne (email : string) : H (option User) :=
  await_db ;;;
  d <- get_db ;;
  ret (find (fun u => u_email u =? email) (users d)).

(** [new User({ name, email, password, avatarColor })] then
    [user.save()].  The three strings are [required] (Mongoose rejects
    an empty string for a required [String] path) and [email] is
    [unique]. *)
Definition User_save (name email password avatarColor : string) : H User :=
  id <- fresh_id ;;
  if (name =? "") || (email =? "") || (password =? "")
  then throw ValidationError
  else
    await_db ;;;
    d <- get_db ;;
    if existsb (fun u => u_email u =? email) (users d)
    then throw ServiceError
    else
      let u := mkUser id name email password avatarColor in
      put_db (mkDatabase (users d ++ [u]) (conversations d) (messages d)
                         (projects d) (tasks d) (next_id d)) ;;;
      ret u.

(** [new Conversation({ userId, title })] then [conv.save()];
    [updatedAt] takes its default [Date.now]. *)
Definition Conversation_save (userId : ObjectId) (title : string) : H Conversation :=
  id <- fresh_id ;;
  now <- Date_now ;;
  await_db ;;;
  d <- get_db ;;
  let c := mkConversation id userId title now in
  put_db (mkDatabase (users d) (conversations d ++ [c]) (messages d)
                     (projects d) (tasks d) (next_id d)) ;;;
  ret c.

(** [Conversation.findByIdAndUpdate(conversationId, { updatedAt })]: the
    document with that [_id], whoever owns it, gets the new date; no
    document matches a missing id. *)
Definition touch (id : ObjectId) (now : Date) (c : Conversation) : Conversation :=
  if Nat.eqb (c_id c) id then mkConversation (c_id c) (c_userId c) (c_title c) now else c.

Definition Conversation_findByIdAndUpdate
  (conversationId : option ObjectId) (now : Date) : H unit :=
  await_db ;;;
  d <- get_db ;;
  match conversationId with
  | None => ret tt
  | Some id =>
      put_db (mkDatabase (users d) (map (touch id now) (conversations d))
                         (messages d) (projects d) (tasks d) (next_id d))
  end.

(** [new Message({ conversationId, userId, role, text })] then
    [msg.save()].  [conversationId] and [text] are [required]; [timestamp]
    takes its default [Date.now]. *)
Definition Message_save
  (conversationId : option ObjectId) (userId : ObjectId)
  (role : Role) (text : string) : H Message :=
  id <- fresh_id ;;
  now <- Date_now ;;
  match conversationId with
  | None => throw ValidationError
  | Some cid =>
      if text =? "" then throw ValidationError
      else
        await_db ;;;
        d <- get_db ;;
        let m := mkMessage id cid userId role text now in
        put_db (mkDatabase (users d) (conversations d) (messages d ++ [m])
                           (projects d) (tasks d) (next_id d)) ;;;
        ret m
  end.

(** [new Project({ userId, name, description, content })] then
    [project.save()]; [name] is [required]. *)
Definition Project_save
  (userId : ObjectId) (name description content : option string) : H Project :=
  id <- fresh_id ;;
  now <- Date_now ;;
  match name with
  | None => throw ValidationError
  | Some n =>
      if n =? "" then throw ValidationError
      else
        await_db ;;;
        d <- get_db ;;
        let p := mkProject id userId n description content now in
        put_db (mkDatabase (users d) (conversations d) (messages d)
                           (projects d ++ [p]) (tasks d) (next_id d)) ;;;
        ret p
  end.

(** [new Task({ userId, title })] then [task.save()]; [title] is
    [required], [completed] defaults to [false]. *)
Definition Task_save (userId : ObjectId) (title : option string) : H Task :=
  id <- fresh_id ;;
  now <- Date_now ;;
  match title with
  | None => throw ValidationError
  | Some t =>
      if t =? "" then throw ValidationError
      else
        await_db ;;;
        d <- get_db ;;
        let k := mkTask id userId t false now in
        put_db (mkDatabase (users d) (conversations d) (messages d)
                           (projects d) (tasks d ++ [k]) (next_id d)) ;;;
        ret k
  end.

(** [Conversation.find({ userId }).sort({ updatedAt: -1 })] *)
Definition Conversation_find (userId : ObjectId) : H (list Conversation) :=
  await_db ;;;
  d <- get_db ;;
  ret (sort_by (descending c_updatedAt)
         (filter (fun c => Nat.eqb (c_userId c) userId) (conversations d))).

(** [Message.find({ userId, conversationId }).sort({ timestamp: 1 })];
    a missing [conversationId] matches no message, since the path is
    required in every stored one. *)
Definition Message_find
  (userId : ObjectId) (conversationId : option ObjectId) : H (list Message) :=
  await_db ;;;
  d <- get_db ;;
  ret (sort_by (ascending m_timestamp)
         (filter (fun m =>
                    Nat.eqb (m_userId m) userId &&
                    match conversationId with
                    | Some cid => Nat.eqb (m_conversationId m) cid
                    | None => false
                    end)
                 (messages d))).

(** [Project.find({ userId }).sort({ createdAt: -1 })] *)
Definition Project_find (userId : ObjectId) : H (list Project) :=
  await_db ;;;
  d <- get_db ;;
  ret (sort_by (descending p_createdAt)
         (filter (fun p => Nat.eqb (p_userId p) userId) (projects d))).

(** [Task.find({ userId }).sort({ createdAt: -1 })] *)
Definition Task_find (userId : ObjectId) : H (list Task) :=
  await_db ;;;
  d <- get_db ;;
  ret (sort_by (descending t_createdAt)
         (filter (fun t => Nat.eqb (t_userId t) userId) (tasks d))).

(** [Message.deleteMany({ conversationId: id, userId })] *)
Definition Message_deleteMany (id userId : ObjectId) : H unit :=
  await_db ;;;
  d <- get_db ;;
  put_db (mkDatabase (users d) (conversations d)
            (filter (fun m => negb (Nat.eqb (m_conversationId m) id &&
                                    Nat.eqb (m_userId m) userId))
                    (messages d))
            (projects d) (tasks d) (next_id d)).

(** [Conversation.deleteOne({ _id: id, userId })] *)
Definition Conversation_deleteOne (id userId : ObjectId) : H unit :=
  await_db ;;;
  d <- get_db ;;
  put_db (mkDatabase (users d)
            (remove_first (fun c => Nat.eqb (c_id c) id &&
                                    Nat.eqb (c_userId c) userId)
                          (conversations d))
            (messages d) (projects d) (tasks d) (next_id d)).

(** [Task.findOneAndUpdate({ _id: id, userId }, { completed })]; an
    [undefined] value sets nothing. *)
Definition Task_findOneAndUpdate
  (id userId : ObjectId) (completed : option bool) : H unit :=
  await_db ;;;
  d <- get_db ;;
  match completed with
  | None => ret tt
  | Some b =>
      put_db (mkDatabase (users d) (conversations d) (messages d) (projects d)
                (update_first
                   (fun t => Nat.eqb (t_id t) id && Nat.eqb (t_userId t) userId)
                   (fun t => mkTask (t_id t) (t_userId t) (t_title t) b
                                    (t_createdAt t))
                   (tasks d))
                (next_id d))
  end.

(** *** JSON shape of the documents ([res.json(doc)]).  An [ObjectId]
    and a [Date] are shown as the number that stands for them here. *)

Definition JId (id : ObjectId) : json := JNum (Z.of_nat id).

Definition User_public (id : ObjectId) (name email avatarColor : string) : json :=
  JObj [("id", JId id); ("name", JStr name); ("email", JStr email);
        ("avatarColor", JStr avatarColor)].

Definition Conversation_summary (c : Conversation) : json :=
  JObj [("id", JId (c_id c)); ("title", JStr (c_title c));
        ("updated_at", JNum (c_updatedAt c))].

Definition Message_toJSON (m : Message) : json :=
  JObj [("_id", JId (m_id m)); ("conversationId", JId (m_conversationId m));
        ("userId", JId (m_userId m)); ("role", JStr (Role_string (m_role m)));
        ("text", JStr (m_text m)); ("timestamp", JNum (m_timestamp m));
        ("__v", JNum 0)].

Definition Project_toJSON (p : Project) : json :=
  JObj ([("_id", JId (p_id p)); ("userId", JId (p_userId p));
         ("name", JStr (p_name p))]
        ++ opt_field "description" (p_description p)
        ++ opt_field "content" (p_content p)
        ++ [("createdAt", JNum (p_createdAt p)); ("__v", JNum 0)]).

Definition Task_toJSON (t : Task) : json :=
  JObj [("_id", JId (t_id t)); ("userId", JId (t_userId t));
        ("title", JStr (t_title t)); ("completed", JBool (t_completed t));
        ("createdAt", JNum (t_createdAt t)); ("__v", JNum 0)].

(** *** The libraries and the remote model *)

(** The claims of a token: [{ id, email }]. *)
Record Payload : Type := mkPayload { pl_id : ObjectId; pl_email : string }.

Record InlineData : Type := mkInlineData { data : string; mimeType : string }.

(** A part of a model request or reply: [{ text }] or [{ inlineData }]. *)
Record Part : Type := mkPart {
  part_text : option string;
  part_inlineData : option InlineData }.

Record Content : Type := mkContent { role : string; parts : list Part }.

(** What [chat.sendMessage] is given: a string in [src/server.ts], an
    array of parts in [part_001]. *)
Inductive ChatRequest : Type :=
| SendText (text : string)
| SendParts (ps : list Part).

Record Candidate : Type := mkCandidate {
  cand_parts : option (option (list Part)) }.
(* [candidate.content?.parts]: [None] when [content] is missing,
   [Some None] when [content] has no [parts]. *)

Record GenerateContentResponse : Type := mkGenerateContentResponse {
  candidates : option (list Candidate) }.

(** [jsonwebtoken] with [JWT_SECRET], [bcryptjs], and the two calls to
    the generative model.  A model call names the model it was set up
    with and either returns or throws. *)
Record Oracles : Type := mkOracles {
  jwt_sign : Payload -> string;
  jwt_verify : string -> option Payload;
  bcrypt_hash : string -> nat -> string;
  bcrypt_compare : string -> string -> bool;
  sendMessage : string -> list Content -> ChatRequest -> outcome string;
  generateContent : string -> string -> outcome GenerateContentResponse }.

(** *** Request bodies, as the routes destructure them.  A field that
    may be absent from the JSON body is an [option]. *)

Record signup_body : Type := mkSignupBody {
  sb_name : option string;
  sb_email : option string;
  sb_password : option string }.

(** The login route reads [email] and [password] without a guard.
    [email] is the string the query is made with; [password] is [None]
    when the body carries none, or one that is not a string. *)
Record login_body : Type := mkLoginBody {
  lb_email : string;
  lb_password : option string }.

(** An entry of [history]: the client sends its [messages] state. *)
Record HistoryMsg : Type := mkHistoryMsg { h_role : string; h_text : string }.

Record chat_body : Type := mkChatBody {
  cb_conversationId : option ObjectId;
  cb_text : option string;
  cb_history : option (list HistoryMsg);
  cb_image : option InlineData }.

Record project_body : Type := mkProjectBody {
  pb_name : option string;
  pb_description : option string;
  pb_content : option string }.

(** *** Middleware *)

(** [authHeader && authHeader.split(' ')[1]] *)
Definition bearer_token (authHeader : option string) : option string :=
  match authHeader with
  | None => None
  | Some h => if h =? "" then Some "" else nth_error (split " " h) 1
  end.

Section Routes.

Variable O : Oracles.

(** [authenticateToken]: the response it sends itself, or the claims it
    stores in [req.user] before calling [next()]. *)
Definition authenticateToken (authHeader : option string) : response + Payload :=
  match truthy (bearer_token authHeader) with
  | None => inl (res_error 401 "Access denied. Token missing.")
  | Some token =>
      match jwt_verify O token with
      | None => inl (res_error 403 "Invalid token.")
      | Some user => inr user
      end
  end.

(** *** Auth routes *)

Definition colors : list string :=
  ["#4a90e2"; "#e24a4a"; "#4ae285"; "#e2a74a"; "#9b4ae2"].

Definition token_response (token : string) (user : json) : response :=
  res_json (JObj [("token", JStr token); ("user", user)]).

(** [POST /api/auth/signup], the [try] block. *)
Definition signup_try (b : signup_body) : H response :=
  match truthy (sb_name b), truthy (sb_email b), truthy (sb_password b) with
  | Some name, Some email, Some password =>
      existingUser <- User_findOne email ;;
      match existingUser with
      | Some _ => ret (res_error 400 "Email already exists")
      | None =>
          salt <- random_draw ;;
          let hashedPassword := bcrypt_hash O password salt in
          k <- random_below (List.length colors) ;;
          let avatarColor := nth k colors "#4a90e2" in
          user <- User_save name email hashedPassword avatarColor ;;
          let token := jwt_sign O (mkPayload (u_id user) (u_email user)) in
          ret (token_response token
                 (User_public (u_id user) name email avatarColor))
      end
  | _, _, _ => ret (res_error 400 "Missing fields")
  end.

(** [await bcrypt.compare(password, hash)]: [bcryptjs] rejects the call
    when [password] is not a string. *)
Definition compare_password (password : option string) (hash : string) : H bool :=
  match password with
  | Some p => ret (bcrypt_compare O p hash)
  | None => throw IllegalArguments
  end.

(** [POST /api/auth/login], the [try] block. *)
Definition login_try (b : login_body) : H response :=
  user <- User_findOne (lb_email b) ;;
  match user with
  | None => ret (res_error 401 "Invalid credentials")
  | Some u =>
      isMatch <- compare_password (lb_password b) (u_password u) ;;
      if isMatch : bool
      then
        let token := jwt_sign O (mkPayload (u_id u) (u_email u)) in
        ret (token_response token
               (User_public (u_id u) (u_name u) (u_email u) (u_avatarColor u)))
      else ret (res_error 401 "Invalid credentials")
  end.

(** *** Chat route *)

(** [{ role: msg.role === 'user' ? 'user' : 'model', parts: [{ text: msg.text }] }] *)
Definition format_history (msg : HistoryMsg) : Content :=
  mkContent (if h_role msg =? "user" then "user" else "model")
            [mkPart (Some (h_text msg)) None].

(** [POST /api/chat] of [src/server.ts], the [try] block. *)
Definition chat_try_server_ts (user : Payload) (b : chat_body) : H response :=
  let userId := pl_id user in
  match truthy (cb_text b) with
  | None => ret (res_error 400 "Message text is required")
  | Some text =>
      _ <- Message_save (cb_conversationId b) userId RoleUser text ;;
      now <- Date_now ;;
      Conversation_findByIdAndUpdate (cb_conversationId b) now ;;;
      chatHistory <- match cb_history b with
                     | None => throw TypeError      (* [history.map] on [undefined] *)
                     | Some h => ret (map format_history h)
                     end ;;
      aiText <- lift_outcome
                  (sendMessage O "gemini-1.5-flash" chatHistory (SendText text)) ;;
      _ <- Message_save (cb_conversationId b) userId RoleAi aiText ;;
      ret (res_json (JObj [("text", JStr aiText)]))
  end.

(** The [parts] array that [part_001] builds for [chat.sendMessage]. *)
Definition chat_parts (text : option string) (image : option InlineData) : list Part :=
  List.app
    match truthy text with
    | Some t => [mkPart (Some t) None]
    | None => []
    end
    match image with
    | Some i => [mkPart None (Some (mkInlineData (data i) (mimeType i)))]
    | None => []
    end.

(** [POST /api/chat] of [part_001], the [try] block. *)
Definition chat_try_part_001 (user : Payload) (b : chat_body) : H response :=
  let userId := pl_id user in
  match truthy (cb_text b), cb_image b with
  | None, None => ret (res_error 400 "Message text or image is required")
  | _, _ =>
      _ <- Message_save (cb_conversationId b) userId RoleUser
             (or_else (cb_text b) "[Image attached]") ;;
      now <- Date_now ;;
      Conversation_findByIdAndUpdate (cb_conversationId b) now ;;;
      let chatHistory :=
        map format_history (match cb_history b with Some h => h | None => [] end) in
      aiText <- lift_outcome
                  (sendMessage O "gemini-3-flash-preview" chatHistory
                     (SendParts (chat_parts (cb_text b) (cb_image b)))) ;;
      _ <- Message_save (cb_conversationId b) userId RoleAi aiText ;;
      ret (res_json (JObj [("text", JStr aiText)]))
  end.

(** *** Image route *)

(** [POST /api/generate-image] of [src/server.ts], the [try] block: the
    model is called and its result is not used. *)
Definition generate_image_try_server_ts (prompt : option string) : H response :=
  match truthy prompt with
  | None => ret (res_error 400 "Prompt is required")
  | Some p =>
      _ <- lift_outcome (generateContent O "gemini-1.5-flash" p) ;;
      ret (res_error 501
             "Image generation not yet implemented on backend with this model.")
  end.

(** [result.response.candidates?.[0]?.content?.parts] *)
Definition first_candidate_parts (r : GenerateContentResponse) : option (list Part) :=
  match candidates r with
  | None => None
  | Some cs =>
      match cs with
      | [] => None
      | c :: _ =>
          match cand_parts c with
          | Some (Some ps) => Some ps
          | _ => None
          end
      end
  end.

(** The loop over [parts]: the first part with [inlineData]. *)
Fixpoint first_inlineData (ps : list Part) : option InlineData :=
  match ps with
  | [] => None
  | p :: rest =>
      match part_inlineData p with
      | Some i => Some i
      | None => first_inlineData rest
      end
  end.

Definition imageUrl (i : InlineData) : string :=
  "data:" ++ mimeType i ++ ";base64," ++ data i.

(** [POST /api/generate-image] of [part_001], the [try] block. *)
Definition generate_image_try_part_001 (prompt : option string) : H response :=
  match truthy prompt with
  | None => ret (res_error 400 "Prompt is required")
  | Some p =>
      result <- lift_outcome (generateContent O "gemini-2.5-flash-image" p) ;;
      match first_candidate_parts result with
      | Some ps =>
          match first_inlineData ps with
          | Some i => ret (res_json (JObj [("imageUrl", JStr (imageUrl i))]))
          | None => ret (res_error 500 "No image generated in response")
          end
      | None => ret (res_error 500 "No image generated in response")
      end
  end.

(** *** Conversations, messages, projects, tasks *)

Definition conversations_get_try (user : Payload) : H response :=
  convs <- Conversation_find (pl_id user) ;;
  ret (res_json (JArr (map Conversation_summary convs))).

Definition conversations_post_try (user : Payload) (title : option string) : H response :=
  conv <- Conversation_save (pl_id user) (or_else title "New Chat") ;;
  ret (res_json (JObj [("id", JId (c_id conv)); ("title", JStr (c_title conv))])).

Definition conversations_delete_try (user : Payload) (id : ObjectId) : H response :=
  Message_deleteMany id (pl_id user) ;;;
  Conversation_deleteOne id (pl_id user) ;;;
  ret (res_json success_body).

Definition messages_get_try (user : Payload) (conversationId : option ObjectId) : H response :=
  msgs <- Message_find (pl_id user) conversationId ;;
  ret (res_json (JArr (map Message_toJSON msgs))).

Definition projects_get_try (user : Payload) : H response :=
  ps <- Project_find (pl_id user) ;;
  ret (res_json (JArr (map Project_toJSON ps))).

Definition projects_post_try (user : Payload) (b : project_body) : H response :=
  project <- Project_save (pl_id user) (pb_name b) (pb_description b) (pb_content b) ;;
  ret (res_json (Project_toJSON project)).

Definition tasks_get_try (user : Payload) : H response :=
  ts <- Task_find (pl_id user) ;;
  ret (res_json (JArr (map Task_toJSON ts))).

Definition tasks_post_try (user : Payload) (title : option string) : H response :=
  task <- Task_save (pl_id user) title ;;
  ret (res_json (Task_toJSON task)).

Definition tasks_patch_try
  (user : Payload) (id : ObjectId) (completed : option bool) : H response :=
  Task_findOneAndUpdate id (pl_id user) completed ;;;
  ret (res_json success_body).

(** *** The route table *)

(** A request as it reaches the server.  A protected route carries the
    [authorization] header that [authenticateToken] reads. *)
Inductive api_request : Type :=
| PostSignup (b : signup_body)
| PostLogin (b : login_body)
| PostChat (auth : option string) (b : chat_body)
| PostGenerateImage (auth : option string) (prompt : option string)
| GetConversations (auth : option string)
| PostConversations (auth : option string) (title : option string)
| DeleteConversation (auth : option string) (id : ObjectId)
| GetMessages (auth : option string) (conversationId : option ObjectId)
| GetProjects (auth : option string)
| PostProjects (auth : option string) (b : project_body)
| GetTasks (auth : option string)
| PostTasks (auth : option string) (title : option string)
| PatchTask (auth : option string) (id : ObjectId) (completed : option bool).

(** The header of a protected route; [None] for the two public ones. *)
Definition protected (r : api_request) : option (option string) :=
  match r with
  | PostSignup _ | PostLogin _ => None
  | PostChat a _ | PostGenerateImage a _ | GetConversations a
  | PostConversations a _ | DeleteConversation a _ | GetMessages a _
  | GetProjects a | PostProjects a _ | GetTasks a | PostTasks a _
  | PatchTask a _ _ => Some a
  end.

(** The [try] block of the route, run once the middleware let the
    request through; [user] is [req.user] (unused by public routes). *)
Definition try_block (v : revision) (r : api_request) (user : Payload) : H response :=
  match r with
  | PostSignup b => signup_try b
  | PostLogin b => login_try b
  | PostChat _ b =>
      match v with
      | ServerTs => chat_try_server_ts user b
      | Part001 => chat_try_part_001 user b
      end
  | PostGenerateImage _ prompt =>
      match v with
      | ServerTs => generate_image_try_server_ts prompt
      | Part001 => generate_image_try_part_001 prompt
      end
  | GetConversations _ => conversations_get_try user
  | PostConversations _ title => conversations_post_try user title
  | DeleteConversation _ id => conversations_delete_try user id
  | GetMessages _ cid => messages_get_try user cid
  | GetProjects _ => projects_get_try user
  | PostProjects _ b => projects_post_try user b
  | GetTasks _ => tasks_get_try user
  | PostTasks _ title => tasks_post_try user title
  | PatchTask _ id completed => tasks_patch_try user id completed
  end.

(** The [catch] block of the route. *)
Definition catch_block (r : api_request) (e : error) : response :=
  match r with
  | PostSignup _ => res_error 500 "Signup failed"
  | PostLogin _ => res_error 500 "Login failed"
  | PostChat _ _ => res_error 500 "Failed to get AI response"
  | PostGenerateImage _ _ => res_error 500 "Image generation failed"
  | GetConversations _ => res_error 500 "Failed to fetch conversations"
  | PostConversations _ _ => res_error 500 "Failed to create conversation"
  | DeleteConversation _ _ => res_error 500 "Failed to delete conversation"
  | GetMessages _ _ => res_error 500 "Failed to fetch messages"
  | GetProjects _ => res_error 500 "Failed to fetch projects"
  | PostProjects _ _ => res_error 500 "Failed to create project"
  | GetTasks _ => res_error 500 "Failed to fetch tasks"
  | PostTasks _ _ => res_error 500 "Failed to create task"
  | PatchTask _ _ _ => res_error 500 "Failed to update task"
  end.

(** [async (req, res) => { try { ... } catch (error) { ... } }] *)
Definition run (v : revision) (r : api_request) (user : Payload) : H response :=
  try_catch (try_block v r user) (fun e => ret (catch_block r e)).

(** The whole route: middleware, then the handler. *)
Definition handle (v : revision) (r : api_request) : H response :=
  match protected r with
  | None => run v r (mkPayload 0 "")
  | Some authHeader =>
      match authenticateToken authHeader with
      | inl refusal => ret refusal
      | inr user => run v r user
      end
  end.

(** A request as it arrives.  [app.use(express.json())] runs before
    every route: a body that is not well-formed JSON raises a
    [SyntaxError] there, no route is reached, and Express's default error
    handler answers with the status of the error, 400, and an HTML
    page. *)
Inductive incoming : Type :=
| Parsed (r : api_request)
| Malformed.

Definition serve (v : revision) (i : incoming) : H reply :=
  match i with
  | Parsed r => resp <- handle v r ;; ret (Json resp)
  | Malformed => ret (ErrorPage 400)
  end.

(** *** Vocabulary for statements about exceptions *)

(** An exception is raised while the request is handled: the body does
    not parse, or the [try] block of the route throws. *)
Definition raises (v : revision) (i : incoming) (w : world database) : Prop :=
  match i with
  | Malformed => True
  | Parsed r =>
      match protected r with
      | None => exists e w1, try_block v r (mkPayload 0 "") w = (Throw e, w1)
      | Some authHeader =>
          match authenticateToken authHeader with
          | inl _ => False
          | inr user => exists e w1, try_block v r user w = (Throw e, w1)
          end
      end
  end.

(** "Whenever an exception is raised during request handling, the
    response is a JSON body that holds an error message only, with a
    5xx status." *)
Definition every_exception_gets_5xx (v : revision) : Prop :=
  forall (i : incoming) (w : world database),
    raises v i w ->
    exists resp w',
      serve v i w = (Ok (Json resp), w') /\
      is_5xx (status resp) = true /\ error_only (body resp).

(** *** Vocabulary for statements about the chat route *)

(** The model each revision sets up for chat. *)
Definition chat_model (v : revision) : string :=
  match v with
  | ServerTs => "gemini-1.5-flash"
  | Part001 => "gemini-3-flash-preview"
  end.

(** The text stored for the user's message when the request passes the
    first guard of the route; [None] when the guard answers 400. *)
Definition user_text (v : revision) (b : chat_body) : option string :=
  match v with
  | ServerTs => truthy (cb_text b)
  | Part001 =>
      match truthy (cb_text b), cb_image b with
      | None, None => None
      | _, _ => Some (or_else (cb_text b) "[Image attached]")
      end
  end.

(** The history that is formatted for the model; [None] when formatting
    it throws. *)
Definition chat_history (v : revision) (b : chat_body) : option (list HistoryMsg) :=
  match v with
  | ServerTs => cb_history b
  | Part001 => Some (match cb_history b with Some h => h | None => [] end)
  end.

(** What is passed to [chat.sendMessage]. *)
Definition chat_message (v : revision) (b : chat_body) (text : string) : ChatRequest :=
  match v with
  | ServerTs => SendText text
  | Part001 => SendParts (chat_parts (cb_text b) (cb_image b))
  end.

(** The reply of the model to the request [b]: the history of [b]
    formatted, and its message. *)
Definition model_reply (v : revision) (b : chat_body) (text : string)
  (h : list HistoryMsg) : outcome string :=
  sendMessage O (chat_model v) (map format_history h) (chat_message v b text).

(** The user's message and the model's reply as the route stores them
    when it starts in the world [w]. *)
Definition user_message (w : world database) (cid uid : ObjectId) (text : string) : Message :=
  mkMessage (next_id (db w)) cid uid RoleUser text (clock w (ticks w)).

Definition ai_message (w : world database) (cid uid : ObjectId) (reply : string) : Message :=
  mkMessage (S (next_id (db w))) cid uid RoleAi reply (clock w (S (S (ticks w)))).

(** The world in which the route calls the model: the user's message is
    stored and the conversation carries its new date. *)
Definition world_at_model_call
  (w : world database) (cid uid : ObjectId) (text : string) : world database :=
  mkWorld
    (mkDatabase (users (db w))
       (map (touch cid (clock w (S (ticks w)))) (conversations (db w)))
       (messages (db w) ++ [user_message w cid uid text])
       (projects (db w)) (tasks (db w)) (S (next_id (db w))))
    (tl (tl (faults w))) (clock w) (S (S (ticks w))) (random w) (draws w).

(** The world in which the route answers with the reply. *)
Definition world_after_reply
  (w : world database) (cid uid : ObjectId) (text reply : string) : world database :=
  mkWorld
    (mkDatabase (users (db w))
       (map (touch cid (clock w (S (ticks w)))) (conversations (db w)))
       (messages (db w) ++ [user_message w cid uid text; ai_message w cid uid reply])
       (projects (db w)) (tasks (db w)) (S (S (next_id (db w)))))
    (tl (tl (tl (faults w)))) (clock w) (S (S (S (ticks w)))) (random w) (draws w).

(** The pass-through cycle of one chat request of [user] carrying
    [text], from the world [w] to the world [w'] with the response [r]:
    the user's message is saved, the model is given the history and the
    text, its reply is saved as an ['ai'] message of the same
    conversation, and the response is [{ text: reply }]. *)
Definition pass_through
  (v : revision) (user : Payload) (b : chat_body) (text : string)
  (w w' : world database) (r : response) : Prop :=
  exists (cid : ObjectId) (h : list HistoryMsg) (reply : string) (um am : Message),
    cb_conversationId b = Some cid /\
    chat_history v b = Some h /\
    model_reply v b text h = Ok reply /\
    (chat_message v b text = SendText text \/
     exists ps, chat_message v b text = SendParts (mkPart (Some text) None :: ps)) /\
    m_conversationId um = cid /\ m_userId um = pl_id user /\
    m_role um = RoleUser /\ m_text um = text /\
    m_conversationId am = cid /\ m_userId am = pl_id user /\
    m_role am = RoleAi /\ m_text am = reply /\
    messages (db w') = (messages (db w) ++ [um; am])%list /\
    r = res_json (JObj [("text", JStr reply)]).

(** "Every authenticated chat request carrying a message text goes
    through the cycle." *)
Definition every_chat_request_passes_through (v : revision) : Prop :=
  forall (auth : option string) (user : Payload) (b : chat_body) (text : string)
         (w : world database),
    authenticateToken auth = inr user ->
    truthy (cb_text b) = Some text ->
    exists w' r,
      handle v (PostChat auth b) w = (Ok r, w') /\
      pass_through v user b text w w' r.

(** *** Vocabulary for statements about the image route *)

(** The model each revision asks for an image. *)
Definition image_model (v : revision) : string :=
  match v with
  | ServerTs => "gemini-1.5-flash"
  | Part001 => "gemini-2.5-flash-image"
  end.

(** "Whenever the model returns image data for the prompt of an
    authenticated request, the response carries the image URL made from
    it."  Image data is an [inlineData] part of the first candidate. *)
Definition every_image_request_gets_an_image (v : revision) : Prop :=
  forall (auth : option string) (user : Payload) (prompt : option string)
         (p : string) (w : world database)
         (res : GenerateContentResponse) (ps : list Part) (i : InlineData),
    authenticateToken auth = inr user ->
    truthy prompt = Some p ->
    generateContent O (image_model v) p = Ok res ->
    first_candidate_parts res = Some ps ->
    first_inlineData ps = Some i ->
    handle v (PostGenerateImage auth prompt) w =
    (Ok (res_json (JObj [("imageUrl", JStr (imageUrl i))])), w).

(** *** Vocabulary for statements about persistence

    Each definition reads: whenever the creation request is answered
    200, a record with the request's data is in the collection, and in
    any later world with the same database whose next operation
    succeeds the fetch of
    the same user answers with it. *)

Definition signup_is_fetched (v : revision) : Prop :=
  forall (b : signup_body) (w w' : world database) (r : response),
    handle v (PostSignup b) w = (Ok r, w') ->
    status r = 200 ->
    exists (name email password : string) (u : User),
      truthy (sb_name b) = Some name /\
      truthy (sb_email b) = Some email /\
      truthy (sb_password b) = Some password /\
      In u (users (db w')) /\ u_name u = name /\ u_email u = email /\
      forall w2, later w' w2 ->
        handle v (PostLogin (mkLoginBody email (Some password))) w2 =
        (Ok (token_response (jwt_sign O (mkPayload (u_id u) email))
               (User_public (u_id u) name email (u_avatarColor u))),
         after_db_op w2).

Definition conversation_is_fetched (v : revision) : Prop :=
  forall (auth : option string) (user : Payload) (title : option string)
         (w w' : world database) (r : response),
    authenticateToken auth = inr user ->
    handle v (PostConversations auth title) w = (Ok r, w') ->
    status r = 200 ->
    exists c : Conversation,
      In c (conversations (db w')) /\ c_userId c = pl_id user /\
      r = res_json (JObj [("id", JId (c_id c)); ("title", JStr (c_title c))]) /\
      forall w2, later w' w2 ->
        exists r2, handle v (GetConversations auth) w2 = (Ok r2, after_db_op w2) /\
                   returns_item Conversation_summary c r2.

Definition messages_are_fetched (v : revision) : Prop :=
  forall (auth : option string) (user : Payload) (b : chat_body)
         (w w' : world database) (r : response),
    authenticateToken auth = inr user ->
    handle v (PostChat auth b) w = (Ok r, w') ->
    status r = 200 ->
    exists (um am : Message),
      In um (messages (db w')) /\ In am (messages (db w')) /\
      m_role um = RoleUser /\ user_text v b = Some (m_text um) /\
      m_role am = RoleAi /\ r = res_json (JObj [("text", JStr (m_text am))]) /\
      forall w2, later w' w2 ->
        exists r2,
          handle v (GetMessages auth (cb_conversationId b)) w2 = (Ok r2, after_db_op w2) /\
          returns_item Message_toJSON um r2 /\
          returns_item Message_toJSON am r2.

Definition project_is_fetched (v : revision) : Prop :=
  forall (auth : option string) (user : Payload) (b : project_body)
         (w w' : world database) (r : response),
    authenticateToken auth = inr user ->
    handle v (PostProjects auth b) w = (Ok r, w') ->
    status r = 200 ->
    exists p : Project,
      In p (projects (db w')) /\ p_userId p = pl_id user /\
      Some (p_name p) = pb_name b /\ r = res_json (Project_toJSON p) /\
      forall w2, later w' w2 ->
        exists r2, handle v (GetProjects auth) w2 = (Ok r2, after_db_op w2) /\
                   returns_item Project_toJSON p r2.

Definition task_is_fetched (v : revision) : Prop :=
  forall (auth : option string) (user : Payload) (title : option string)
         (w w' : world database) (r : response),
    authenticateToken auth = inr user ->
    handle v (PostTasks auth title) w = (Ok r, w') ->
    status r = 200 ->
    exists t : Task,
      In t (tasks (db w')) /\ t_userId t = pl_id user /\
      Some (t_title t) = title /\ r = res_json (Task_toJSON t) /\
      forall w2, later w' w2 ->
        exists r2, handle v (GetTasks auth) w2 = (Ok r2, after_db_op w2) /\
                   returns_item Task_toJSON t r2.

(** Each definition reads: a creation request that carries what the
    route and the schema ask for is answered 200 when the database
    operations it makes succeed. *)

Definition signup_succeeds (v : revision) : Prop :=
  forall (b : signup_body) (name email password : string) (w : world database),
    truthy (sb_name b) = Some name ->
    truthy (sb_email b) = Some email ->
    truthy (sb_password b) = Some password ->
    (forall u, In u (users (db w)) -> u_email u <> email) ->
    (forall salt, bcrypt_hash O password salt <> "") ->
    quiet 2 w ->
    exists r w', handle v (PostSignup b) w = (Ok r, w') /\ status r = 200.

Definition conversation_succeeds (v : revision) : Prop :=
  forall (auth : option string) (user : Payload) (title : option string)
         (w : world database),
    authenticateToken auth = inr user ->
    quiet 1 w ->
    exists r w', handle v (PostConversations auth title) w = (Ok r, w') /\
                 status r = 200.

Definition chat_succeeds (v : revision) : Prop :=
  forall (auth : option string) (user : Payload) (b : chat_body)
         (text : string) (cid : ObjectId) (h : list HistoryMsg) (reply : string)
         (w : world database),
    authenticateToken auth = inr user ->
    user_text v b = Some text ->
    cb_conversationId b = Some cid ->
    chat_history v b = Some h ->
    model_reply v b text h = Ok reply ->
    reply <> "" ->
    quiet 3 w ->
    exists r w', handle v (PostChat auth b) w = (Ok r, w') /\ status r = 200.

Definition project_succeeds (v : revision) : Prop :=
  forall (auth : option string) (user : Payload) (b : project_body)
         (name : string) (w : world database),
    authenticateToken auth = inr user ->
    truthy (pb_name b) = Some name ->
    quiet 1 w ->
    exists r w', handle v (PostProjects auth b) w = (Ok r, w') /\ status r = 200.

Definition task_succeeds (v : revision) : Prop :=
  forall (auth : option string) (user : Payload) (title : option string)
         (t : string) (w : world database),
    authenticateToken auth = inr user ->
    truthy title = Some t ->
    quiet 1 w ->
    exists r w', handle v (PostTasks auth title) w = (Ok r, w') /\ status r = 200.

End Routes.

(** *** Vocabulary for statements about what a request may change *)

(** The routes that only read: the four list routes, login and the
    image route. *)
Definition read_only (r : api_request) : bool :=
  match r with
  | PostLogin _ | PostGenerateImage _ _ | GetConversations _
  | GetMessages _ _ | GetProjects _ | GetTasks _ => true
  | _ => false
  end.

(** The records of a collection that belong to users other than [uid]. *)
Definition of_others {A} (owner : A -> ObjectId) (uid : ObjectId) (l : list A) : list A :=
  filter (fun a => negb (Nat.eqb (owner a) uid)) l.

(** A conversation without its date. *)
Definition dateless (c : Conversation) : ObjectId * ObjectId * string :=
  (c_id c, c_userId c, c_title c).

(** From [d] to [d'] the accounts are the same and so are the records
    of the users other than [uid]; a conversation is compared through
    [see]. *)
Definition others_kept {X} (see : Conversation -> X) (uid : ObjectId)
  (d d' : database) : Prop :=
  users d' = users d /\
  map see (of_others c_userId uid (conversations d')) =
  map see (of_others c_userId uid (conversations d)) /\
  of_others m_userId uid (messages d') = of_others m_userId uid (messages d) /\
  of_others p_userId uid (projects d') = of_others p_userId uid (projects d) /\
  of_others t_userId uid (tasks d') = of_others t_userId uid (tasks d).

(** What the schemas ask of the stored documents: the [required] string
    paths are not empty and [email] is [unique]. *)
Definition well_formed (d : database) : Prop :=
  Forall (fun u => u_name u <> "" /\ u_email u <> "" /\ u_password u <> "")
         (users d) /\
  NoDup (map u_email (users d)) /\
  Forall (fun m => m_text m <> "") (messages d) /\
  Forall (fun p => p_name p <> "") (projects d) /\
  Forall (fun t => t_title t <> "") (tasks d).

(** The two relations above, read on the worlds that hold the
    databases. *)
Definition kept_for {X} (see : Conversation -> X) (uid : ObjectId)
  (w w' : world database) : Prop :=
  others_kept see uid (db w) (db w').

Definition schema_kept (w w' : world database) : Prop :=
  well_formed (db w) -> well_formed (db w').

End Mongo.

(** ** The SQLite server: [src/unnamed/part_002]

    No token layer: a route learns who is asking from a [userId] in the
    body or the query string.  Statements run synchronously on one
    [better-sqlite3] connection. *)

Module Sqlite.

(** *** Tables ([CREATE TABLE IF NOT EXISTS ...]) *)

Record user_row : Type := mkUserRow {
  ur_id : nat;
  ur_name : string;
  ur_email : string;
  ur_password : string;
  ur_avatarColor : string }.

Record conversation_row : Type := mkConversationRow {
  cr_id : nat;
  cr_user_id : nat;
  cr_title : string;
  cr_updated_at : Z }.

Record chat_message_row : Type := mkChatMessageRow {
  mr_id : nat;
  mr_conversation_id : nat;
  mr_user_id : nat;
  mr_role : option string;
  mr_text : option string;
  mr_timestamp : Z }.

Record project_row : Type := mkProjectRow {
  pr_id : nat;
  pr_user_id : nat;
  pr_name : option string;
  pr_description : option string;
  pr_content : option string;
  pr_created_at : Z }.

Record task_row : Type := mkTaskRow {
  tr_id : nat;
  tr_user_id : nat;
  tr_title : option string;
  tr_completed : Z;
  tr_created_at : Z }.

(** The five tables and, for each, the last [AUTOINCREMENT] id given
    out. *)
Record database : Type := mkDatabase {
  users : list user_row;
  conversations : list conversation_row;
  chat_messages : list chat_message_row;
  projects : list project_row;
  tasks : list task_row;
  seq_users : nat;
  seq_conversations : nat;
  seq_chat_messages : nat;
  seq_projects : nat;
  seq_tasks : nat }.

Definition H (A : Type) : Type := M (world database) A.

(** Running a prepared statement.  The schedule [faults] decides the
    failures the handler has no say in (disk, lock); the [UNIQUE]
    constraint on [users.email] and the [FOREIGN KEY] constraints are
    decided by the tables. *)
Definition exec : H unit := await_db.

(** The parent rows that the [FOREIGN KEY] clauses ask for
    ([better-sqlite3] opens a database with foreign keys enforced): a
    row of [conversations], [projects] or [tasks] names a user, a row of
    [chat_messages] a user and a conversation, and a conversation that a
    message still names cannot be deleted. *)
Definition user_exists (d : database) (id : nat) : bool :=
  existsb (fun u => Nat.eqb (ur_id u) id) (users d).

Definition conversation_exists (d : database) (id : nat) : bool :=
  existsb (fun c => Nat.eqb (cr_id c) id) (conversations d).

Definition referenced (ms : list chat_message_row) (c : conversation_row) : bool :=
  existsb (fun m => Nat.eqb (mr_conversation_id m) (cr_id c)) ms.

Definition foreign_key : error := SqliteError "SQLITE_CONSTRAINT_FOREIGNKEY".

(** *** Statements *)

(** [INSERT INTO users (name, email, password, avatarColor) VALUES (?, ?, ?, ?)];
    the result is [info.lastInsertRowid]. *)
Definition insert_user (name email password avatarColor : string) : H nat :=
  exec ;;;
  d <- get_db ;;
  if existsb (fun u => ur_email u =? email) (users d)
  then throw (SqliteError "SQLITE_CONSTRAINT_UNIQUE")
  else
    let id := S (seq_users d) in
    put_db (mkDatabase (users d ++ [mkUserRow id name email password avatarColor])
              (conversations d) (chat_messages d) (projects d) (tasks d)
              id (seq_conversations d) (seq_chat_messages d)
              (seq_projects d) (seq_tasks d)) ;;;
    ret id.

(** [SELECT id, name, email, avatarColor FROM users WHERE email = ? AND password = ?],
    [.get]: the first such row. *)
Definition select_user (email password : string) : H (option user_row) :=
  exec ;;;
  d <- get_db ;;
  ret (find (fun u => (ur_email u =? email) && (ur_password u =? password))
            (users d)).

(** [SELECT * FROM conversations WHERE user_id = ? ORDER BY updated_at DESC] *)
Definition select_conversations (userId : nat) : H (list conversation_row) :=
  exec ;;;
  d <- get_db ;;
  ret (sort_by (descending cr_updated_at)
         (filter (fun c => Nat.eqb (cr_user_id c) userId) (conversations d))).

(** [INSERT INTO conversations (user_id, title) VALUES (?, ?)] *)
Definition insert_conversation (userId : nat) (title : string) : H nat :=
  now <- Date_now ;;
  exec ;;;
  d <- get_db ;;
  if user_exists d userId
  then
    let id := S (seq_conversations d) in
    put_db (mkDatabase (users d)
              (conversations d ++ [mkConversationRow id userId title now])
              (chat_messages d) (projects d) (tasks d)
              (seq_users d) id (seq_chat_messages d)
              (seq_projects d) (seq_tasks d)) ;;;
    ret id
  else throw foreign_key.

(** [DELETE FROM chat_messages WHERE conversation_id = ? AND user_id = ?] *)
Definition delete_conversation_messages (id userId : nat) : H unit :=
  exec ;;;
  d <- get_db ;;
  put_db (mkDatabase (users d) (conversations d)
            (filter (fun m => negb (Nat.eqb (mr_conversation_id m) id &&
                                    Nat.eqb (mr_user_id m) userId))
                    (chat_messages d))
            (projects d) (tasks d)
            (seq_users d) (seq_conversations d) (seq_chat_messages d)
            (seq_projects d) (seq_tasks d)).

(** [DELETE FROM conversations WHERE id = ? AND user_id = ?] *)
Definition delete_conversation (id userId : nat) : H unit :=
  exec ;;;
  d <- get_db ;;
  if existsb (fun c => Nat.eqb (cr_id c) id && Nat.eqb (cr_user_id c) userId &&
                       referenced (chat_messages d) c)
             (conversations d)
  then throw foreign_key
  else
    put_db (mkDatabase (users d)
              (filter (fun c => negb (Nat.eqb (cr_id c) id &&
                                      Nat.eqb (cr_user_id c) userId))
                      (conversations d))
              (chat_messages d) (projects d) (tasks d)
              (seq_users d) (seq_conversations d) (seq_chat_messages d)
              (seq_projects d) (seq_tasks d)).

(** [SELECT * FROM chat_messages WHERE user_id = ? AND conversation_id = ? ORDER BY timestamp ASC] *)
Definition select_messages (userId conversationId : nat) : H (list chat_message_row) :=
  exec ;;;
  d <- get_db ;;
  ret (sort_by (ascending mr_timestamp)
         (filter (fun m => Nat.eqb (mr_user_id m) userId &&
                           Nat.eqb (mr_conversation_id m) conversationId)
                 (chat_messages d))).

(** [INSERT INTO chat_messages (conversation_id, user_id, role, text) VALUES (?, ?, ?, ?)] *)
Definition insert_message
  (conversationId userId : nat) (role text : option string) : H nat :=
  now <- Date_now ;;
  exec ;;;
  d <- get_db ;;
  if user_exists d userId && conversation_exists d conversationId
  then
    let id := S (seq_chat_messages d) in
    put_db (mkDatabase (users d) (conversations d)
              (chat_messages d ++
                 [mkChatMessageRow id conversationId userId role text now])
              (projects d) (tasks d)
              (seq_users d) (seq_conversations d) id
              (seq_projects d) (seq_tasks d)) ;;;
    ret id
  else throw foreign_key.

(** [UPDATE conversations SET updated_at = CURRENT_TIMESTAMP WHERE id = ?] *)
Definition touch_conversation (conversationId : nat) : H unit :=
  now <- Date_now ;;
  exec ;;;
  d <- get_db ;;
  put_db (mkDatabase (users d)
            (map (fun c => if Nat.eqb (cr_id c) conversationId
                           then mkConversationRow (cr_id c) (cr_user_id c)
                                                  (cr_title c) now
                           else c)
                 (conversations d))
            (chat_messages d) (projects d) (tasks d)
            (seq_users d) (seq_conversations d) (seq_chat_messages d)
            (seq_projects d) (seq_tasks d)).

(** [DELETE FROM chat_messages WHERE user_id = ?] *)
Definition delete_user_messages (userId : nat) : H unit :=
  exec ;;;
  d <- get_db ;;
  put_db (mkDatabase (users d) (conversations d)
            (filter (fun m => negb (Nat.eqb (mr_user_id m) userId))
                    (chat_messages d))
            (projects d) (tasks d)
            (seq_users d) (seq_conversations d) (seq_chat_messages d)
            (seq_projects d) (seq_tasks d)).

(** [DELETE FROM conversations WHERE user_id = ?] *)
Definition delete_user_conversations (userId : nat) : H unit :=
  exec ;;;
  d <- get_db ;;
  if existsb (fun c => Nat.eqb (cr_user_id c) userId &&
                       referenced (chat_messages d) c)
             (conversations d)
  then throw foreign_key
  else
    put_db (mkDatabase (users d)
              (filter (fun c => negb (Nat.eqb (cr_user_id c) userId))
                      (conversations d))
              (chat_messages d) (projects d) (tasks d)
              (seq_users d) (seq_conversations d) (seq_chat_messages d)
              (seq_projects d) (seq_tasks d)).

(** [SELECT * FROM projects WHERE user_id = ? ORDER BY created_at DESC] *)
Definition select_projects (userId : nat) : H (list project_row) :=
  exec ;;;
  d <- get_db ;;
  ret (sort_by (descending pr_created_at)
         (filter (fun p => Nat.eqb (pr_user_id p) userId) (projects d))).

(** [INSERT INTO projects (user_id, name, description, content) VALUES (?, ?, ?, ?)] *)
Definition insert_project
  (userId : nat) (name description content : option string) : H nat :=
  now <- Date_now ;;
  exec ;;;
  d <- get_db ;;
  if user_exists d userId
  then
    let id := S (seq_projects d) in
    put_db (mkDatabase (users d) (conversations d) (chat_messages d)
              (projects d ++ [mkProjectRow id userId name description content now])
              (tasks d)
              (seq_users d) (seq_conversations d) (seq_chat_messages d)
              id (seq_tasks d)) ;;;
    ret id
  else throw foreign_key.

(** [SELECT * FROM tasks WHERE user_id = ? ORDER BY created_at DESC] *)
Definition select_tasks (userId : nat) : H (list task_row) :=
  exec ;;;
  d <- get_db ;;
  ret (sort_by (descending tr_created_at)
         (filter (fun t => Nat.eqb (tr_user_id t) userId) (tasks d))).

(** [INSERT INTO tasks (user_id, title) VALUES (?, ?)]; [completed]
    takes its default 0. *)
Definition insert_task (userId : nat) (title : option string) : H nat :=
  now <- Date_now ;;
  exec ;;;
  d <- get_db ;;
  if user_exists d userId
  then
    let id := S (seq_tasks d) in
    put_db (mkDatabase (users d) (conversations d) (chat_messages d) (projects d)
              (tasks d ++ [mkTaskRow id userId title 0%Z now])
              (seq_users d) (seq_conversations d) (seq_chat_messages d)
              (seq_projects d) id) ;;;
    ret id
  else throw foreign_key.

(** [UPDATE tasks SET completed = ? WHERE id = ?] *)
Definition update_task (completed : Z) (id : nat) : H unit :=
  exec ;;;
  d <- get_db ;;
  put_db (mkDatabase (users d) (conversations d) (chat_messages d) (projects d)
            (map (fun t => if Nat.eqb (tr_id t) id
                           then mkTaskRow (tr_id t) (tr_user_id t) (tr_title t)
                                          completed (tr_created_at t)
                           else t)
                 (tasks d))
            (seq_users d) (seq_conversations d) (seq_chat_messages d)
            (seq_projects d) (seq_tasks d)).

(** *** JSON shape of the rows and of the echoed fields *)

Definition JId (id : nat) : json := JNum (Z.of_nat id).

Definition user_public (id : nat) (name email avatarColor : string) : json :=
  JObj [("id", JId id); ("name", JStr name); ("email", JStr email);
        ("avatarColor", JStr avatarColor)].

Definition conversation_toJSON (c : conversation_row) : json :=
  JObj [("id", JId (cr_id c)); ("user_id", JId (cr_user_id c));
        ("title", JStr (cr_title c)); ("updated_at", JNum (cr_updated_at c))].

Definition message_toJSON (m : chat_message_row) : json :=
  JObj [("id", JId (mr_id m)); ("conversation_id", JId (mr_conversation_id m));
        ("user_id", JId (mr_user_id m)); ("role", JOptStr (mr_role m));
        ("text", JOptStr (mr_text m)); ("timestamp", JNum (mr_timestamp m))].

Definition project_toJSON (p : project_row) : json :=
  JObj [("id", JId (pr_id p)); ("user_id", JId (pr_user_id p));
        ("name", JOptStr (pr_name p)); ("description", JOptStr (pr_description p));
        ("content", JOptStr (pr_content p)); ("created_at", JNum (pr_created_at p))].

Definition task_toJSON (t : task_row) : json :=
  JObj [("id", JId (tr_id t)); ("user_id", JId (tr_user_id t));
        ("title", JOptStr (tr_title t)); ("completed", JNum (tr_completed t));
        ("created_at", JNum (tr_created_at t))].

(** *** Requests.  An id sent in a JSON body is a number (falsy when
    absent or 0); an id sent in the query string is falsy only when
    absent. *)

Definition truthy_number (o : option nat) : option nat :=
  match o with
  | Some (S n) => Some (S n)
  | _ => None
  end.

Record signup_body : Type := mkSignupBody {
  sb_name : option string;
  sb_email : option string;
  sb_password : option string }.

Record message_body : Type := mkMessageBody {
  mb_userId : option nat;
  mb_conversationId : option nat;
  mb_role : option string;
  mb_text : option string }.

Record project_body : Type := mkProjectBody {
  pb_userId : option nat;
  pb_name : option string;
  pb_description : option string;
  pb_content : option string }.

Inductive api_request : Type :=
| PostSignup (b : signup_body)
| PostLogin (email password : string)
| GetConversations (userId : option nat)
| PostConversations (userId : option nat) (title : option string)
| DeleteConversation (id : nat) (userId : option nat)
| GetMessages (userId conversationId : option nat)
| PostMessages (b : message_body)
| DeleteMessages (userId : option nat)
| GetProjects (userId : option nat)
| PostProjects (b : project_body)
| GetTasks (userId : option nat)
| PostTasks (userId : option nat) (title : option string)
| PatchTask (id : nat) (completed : option bool).

(** *** Routes: the [try] blocks *)

Definition colors : list string :=
  ["#4a90e2"; "#e24a4a"; "#4ae285"; "#e2a74a"; "#9b4ae2"].

Definition signup_try (b : signup_body) : H response :=
  match truthy (sb_name b), truthy (sb_email b), truthy (sb_password b) with
  | Some name, Some email, Some password =>
      k <- random_below (List.length colors) ;;
      let avatarColor := nth k colors "" in
      id <- insert_user name email password avatarColor ;;
      ret (res_json (user_public id name email avatarColor))
  | _, _, _ => ret (res_error 400 "Missing fields")
  end.

Definition login_try (email password : string) : H response :=
  user <- select_user email password ;;
  match user with
  | Some u =>
      ret (res_json (user_public (ur_id u) (ur_name u) (ur_email u)
                                 (ur_avatarColor u)))
  | None => ret (res_error 401 "Invalid credentials")
  end.

Definition conversations_get_try (userId : option nat) : H response :=
  match userId with
  | None => ret (res_json (JArr []))
  | Some uid =>
      convs <- select_conversations uid ;;
      ret (res_json (JArr (map conversation_toJSON convs)))
  end.

Definition conversations_post_try (userId : option nat) (title : option string) : H response :=
  match truthy_number userId with
  | None => ret (res_error 401 "Unauthorized")
  | Some uid =>
      id <- insert_conversation uid (or_else title "New Chat") ;;
      ret (res_json (JObj [("id", JId id);
                           ("title", JStr (or_else title "New Chat"))]))
  end.

Definition conversations_delete_try (id : nat) (userId : option nat) : H response :=
  match userId with
  | None => ret (res_error 401 "Unauthorized")
  | Some uid =>
      delete_conversation_messages id uid ;;;
      delete_conversation id uid ;;;
      ret (res_json success_body)
  end.

Definition messages_get_try (userId conversationId : option nat) : H response :=
  match userId, conversationId with
  | Some uid, Some cid =>
      msgs <- select_messages uid cid ;;
      ret (res_json (JArr (map message_toJSON msgs)))
  | _, _ => ret (res_json (JArr []))
  end.

Definition messages_post_try (b : message_body) : H response :=
  match truthy_number (mb_userId b), truthy_number (mb_conversationId b) with
  | Some uid, Some cid =>
      id <- insert_message cid uid (mb_role b) (mb_text b) ;;
      touch_conversation cid ;;;
      ret (res_json (JObj (("id", JId id) ::
                           opt_field "role" (mb_role b) ++
                           opt_field "text" (mb_text b))))
  | _, _ => ret (res_error 400 "Missing fields")
  end.

Definition messages_delete_try (userId : option nat) : H response :=
  match userId with
  | None => ret (res_error 401 "Unauthorized")
  | Some uid =>
      delete_user_messages uid ;;;
      delete_user_conversations uid ;;;
      ret (res_json success_body)
  end.

Definition projects_get_try (userId : option nat) : H response :=
  match userId with
  | None => ret (res_json (JArr []))
  | Some uid =>
      ps <- select_projects uid ;;
      ret (res_json (JArr (map project_toJSON ps)))
  end.

Definition projects_post_try (b : project_body) : H response :=
  match truthy_number (pb_userId b) with
  | None => ret (res_error 401 "Unauthorized")
  | Some uid =>
      id <- insert_project uid (pb_name b) (pb_description b) (pb_content b) ;;
      ret (res_json (JObj (("id", JId id) ::
                           opt_field "name" (pb_name b) ++
                           opt_field "description" (pb_description b) ++
                           opt_field "content" (pb_content b))))
  end.

Definition tasks_get_try (userId : option nat) : H response :=
  match userId with
  | None => ret (res_json (JArr []))
  | Some uid =>
      ts <- select_tasks uid ;;
      ret (res_json (JArr (map task_toJSON ts)))
  end.

Definition tasks_post_try (userId : option nat) (title : option string) : H response :=
  match truthy_number userId with
  | None => ret (res_error 401 "Unauthorized")
  | Some uid =>
      id <- insert_task uid title ;;
      ret (res_json (JObj (("id", JId id) ::
                           opt_field "title" title ++
                           [("completed", JNum 0)])))
  end.

Definition tasks_patch_try (id : nat) (completed : option bool) : H response :=
  update_task (match completed with Some true => 1%Z | _ => 0%Z end) id ;;;
  ret (res_json success_body).

(** *** The route table *)

Definition try_block (r : api_request) : H response :=
  match r with
  | PostSignup b => signup_try b
  | PostLogin email password => login_try email password
  | GetConversations userId => conversations_get_try userId
  | PostConversations userId title => conversations_post_try userId title
  | DeleteConversation id userId => conversations_delete_try id userId
  | GetMessages userId cid => messages_get_try userId cid
  | PostMessages b => messages_post_try b
  | DeleteMessages userId => messages_delete_try userId
  | GetProjects userId => projects_get_try userId
  | PostProjects b => projects_post_try b
  | GetTasks userId => tasks_get_try userId
  | PostTasks userId title => tasks_post_try userId title
  | PatchTask id completed => tasks_patch_try id completed
  end.

(** The [catch] blocks; only the one of signup looks at the error. *)
Definition catch_block (r : api_request) (e : error) : response :=
  match r with
  | PostSignup _ =>
      match error_code e with
      | Some code =>
          if code =? "SQLITE_CONSTRAINT_UNIQUE"
          then res_error 400 "Email already exists"
          else res_error 500 "Failed to sign up"
      | None => res_error 500 "Failed to sign up"
      end
  | PostLogin _ _ => res_error 500 "Failed to log in"
  | GetConversations _ => res_error 500 "Failed to fetch conversations"
  | PostConversations _ _ => res_error 500 "Failed to create conversation"
  | DeleteConversation _ _ => res_error 500 "Failed to delete conversation"
  | GetMessages _ _ => res_error 500 "Failed to fetch messages"
  | PostMessages _ => res_error 500 "Failed to save message"
  | DeleteMessages _ => res_error 500 "Failed to delete messages"
  | GetProjects _ => res_error 500 "Failed to fetch projects"
  | PostProjects _ => res_error 500 "Failed to create project"
  | GetTasks _ => res_error 500 "Failed to fetch tasks"
  | PostTasks _ _ => res_error 500 "Failed to create task"
  | PatchTask _ _ => res_error 500 "Failed to update task"
  end.

Definition handle (r : api_request) : H response :=
  try_catch (try_block r) (fun e => ret (catch_block r e)).

(** A request as it arrives: [app.use(express.json())] answers a body
    that is not well-formed JSON before any route, as in the token-based
    server. *)
Inductive incoming : Type :=
| Parsed (r : api_request)
| Malformed.

Definition serve (i : incoming) : H reply :=
  match i with
  | Parsed r => resp <- handle r ;; ret (Json resp)
  | Malformed => ret (ErrorPage 400)
  end.

(** *** Vocabulary for statements about this server *)

(** An exception is raised while the request is handled: the body does
    not parse, or the [try] block of the route throws. *)
Definition raises (i : incoming) (w : world database) : Prop :=
  match i with
  | Malformed => True
  | Parsed r => exists e w1, try_block r w = (Throw e, w1)
  end.

(** "Whenever an exception is raised during request handling, the
    response is a JSON body that holds an error message only, with a
    5xx status." *)
Definition every_exception_gets_5xx : Prop :=
  forall (i : incoming) (w : world database),
    raises i w ->
    exists resp w',
      serve i w = (Ok (Json resp), w') /\
      is_5xx (status resp) = true /\ error_only (body resp).

(** "A stored password is never the password that was sent." *)
Definition passwords_are_stored_hashed : Prop :=
  forall (name email password : string) (w w' : world database) (r : response),
    handle (PostSignup (mkSignupBody (Some name) (Some email) (Some password))) w
    = (Ok r, w') ->
    status r = 200 ->
    forall u, In u (users (db w')) -> ur_email u = email ->
              ur_password u <> password.

(** Persistence, as for the token-based server: a creation answered
    200 leaves a row that the fetch with the same [userId] returns in
    any later world with the same database whose next operation succeeds. *)

Definition signup_is_fetched : Prop :=
  forall (b : signup_body) (w w' : world database) (r : response),
    handle (PostSignup b) w = (Ok r, w') ->
    status r = 200 ->
    exists (name email password : string) (u : user_row),
      truthy (sb_name b) = Some name /\
      truthy (sb_email b) = Some email /\
      truthy (sb_password b) = Some password /\
      In u (users (db w')) /\ ur_name u = name /\ ur_email u = email /\
      r = res_json (user_public (ur_id u) name email (ur_avatarColor u)) /\
      forall w2, later w' w2 ->
        handle (PostLogin email password) w2 =
        (Ok (res_json (user_public (ur_id u) name email (ur_avatarColor u))),
         after_db_op w2).

Definition conversation_is_fetched : Prop :=
  forall (userId : option nat) (title : option string)
         (w w' : world database) (r : response),
    handle (PostConversations userId title) w = (Ok r, w') ->
    status r = 200 ->
    exists c : conversation_row,
      In c (conversations (db w')) /\ Some (cr_user_id c) = userId /\
      r = res_json (JObj [("id", JId (cr_id c)); ("title", JStr (cr_title c))]) /\
      forall w2, later w' w2 ->
        exists r2, handle (GetConversations userId) w2 = (Ok r2, after_db_op w2) /\
                   returns_item conversation_toJSON c r2.

Definition message_is_fetched : Prop :=
  forall (b : message_body) (w w' : world database) (r : response),
    handle (PostMessages b) w = (Ok r, w') ->
    status r = 200 ->
    exists m : chat_message_row,
      In m (chat_messages (db w')) /\
      Some (mr_user_id m) = mb_userId b /\
      Some (mr_conversation_id m) = mb_conversationId b /\
      mr_role m = mb_role b /\ mr_text m = mb_text b /\
      forall w2, later w' w2 ->
        exists r2,
          handle (GetMessages (mb_userId b) (mb_conversationId b)) w2 = (Ok r2, after_db_op w2) /\
          returns_item message_toJSON m r2.

Definition project_is_fetched : Prop :=
  forall (b : project_body) (w w' : world database) (r : response),
    handle (PostProjects b) w = (Ok r, w') ->
    status r = 200 ->
    exists p : project_row,
      In p (projects (db w')) /\ Some (pr_user_id p) = pb_userId b /\
      pr_name p = pb_name b /\
      forall w2, later w' w2 ->
        exists r2, handle (GetProjects (pb_userId b)) w2 = (Ok r2, after_db_op w2) /\
                   returns_item project_toJSON p r2.

Definition task_is_fetched : Prop :=
  forall (userId : option nat) (title : option string)
         (w w' : world database) (r : response),
    handle (PostTasks userId title) w = (Ok r, w') ->
    status r = 200 ->
    exists t : task_row,
      In t (tasks (db w')) /\ Some (tr_user_id t) = userId /\
      tr_title t = title /\
      forall w2, later w' w2 ->
        exists r2, handle (GetTasks userId) w2 = (Ok r2, after_db_op w2) /\
                   returns_item task_toJSON t r2.

(** A creation request that carries what the route asks for, and
    names rows that exist, is answered 200 when the statements it runs
    succeed. *)

Definition signup_succeeds : Prop :=
  forall (b : signup_body) (name email password : string) (w : world database),
    truthy (sb_name b) = Some name ->
    truthy (sb_email b) = Some email ->
    truthy (sb_password b) = Some password ->
    (forall u, In u (users (db w)) -> ur_email u <> email) ->
    quiet 1 w ->
    exists r w', handle (PostSignup b) w = (Ok r, w') /\ status r = 200.

Definition conversation_succeeds : Prop :=
  forall (userId : option nat) (uid : nat) (title : option string)
         (w : world database),
    truthy_number userId = Some uid ->
    user_exists (db w) uid = true ->
    quiet 1 w ->
    exists r w', handle (PostConversations userId title) w = (Ok r, w') /\
                 status r = 200.

Definition message_succeeds : Prop :=
  forall (b : message_body) (uid cid : nat) (w : world database),
    truthy_number (mb_userId b) = Some uid ->
    truthy_number (mb_conversationId b) = Some cid ->
    user_exists (db w) uid = true ->
    conversation_exists (db w) cid = true ->
    quiet 2 w ->
    exists r w', handle (PostMessages b) w = (Ok r, w') /\ status r = 200.

Definition project_succeeds : Prop :=
  forall (b : project_body) (uid : nat) (w : world database),
    truthy_number (pb_userId b) = Some uid ->
    user_exists (db w) uid = true ->
    quiet 1 w ->
    exists r w', handle (PostProjects b) w = (Ok r, w') /\ status r = 200.

Definition task_succeeds : Prop :=
  forall (userId : option nat) (uid : nat) (title : option string)
         (w : world database),
    truthy_number userId = Some uid ->
    user_exists (db w) uid = true ->
    quiet 1 w ->
    exists r w', handle (PostTasks userId title) w = (Ok r, w') /\ status r = 200.

(** The routes that only read: login and the four list routes. *)
Definition read_only (r : api_request) : bool :=
  match r with
  | PostLogin _ _ | GetConversations _ | GetMessages _ _
  | GetProjects _ | GetTasks _ => true
  | _ => false
  end.

End Sqlite.

(** ** The [view] state of [App]: [src/src/App.tsx] and [src/unnamed/part_000] *)

Module App.

Inductive revision : Type :=
| AppTsx     (* src/src/App.tsx *)
| Part000.   (* src/unnamed/part_000 *)

(** The type argument of [useState] for [view]. *)
Definition views : list string :=
  ["home"; "chat"; "history"; "imagine"; "voice"; "projects"; "grokpedia"].

(** The part of the component state that the handlers calling [setView]
    read or write.  [user], [token] and [selectedFile] are kept as
    "is not null". *)
Record state : Type := mkState {
  view : string;
  user : bool;
  token : bool;
  selectedFile : bool;
  signInModal : bool }.

(** [useState(...)('home')], nobody signed in, nothing selected. *)
Definition initial : state := mkState "home" false false false false.

Definition setView (v : string) (s : state) : state :=
  mkState v (user s) (token s) (selectedFile s) (signInModal s).

(** White space that [trim] removes, within ASCII. *)
Definition is_space (c : ascii) : bool :=
  match nat_of_ascii c with
  | 9 | 10 | 11 | 12 | 13 | 32 => true
  | _ => false
  end.

(** [!text.trim()] *)
Fixpoint blank (s : string) : bool :=
  match s with
  | EmptyString => true
  | String c rest => is_space c && blank rest
  end.

(** [handleSend], up to the last [setView].  A handler reads the state
    of the render that created it ([seen]) and queues its updates on the
    current one ([s]). *)
Definition handleSend (r : revision) (seen : state) (text : string) (s : state) : state :=
  match r with
  | AppTsx =>
      if blank text then s
      else if negb (view seen =? "chat") then setView "chat" s else s
  | Part000 =>
      if blank text && negb (selectedFile seen) then s
      else if negb (user seen) || negb (token seen)
      then mkState (view s) (user s) (token s) (selectedFile s) true
      else
        let s' := if negb (view seen =? "chat") then setView "chat" s else s in
        mkState (view s') (user s') (token s') false (signInModal s')
  end.

(** [handleNewChat] *)
Definition handleNewChat (s : state) : state := setView "chat" s.

(** [handleDeleteAll]; [confirmed] is the answer to [confirm(...)],
    [fetched] tells whether [apiFetch] returned rather than threw. *)
Definition handleDeleteAll (seen : state) (confirmed fetched : bool) (s : state) : state :=
  if negb (user seen) then s
  else if confirmed && fetched then setView "home" s
  else s.

(** [mockLogout] *)
Definition mockLogout (s : state) : state :=
  mkState "home" false false (selectedFile s) (signInModal s).

(** What can happen to the component. *)
Inductive event : Type :=
| SidebarChat | SidebarVoice | SidebarImagine
| SidebarProjects | SidebarHistory | SidebarGrokpedia
| MicButton                               (* [setView('voice')] next to the input *)
| HistoryItem                             (* a conversation of the history list *)
| VoiceBack                               (* the button of the voice view *)
| Send (text : string)
| SpeechResult (seen : state) (transcript : string)   (* [recognition.onresult] *)
| NewChat
| DeleteAll (confirmed fetched : bool)
| Logout
| SignedIn                                (* [handleLogin] / [handleSignUp] succeeded *)
| SessionRefused                          (* [apiFetch] saw 401 or 403 ([part_000]) *)
| FileSelected.                           (* [handleFileSelect] ([part_000]) *)

Definition step (r : revision) (s : state) (e : event) : state :=
  match e with
  | SidebarChat => setView "chat" s
  | SidebarVoice => setView "voice" s
  | SidebarImagine => setView "imagine" s
  | SidebarProjects => setView "projects" s
  | SidebarHistory => setView "history" s
  | SidebarGrokpedia => setView "grokpedia" s
  | MicButton => setView "voice" s
  | HistoryItem => setView "chat" s
  | VoiceBack => setView "chat" s
  | Send text => handleSend r s text s
  | SpeechResult seen transcript =>
      match r with
      | AppTsx => s
      | Part000 => handleSend r seen transcript s
      end
  | NewChat => handleNewChat s
  | DeleteAll confirmed fetched => handleDeleteAll s confirmed fetched s
  | Logout => mockLogout s
  | SignedIn => mkState (view s) true true (selectedFile s) false
  | SessionRefused =>
      match r with
      | AppTsx => s
      | Part000 => mkState (view s) false false (selectedFile s) true
      end
  | FileSelected =>
      match r with
      | AppTsx => s
      | Part000 => mkState (view s) (user s) (token s) true (signInModal s)
      end
  end.

(** The state after a sequence of events. *)
Definition run (r : revision) (es : list event) : state :=
  fold_left (step r) es initial.

(** *** What the client sends *)

(** [apiFetch]: the [Authorization] header it adds to a request,
    [None] when it adds none ([token] is [null] or empty).  No caller
    passes headers of its own. *)
Definition authorization (token : option string) : option string :=
  match truthy token with
  | Some t => Some ("Bearer " ++ t)
  | None => None
  end.


(** The text of [userMsg], the message [handleSend] shows for the
    user. *)
Definition userMsg_text (r : revision) (text : string) : string :=
  match r with
  | AppTsx => text
  | Part000 => or_else (Some text) "[Image attached]"
  end.

(** The body of the [POST /api/chat] request of [handleSend], [None]
    when a guard returns before it.  [signedIn] is [user && token],
    [messages] the [messages] state with its [role] and [text] fields,
    [file] the [selectedFile] state. *)
Definition handleSend_chat (r : revision) (signedIn : bool) (text : string)
  (activeConvId : option Mongo.ObjectId) (messages : list Mongo.HistoryMsg)
  (file : option Mongo.InlineData) : option Mongo.chat_body :=
  match r with
  | AppTsx =>
      if blank text then None
      else Some (Mongo.mkChatBody activeConvId (Some text) (Some messages) None)
  | Part000 =>
      if blank text && match file with Some _ => false | None => true end
      then None
      else if negb signedIn then None
      else Some (Mongo.mkChatBody activeConvId (Some text) (Some messages) file)
  end.



End App.

(** ** [ParticleBackground]: [src/src/App.tsx] and [src/unnamed/part_000]
    (the component is the same in both files)

    JavaScript numbers are IEEE 754 doubles, embedded as primitive
    floats.  [Math.hypot] and the random source are inputs. *)

Module Particles.

Local Open Scope float_scope.

(* Decimal literals denote the nearest double, as they do in JavaScript. *)
Local Set Warnings "-inexact-float".

(** [class Node] *)
Record Node : Type := mkNode {
  x : float; y : float;
  ox : float; oy : float;
  vx : float; vy : float;
  r : float }.

(** [const mouse = { x, y, down }]; a coordinate is [null] when the
    pointer is outside. *)
Record Mouse : Type := mkMouse {
  mouse_x : option float;
  mouse_y : option float;
  down : bool }.

Inductive Theme : Type := Dark | Light.

(** Calls on the 2D context, in the order they are made. *)
Inductive ctx_call : Type :=
| fillStyle (color : string)
| fillRect (x0 y0 w h : float)
| beginPath
| arc (cx cy radius a0 a1 : float)
| fill
| moveTo (px py : float)
| lineTo (px py : float)
| strokeStyle (color : string)
| lineWidth (lw : float)
| stroke.

Definition PI2 : float := 3.141592653589793 * 2.

Section Animation.

Variable hypot : float -> float -> float.   (* [Math.hypot] *)

(** [new Node()]: three readings of [Math.random()]. *)
Definition new_Node (w h : float) (r1 r2 r3 : float) : Node :=
  let x0 := r1 * w in
  let y0 := r2 * h in
  mkNode x0 y0 x0 y0 0 0 (r3 * 2.0 + 0.7).

(** [Array.from({ length: n }, () => new Node())], the [k]-th call
    reading [rnd (3k)], [rnd (3k+1)], [rnd (3k+2)]. *)
Fixpoint make_nodes (w h : float) (rnd : nat -> float) (k n : nat) : list Node :=
  match n with
  | O => []
  | S n' =>
      new_Node w h (rnd (3 * k)%nat) (rnd (3 * k + 1)%nat) (rnd (3 * k + 2)%nat)
      :: make_nodes w h rnd (S k) n'
  end.

(** [const nodes = Array.from({ length: 80 }, () => new Node())] *)
Definition nodes_init (w h : float) (rnd : nat -> float) : list Node :=
  make_nodes w h rnd 0 80.

(** [Node.update] *)
Definition update (mouse : Mouse) (n : Node) : Node :=
  let '(vx1, vy1) :=
    match mouse_x mouse, mouse_y mouse with
    | Some mx, Some my =>
        let dx := mx - x n in
        let dy := my - y n in
        let d := hypot dx dy in
        if d <? 260 then
          let f := (260 - d) / 260 in
          let p := if down mouse then f * 16 else f * 1.2 in
          (vx n - dx * p * 0.18, vy n - dy * p * 0.18)
        else (vx n, vy n)
    | _, _ => (vx n, vy n)
    end in
  let x1 := x n + vx1 in
  let y1 := y n + vy1 in
  let vx2 := vx1 * 0.96 in
  let vy2 := vy1 * 0.96 in
  let x2 := x1 + (ox n - x1) * 0.005 in
  let y2 := y1 + (oy n - y1) * 0.005 in
  mkNode x2 y2 (ox n) (oy n) vx2 vy2 (r n).

(** [Node.draw] *)
Definition draw (theme : Theme) (n : Node) : list ctx_call :=
  [beginPath; arc (x n) (y n) (r n) 0 PI2;
   fillStyle (match theme with Dark => "#ffffff" | Light => "#000000" end);
   fill].

(** The body of the inner loop: the link between two nodes. *)
Definition link (theme : Theme) (a b : Node) : list ctx_call :=
  let dx := x a - x b in
  let dy := y a - y b in
  let d := hypot dx dy in
  if d <? 160 then
    [beginPath; moveTo (x a) (y a); lineTo (x b) (y b);
     strokeStyle (match theme with
                  | Dark => "rgba(180,180,180,0.12)"
                  | Light => "rgba(0,0,0,0.12)"
                  end);
     lineWidth 0.6; stroke]
  else [].

(** [for (i ...) for (j = i + 1 ...)] *)
Fixpoint links (theme : Theme) (ns : list Node) : list ctx_call :=
  match ns with
  | [] => []
  | a :: rest => (flat_map (link theme a) rest ++ links theme rest)%list
  end.

(** One call of [animate]: the nodes after [forEach], and what was
    drawn. *)
Definition animate (theme : Theme) (w h : float) (mouse : Mouse) (nodes : list Node)
  : list Node * list ctx_call :=
  let nodes' := map (update mouse) nodes in
  (nodes',
   ([fillStyle (match theme with Dark => "#000000" | Light => "#f0f0f0" end);
     fillRect 0 0 w h]
    ++ flat_map (draw theme) nodes'
    ++ links theme nodes')%list).

(** What the listeners changed between two frames. *)
Record frame_input : Type := mkFrameInput {
  fi_w : float; fi_h : float; fi_mouse : Mouse }.

(** The nodes after the frames [fs], from [nodes]. *)
Fixpoint frames (theme : Theme) (fs : list frame_input) (nodes : list Node) : list Node :=
  match fs with
  | [] => nodes
  | f :: rest =>
      frames theme rest (fst (animate theme (fi_w f) (fi_h f) (fi_mouse f) nodes))
  end.

End Animation.

(** What tells a node apart from the others for as long as it lives:
    its rest position and its radius. *)
Definition identity (n : Node) : float * float * float := (ox n, oy n, r n).

(** The discs drawn by a sequence of calls: centre and radius of each
    [arc]. *)
Fixpoint arcs (cs : list ctx_call) : list (float * float * float) :=
  match cs with
  | [] => []
  | arc cx cy radius _ _ :: rest => (cx, cy, radius) :: arcs rest
  | _ :: rest => arcs rest
  end.

(** The number of lines stroked by a sequence of calls. *)
Fixpoint strokes (cs : list ctx_call) : nat :=
  match cs with
  | [] => O
  | stroke :: rest => S (strokes rest)
  | _ :: rest => strokes rest
  end.

End Particles.

(** ** Sample libraries, worlds and requests, for running the handlers *)

Module Sample.

(** A world with an empty database, no scheduled failure, a clock that
    reads 1000, 1001, ... and draws 0, 1, 2, ... *)
Definition world_of {D : Type} (d : D) : world D :=
  mkWorld d [] (fun k => (1000 + Z.of_nat k)%Z) 0 (fun k => k) 0.

Definition alice : Mongo.Payload := Mongo.mkPayload 1 "alice@example.com".
Definition bob : Mongo.Payload := Mongo.mkPayload 2 "bob@example.com".

(** Stand-ins for [jsonwebtoken] and [bcryptjs]. *)
Definition sign (p : Mongo.Payload) : string := "token-of-" ++ Mongo.pl_email p.

Definition verify (token : string) : option Mongo.Payload :=
  if token =? "token-of-alice@example.com" then Some alice
  else if token =? "token-of-bob@example.com" then Some bob
  else None.

Definition hash (password : string) (salt : nat) : string := "$2a$10$" ++ password.

Definition compare (password hashed : string) : bool := hashed =? "$2a$10$" ++ password.

(** A model that answers, and one that is unreachable. *)
Definition png : Mongo.InlineData := Mongo.mkInlineData "iVBORw0KGgo=" "image/png".

Definition answering : Mongo.Oracles :=
  Mongo.mkOracles sign verify hash compare
    (fun _ _ _ => Ok "Hello, human.")
    (fun _ _ =>
       Ok (Mongo.mkGenerateContentResponse
             (Some [Mongo.mkCandidate
                      (Some (Some [Mongo.mkPart (Some "Here you go") None;
                                   Mongo.mkPart None (Some png)]))]))).

Definition unreachable : Mongo.Oracles :=
  Mongo.mkOracles sign verify hash compare
    (fun _ _ _ => Throw ServiceError)
    (fun _ _ => Throw ServiceError).

Definition mongo_empty : Mongo.database := Mongo.mkDatabase [] [] [] [] [] 1.

(** Alice, signed up with the password ["wonderland"], owning the
    conversation 10. *)
Definition mongo_alice : Mongo.database :=
  Mongo.mkDatabase
    [Mongo.mkUser 1 "Alice" "alice@example.com" "$2a$10$wonderland" "#4a90e2"]
    [Mongo.mkConversation 10 1 "New Chat" 900%Z]
    [] [] [] 11.

Definition alice_header : option string := Some "Bearer token-of-alice@example.com".

(** A chat request of Alice in her conversation. *)
Definition hello : Mongo.chat_body :=
  Mongo.mkChatBody (Some 10) (Some "Hello") (Some []) None.

(** Alice and Bob side by side: each owns a conversation with one
    message, a project and a task. *)
Definition mongo_shared : Mongo.database :=
  Mongo.mkDatabase
    [Mongo.mkUser 1 "Alice" "alice@example.com" "$2a$10$wonderland" "#4a90e2";
     Mongo.mkUser 2 "Bob" "bob@example.com" "$2a$10$builder" "#e24a4a"]
    [Mongo.mkConversation 10 1 "Alice's chat" 900%Z;
     Mongo.mkConversation 20 2 "Bob's chat" 950%Z]
    [Mongo.mkMessage 11 10 1 Mongo.RoleUser "Hi" 901%Z;
     Mongo.mkMessage 21 20 2 Mongo.RoleUser "Yo" 951%Z]
    [Mongo.mkProject 12 1 "Tea party" None None 902%Z;
     Mongo.mkProject 22 2 "Bridge" (Some "steel") None 952%Z]
    [Mongo.mkTask 13 1 "Follow the rabbit" false 903%Z;
     Mongo.mkTask 23 2 "Fix it" true 953%Z]
    30.

(** A world like [world_of d] whose second database operation fails. *)
Definition failing_second {D : Type} (d : D) : world D :=
  mkWorld d [false; true] (fun k => (1000 + Z.of_nat k)%Z) 0 (fun k => k) 0.

(** A stand-in for [jsonwebtoken] that verifies whatever it signed: the
    token is the id in unary, a dot, and the email with its spaces
    escaped. *)
Fixpoint escape (s : string) : string :=
  match s with
  | EmptyString => EmptyString
  | String c rest =>
      if Ascii.eqb c " " then String "%" (String "s" (escape rest))
      else if Ascii.eqb c "%" then String "%" (String "%" (escape rest))
      else String c (escape rest)
  end.

Fixpoint unescape (s : string) : string :=
  match s with
  | EmptyString => EmptyString
  | String c rest =>
      if Ascii.eqb c "%" then
        match rest with
        | EmptyString => EmptyString
        | String d rest' =>
            String (if Ascii.eqb d "s" then " "%char else d) (unescape rest')
        end
      else String c (unescape rest)
  end.

Fixpoint unary (n : nat) (s : string) : string :=
  match n with
  | O => s
  | S k => String "1" (unary k s)
  end.

Definition sign_id (p : Mongo.Payload) : string :=
  unary (Mongo.pl_id p) (String "." (escape (Mongo.pl_email p))).

Fixpoint verify_id (token : string) : option Mongo.Payload :=
  match token with
  | EmptyString => None
  | String c rest =>
      if Ascii.eqb c "." then Some (Mongo.mkPayload 0 (unescape rest))
      else if Ascii.eqb c "1" then
        match verify_id rest with
        | Some p => Some (Mongo.mkPayload (S (Mongo.pl_id p)) (Mongo.pl_email p))
        | None => None
        end
      else None
  end.

Definition keyed : Mongo.Oracles :=
  Mongo.mkOracles sign_id verify_id hash compare
    (fun _ _ _ => Ok "Hello, human.")
    (fun _ _ => Throw ServiceError).

Definition sqlite_empty : Sqlite.database :=
  Sqlite.mkDatabase [] [] [] [] [] 0 0 0 0 0.

(** The same Alice in the SQLite server. *)
Definition sqlite_alice : Sqlite.database :=
  Sqlite.mkDatabase
    [Sqlite.mkUserRow 1 "Alice" "alice@example.com" "wonderland" "#4a90e2"]
    [] [] [] [] 1 0 0 0 0.

(** Alice and Bob in the SQLite server, each with a conversation, a
    message and a task. *)
Definition sqlite_shared : Sqlite.database :=
  Sqlite.mkDatabase
    [Sqlite.mkUserRow 1 "Alice" "alice@example.com" "wonderland" "#4a90e2";
     Sqlite.mkUserRow 2 "Bob" "bob@example.com" "builder" "#e24a4a"]
    [Sqlite.mkConversationRow 1 1 "Alice's chat" 900%Z;
     Sqlite.mkConversationRow 2 2 "Bob's chat" 950%Z]
    [Sqlite.mkChatMessageRow 1 1 1 (Some "user") (Some "Hi") 901%Z;
     Sqlite.mkChatMessageRow 2 2 2 (Some "user") (Some "Yo") 951%Z]
    []
    [Sqlite.mkTaskRow 1 1 (Some "Follow the rabbit") 0%Z 903%Z;
     Sqlite.mkTaskRow 2 2 (Some "Fix it") 1%Z 953%Z]
    2 2 2 0 2.

(** Alice's conversation with a message of hers and one that Bob
    posted into it. *)
Definition sqlite_guest : Sqlite.database :=
  Sqlite.mkDatabase
    [Sqlite.mkUserRow 1 "Alice" "alice@example.com" "wonderland" "#4a90e2";
     Sqlite.mkUserRow 2 "Bob" "bob@example.com" "builder" "#e24a4a"]
    [Sqlite.mkConversationRow 1 1 "Alice's chat" 900%Z]
    [Sqlite.mkChatMessageRow 1 1 1 (Some "user") (Some "Hi") 901%Z;
     Sqlite.mkChatMessageRow 2 1 2 (Some "user") (Some "Yo") 951%Z]
    [] []
    2 1 2 0 0.

End Sample.

(* ===================================================================== *)
(** * Part II. Theorems                                                   *)
(* ===================================================================== *)

(** ** The view state *)

Module AppFacts.
Import App.

Lemma views_NoDup : NoDup views.
Proof.
  unfold views.
  repeat (constructor; [simpl; intuition discriminate |]).
  constructor.
Qed.

Lemma setView_view v s : view (setView v s) = v.
Proof. reflexivity. Qed.

Lemma handleSend_view r seen text s :
  view (handleSend r seen text s) = view s \/
  view (handleSend r seen text s) = "chat".
Proof.
  unfold handleSend.
  destruct r.
  - destruct (blank text); [now left |].
    destruct (negb (view seen =? "chat")); [now right | now left].
  - destruct (blank text && negb (selectedFile seen)); [now left |].
    destruct (negb (user seen) || negb (token seen)); [now left |].
    destruct (negb (view seen =? "chat")); [now right | now left].
Qed.

Lemma handleDeleteAll_view seen c f s :
  view (handleDeleteAll seen c f s) = view s \/
  view (handleDeleteAll seen c f s) = "home".
Proof.
  unfold handleDeleteAll.
  destruct (negb (user seen)); [now left |].
  destruct (c && f); [now right | now left].
Qed.

Lemma step_view r s e : In (view s) views -> In (view (step r s e)) views.
Proof.
  intros Hs.
  destruct e; simpl;
    try (unfold views; simpl; tauto);
    try (destruct r; simpl; assumption).
  - destruct (handleSend_view r s text s) as [-> | ->];
      [assumption | unfold views; simpl; tauto].
  - destruct r; [assumption |].
    destruct (handleSend_view Part000 seen transcript s) as [-> | ->];
      [assumption | unfold views; simpl; tauto].
  - destruct (handleDeleteAll_view s confirmed fetched s) as [-> | ->];
      [assumption | unfold views; simpl; tauto].
Qed.

Lemma fold_step_view r es s :
  In (view s) views -> In (view (fold_left (step r) es s)) views.
Proof.
  revert s.
  induction es as [| e es IH]; intros s Hs; simpl.
  - assumption.
  - apply IH. now apply step_view.
Qed.

(** C10.  In both revisions of [App] the [view] state starts at
    ["home"], the seven view names are pairwise distinct, and after any
    sequence of events handled by the component [view] is one of the
    seven names home, chat, history, imagine, voice, projects,
    grokpedia. *)
Theorem view_is_one_of_the_seven (r : revision) (es : list event) :
  view initial = "home" /\
  NoDup views /\ List.length views = 7 /\
  In (view (run r es)) views.
Proof.
  split; [reflexivity |].
  split; [exact views_NoDup |].
  split; [reflexivity |].
  unfold run. apply fold_step_view.
  unfold views. simpl. tauto.
Qed.

End AppFacts.

(** ** The particle background *)

Module ParticleFacts.
Import Particles.

Section WithHypot.

Variable hypot : float -> float -> float.

Lemma make_nodes_length w h rnd k n :
  List.length (make_nodes w h rnd k n) = n.
Proof.
  revert k.
  induction n as [| n IH]; intros k; simpl.
  - reflexivity.
  - now rewrite IH.
Qed.

Lemma update_identity mouse n :
  identity (update hypot mouse n) = identity n.
Proof.
  unfold update, identity.
  destruct (mouse_x mouse) as [mx |], (mouse_y mouse) as [my |];
    try reflexivity.
  destruct (PrimFloat.ltb _ _); reflexivity.
Qed.

Lemma animate_nodes theme w h mouse nodes :
  fst (animate hypot theme w h mouse nodes) = map (update hypot mouse) nodes.
Proof. reflexivity. Qed.

Lemma animate_length theme w h mouse nodes :
  List.length (fst (animate hypot theme w h mouse nodes)) = List.length nodes.
Proof. rewrite (animate_nodes theme w h). apply length_map. Qed.

Lemma animate_identity theme w h mouse nodes :
  map identity (fst (animate hypot theme w h mouse nodes)) = map identity nodes.
Proof.
  rewrite (animate_nodes theme w h), map_map.
  apply map_ext. intros n. apply update_identity.
Qed.

Lemma frames_length theme fs nodes :
  List.length (frames hypot theme fs nodes) = List.length nodes.
Proof.
  revert nodes.
  induction fs as [| f fs IH]; intros nodes; cbn [frames].
  - reflexivity.
  - rewrite IH. apply animate_length.
Qed.

Lemma frames_identity theme fs nodes :
  map identity (frames hypot theme fs nodes) = map identity nodes.
Proof.
  revert nodes.
  induction fs as [| f fs IH]; intros nodes; cbn [frames].
  - reflexivity.
  - rewrite IH. apply animate_identity.
Qed.

Lemma arcs_app cs1 cs2 : arcs (cs1 ++ cs2) = (arcs cs1 ++ arcs cs2)%list.
Proof.
  induction cs1 as [| c cs1 IH]; simpl.
  - reflexivity.
  - destruct c; simpl; now rewrite ?IH.
Qed.

Lemma arcs_link theme a b : arcs (link hypot theme a b) = [].
Proof.
  unfold link. destruct (PrimFloat.ltb _ _); reflexivity.
Qed.

Lemma arcs_flat_map_link theme a ns :
  arcs (flat_map (link hypot theme a) ns) = [].
Proof.
  induction ns as [| b ns IH]; simpl.
  - reflexivity.
  - now rewrite arcs_app, arcs_link, IH.
Qed.

Lemma arcs_links theme ns : arcs (links hypot theme ns) = [].
Proof.
  induction ns as [| a ns IH]; simpl.
  - reflexivity.
  - now rewrite arcs_app, arcs_flat_map_link, IH.
Qed.

Lemma arcs_draws theme ns :
  arcs (flat_map (draw theme) ns) = map (fun n => (x n, y n, r n)) ns.
Proof.
  induction ns as [| a ns IH]; simpl.
  - reflexivity.
  - now rewrite IH.
Qed.

Lemma animate_arcs theme w h mouse nodes :
  arcs (snd (animate hypot theme w h mouse nodes)) =
  map (fun n => (x n, y n, r n)) (fst (animate hypot theme w h mouse nodes)).
Proof.
  unfold animate. simpl.
  now rewrite arcs_app, arcs_draws, arcs_links, app_nil_r.
Qed.

(** C9.  The node array that the effect builds before it starts the
    animation has exactly 80 nodes.  After any number of frames of that
    animation, whatever the pointer and the window size were at each
    frame, the array still has 80 nodes and they are the nodes it
    started with (same rest position and radius, in the same order); a
    frame updates every node of the array and draws one disc per node,
    at the updated position. *)
Theorem node_array_is_fixed
  (theme : Theme) (w h : float) (rnd : nat -> float)
  (fs : list frame_input) (f : frame_input) :
  let nodes0 := nodes_init w h rnd in
  let nodes := frames hypot theme fs nodes0 in
  let frame := animate hypot theme (fi_w f) (fi_h f) (fi_mouse f) nodes in
  List.length nodes0 = 80 /\
  List.length nodes = 80 /\
  map identity nodes = map identity nodes0 /\
  fst frame = map (update hypot (fi_mouse f)) nodes /\
  List.length (fst frame) = 80 /\
  arcs (snd frame) = map (fun n => (x n, y n, r n)) (fst frame).
Proof.
  intros nodes0 nodes frame.
  assert (H0 : List.length nodes0 = 80) by apply make_nodes_length.
  assert (H1 : List.length nodes = 80)
    by (unfold nodes; now rewrite frames_length).
  split; [exact H0 |].
  split; [exact H1 |].
  split; [apply frames_identity |].
  split; [reflexivity |].
  split.
  - unfold frame. now rewrite animate_length.
  - apply animate_arcs.
Qed.

End WithHypot.

End ParticleFacts.

(** ** Facts about the runtime and the query helpers *)

Module RuntimeFacts.

Lemma quiet_pred {D} n (w : world D) : quiet (S n) w -> quiet n w.
Proof.
  unfold quiet. generalize (faults w) as fs.
  induction n as [| n IH]; intros fs H; [reflexivity |].
  destruct fs as [| f fs]; [reflexivity |].
  cbn [firstn existsb] in *.
  apply orb_false_iff in H as [-> H]. now apply IH.
Qed.

Lemma quiet_head {D} n (w : world D) : quiet (S n) w -> quiet 1 w.
Proof.
  induction n as [| n IH]; intros H; [assumption |].
  now apply IH, quiet_pred.
Qed.

Lemma quiet_tail {D} n (w w1 : world D) :
  quiet (S n) w -> faults w1 = tl (faults w) -> quiet n w1.
Proof.
  unfold quiet. intros H ->.
  destruct (faults w) as [| f fs]; [now destruct n |].
  cbn [firstn existsb tl] in *. now apply orb_false_iff in H.
Qed.

Lemma await_db_quiet {D} (w : world D) :
  quiet 1 w -> await_db w = (Ok tt, after_db_op w).
Proof.
  unfold quiet, await_db, after_db_op. destruct w as [d fs ck tk rn dr].
  cbn [faults]. destruct fs as [| [] fs]; cbn; intros H;
    [reflexivity | discriminate H | reflexivity].
Qed.

Lemma truthy_Some o s :
  truthy o = Some s -> o = Some s /\ (s =? "") = false.
Proof.
  destruct o as [t |]; simpl; [| discriminate].
  destruct (t =? "") eqn:E; [discriminate |].
  intros [= <-]. now split.
Qed.

Lemma or_else_truthy o s d : truthy o = Some s -> or_else o d = s.
Proof.
  intros Ht. apply truthy_Some in Ht as [-> E]. simpl. now rewrite E.
Qed.

Lemma insert_by_In {A} (le : A -> A -> bool) a x l :
  In a (insert_by le x l) <-> a = x \/ In a l.
Proof.
  induction l as [| y t IH]; simpl.
  - intuition congruence.
  - destruct (le x y); simpl; [intuition congruence |].
    rewrite IH. intuition congruence.
Qed.

Lemma sort_by_In {A} (le : A -> A -> bool) a l :
  In a (sort_by le l) <-> In a l.
Proof.
  induction l as [| x t IH]; simpl.
  - tauto.
  - rewrite insert_by_In, IH. intuition congruence.
Qed.

Lemma sort_by_Forall {A} (le : A -> A -> bool) (P : A -> Prop) l :
  Forall P l -> Forall P (sort_by le l).
Proof.
  rewrite !Forall_forall. intros H a Ha. apply H. now apply sort_by_In in Ha.
Qed.

(** *** The handler monad *)

Lemma bind_Ok {W A B} (m : M W A) (k : A -> M W B) w a w' :
  m w = (Ok a, w') -> bind m k w = k a w'.
Proof. intros E. unfold bind. now rewrite E. Qed.

Lemma bind_Throw {W A B} (m : M W A) (k : A -> M W B) w e w' :
  m w = (Throw e, w') -> bind m k w = (Throw e, w').
Proof. intros E. unfold bind. now rewrite E. Qed.

Lemma try_catch_Ok {W A} (m : M W A) (h : error -> M W A) w a w' :
  m w = (Ok a, w') -> try_catch m h w = (Ok a, w').
Proof. intros E. unfold try_catch. now rewrite E. Qed.

Lemma try_catch_Throw {W A} (m : M W A) (h : error -> M W A) w e w' :
  m w = (Throw e, w') -> try_catch m h w = h e w'.
Proof. intros E. unfold try_catch. now rewrite E. Qed.

Lemma bind_inv {W A B} (m : M W A) (k : A -> M W B) w b w2 :
  bind m k w = (Ok b, w2) ->
  exists a w1, m w = (Ok a, w1) /\ k a w1 = (Ok b, w2).
Proof.
  unfold bind. destruct (m w) as [[a | e] w1]; [eauto | discriminate].
Qed.

Lemma try_catch_inv {W A} (m : M W A) (c : error -> A) w r w' :
  try_catch m (fun e => ret (c e)) w = (Ok r, w') ->
  m w = (Ok r, w') \/ exists e, m w = (Throw e, w') /\ r = c e.
Proof.
  unfold try_catch, ret. destruct (m w) as [[a | e] w1]; intros [= <- <-].
  - now left.
  - right. now exists e.
Qed.


Lemma await_db_inv {D} (w w1 : world D) :
  await_db w = (Ok tt, w1) -> db w1 = db w.
Proof.
  unfold await_db. destruct (faults w) as [| [] fs]; intros [= <-]; reflexivity.
Qed.

Lemma query_inv {D A} (f : D -> A) (w w1 : world D) (a : A) :
  bind await_db (fun _ => bind get_db (fun d => ret (f d))) w = (Ok a, w1) ->
  a = f (db w) /\ db w1 = db w.
Proof.
  unfold bind, await_db, get_db, ret.
  destruct (faults w) as [| [] fs]; simpl; intros [= <- <-];
    try discriminate; split; reflexivity.
Qed.

Lemma query_quiet {D A} (f : D -> A) (w : world D) :
  quiet 1 w ->
  bind await_db (fun _ => bind get_db (fun d => ret (f d))) w
  = (Ok (f (db w)), after_db_op w).
Proof.
  intros Hf. rewrite (bind_Ok _ _ _ _ _ (await_db_quiet w Hf)). reflexivity.
Qed.

(** A list route answers 200 only with the result of its query. *)
Lemma list_route_inv {D A} (f : D -> list A) (enc : A -> json)
  (msg : string) (w w' : world D) (r : response) :
  try_catch
    (bind (bind await_db (fun _ => bind get_db (fun d => ret (f d))))
          (fun l => ret (res_json (JArr (map enc l)))))
    (fun _ => ret (res_error 500 msg)) w = (Ok r, w') ->
  status r = 200 ->
  body r = JArr (map enc (f (db w))) /\ db w' = db w.
Proof.
  intros Hrun Hs.
  apply try_catch_inv in Hrun as [Hok | (e & _ & ->)]; [| discriminate Hs].
  apply bind_inv in Hok as (l & w1 & Hq & Hret).
  apply query_inv in Hq as [-> Hdb].
  unfold ret in Hret. injection Hret as <- <-. now split.
Qed.

Lemma list_route_quiet {D A} (f : D -> list A) (enc : A -> json)
  (msg : string) (w : world D) :
  quiet 1 w ->
  try_catch
    (bind (bind await_db (fun _ => bind get_db (fun d => ret (f d))))
          (fun l => ret (res_json (JArr (map enc l)))))
    (fun _ => ret (res_error 500 msg)) w
  = (Ok (res_json (JArr (map enc (f (db w))))), after_db_op w).
Proof.
  intros Hf. apply try_catch_Ok.
  rewrite (bind_Ok _ _ _ _ _ (query_quiet f w Hf)). reflexivity.
Qed.

Lemma find_app_last {A} (f : A -> bool) (l : list A) (a : A) :
  find f l = None -> f a = true -> find f (l ++ [a]) = Some a.
Proof.
  intros Hn Ha. induction l as [| x t IH]; simpl in *.
  - now rewrite Ha.
  - destruct (f x); [discriminate | now apply IH].
Qed.

Lemma find_none_iff {A} (f : A -> bool) (l : list A) :
  find f l = None <-> forall a, In a l -> f a = false.
Proof.
  split.
  - intros Hn a Ha. now apply (find_none f l Hn).
  - intros Hall. induction l as [| x t IH]; simpl; [reflexivity |].
    rewrite (Hall x) by now left.
    apply IH. intros a Ha. apply Hall. now right.
Qed.

(** *** Computations that hide no database failure *)

Lemma all_succeeded_refl {D} (w w' : world D) :
  faults w' = faults w -> all_succeeded w w'.
Proof. intros E. exists []. now rewrite E. Qed.

Lemma all_succeeded_trans {D} (w1 w2 w3 : world D) :
  all_succeeded w1 w2 -> all_succeeded w2 w3 -> all_succeeded w1 w3.
Proof.
  intros (fs1 & E1 & H1) (fs2 & E2 & H2). exists (fs1 ++ fs2)%list. split.
  - now rewrite E1, E2, app_assoc.
  - rewrite existsb_app, H1, H2. reflexivity.
Qed.


Lemma tracked_ret {D A} (a : A) : tracked (@ret (world D) A a).
Proof. intros w. now apply all_succeeded_refl. Qed.

Lemma tracked_throw {D A} (e : error) : tracked (@throw (world D) A e).
Proof. intros w. left. now apply all_succeeded_refl. Qed.

Lemma tracked_lift_outcome {D A} (o : outcome A) :
  tracked (@lift_outcome (world D) A o).
Proof. destruct o; [apply tracked_ret | apply tracked_throw]. Qed.

Lemma tracked_bind {D A B} (m : M (world D) A) (k : A -> M (world D) B) :
  tracked m -> (forall a, tracked (k a)) -> tracked (bind m k).
Proof.
  intros Hm Hk w. unfold bind. specialize (Hm w).
  destruct (m w) as [[a | e] w1]; [| exact Hm].
  specialize (Hk a w1). destruct (k a w1) as [[b | e] w2].
  - now apply (all_succeeded_trans w w1 w2).
  - destruct Hk as [Hk | Hk]; [left | now right].
    now apply (all_succeeded_trans w w1 w2).
Qed.

Lemma tracked_await_db {D} : tracked (@await_db D).
Proof.
  intros w. unfold await_db.
  destruct (faults w) as [| [] fs] eqn:E; cbn.
  - now apply all_succeeded_refl.
  - now right.
  - exists [false]. unfold set_faults. cbn. now rewrite E.
Qed.

(** A step that returns without a round trip to the database. *)
Lemma tracked_step {D A} (m : M (world D) A) :
  (forall w, exists a w', m w = (Ok a, w') /\ faults w' = faults w) ->
  tracked m.
Proof.
  intros Hm w. destruct (Hm w) as (a & w' & -> & E).
  now apply all_succeeded_refl.
Qed.

Lemma tracked_get_db {D} : tracked (@get_db D).
Proof. apply tracked_step. intros w. now eexists _, _. Qed.

Lemma tracked_put_db {D} (d : D) : tracked (put_db d).
Proof. apply tracked_step. intros w. now eexists _, _. Qed.

Lemma tracked_Date_now {D} : tracked (@Date_now D).
Proof. apply tracked_step. intros w. now eexists _, _. Qed.

Lemma tracked_random_below {D} n : tracked (@random_below D n).
Proof. apply tracked_step. intros w. now eexists _, _. Qed.

Lemma tracked_random_draw {D} : tracked (@random_draw D).
Proof. apply tracked_step. intros w. now eexists _, _. Qed.


End RuntimeFacts.

(** ** The token-based server *)

Module MongoFacts.
Import Mongo RuntimeFacts.

Lemma or_else_nonempty o d : (d =? "") = false -> (or_else o d =? "") = false.
Proof.
  intros Hd. destruct o as [s |]; simpl; [| assumption].
  destruct (s =? "") eqn:E; assumption.
Qed.

(** *** The database operations when they succeed *)

Lemma Message_save_quiet w cid uid role text :
  quiet 1 w -> (text =? "") = false ->
  Message_save (Some cid) uid role text w =
  (Ok (mkMessage (next_id (db w)) cid uid role text (clock w (ticks w))),
   mkWorld
     (mkDatabase (users (db w)) (conversations (db w))
        (messages (db w) ++
           [mkMessage (next_id (db w)) cid uid role text (clock w (ticks w))])
        (projects (db w)) (tasks (db w)) (S (next_id (db w))))
     (tl (faults w)) (clock w) (S (ticks w)) (random w) (draws w)).
Proof.
  intros Hf Ht. destruct w as [d fs ck tk rn dr]. unfold quiet in Hf.
  cbn [faults] in *.
  unfold Message_save, bind, fresh_id, Date_now, await_db. cbn. rewrite Ht.
  destruct fs as [| [] fs]; [reflexivity | discriminate Hf | reflexivity].
Qed.

Lemma Conversation_findByIdAndUpdate_quiet w cid now :
  quiet 1 w ->
  Conversation_findByIdAndUpdate (Some cid) now w =
  (Ok tt,
   mkWorld
     (mkDatabase (users (db w)) (map (touch cid now) (conversations (db w)))
        (messages (db w)) (projects (db w)) (tasks (db w)) (next_id (db w)))
     (tl (faults w)) (clock w) (ticks w) (random w) (draws w)).
Proof.
  intros Hf. destruct w as [d fs ck tk rn dr]. unfold quiet in Hf.
  cbn [faults] in *.
  unfold Conversation_findByIdAndUpdate, bind, await_db. cbn.
  destruct fs as [| [] fs]; [reflexivity | discriminate Hf | reflexivity].
Qed.

Section WithOracles.

Variable O : Oracles.

(** *** The chat route *)

Lemma user_text_nonempty v b text :
  user_text v b = Some text -> (text =? "") = false.
Proof.
  destruct v; simpl.
  - intros Ht. now apply truthy_Some in Ht.
  - destruct (truthy (cb_text b)), (cb_image b); try discriminate;
      intros [= <-]; now apply or_else_nonempty.
Qed.

Lemma user_text_of_text v b text :
  truthy (cb_text b) = Some text -> user_text v b = Some text.
Proof.
  intros Ht. destruct v; simpl; [assumption |].
  rewrite Ht. rewrite (or_else_truthy _ _ _ Ht). now destruct (cb_image b).
Qed.

(** Up to the call of the model, both revisions do the same: store the
    user's message, then date the conversation. *)
Lemma chat_try_until_model v user b w text cid h :
  quiet 2 w ->
  user_text v b = Some text ->
  cb_conversationId b = Some cid ->
  chat_history v b = Some h ->
  forall auth,
  try_block O v (PostChat auth b) user w =
  bind (lift_outcome (model_reply O v b text h))
       (fun aiText =>
          bind (Message_save (Some cid) (pl_id user) RoleAi aiText)
               (fun _ => ret (res_json (JObj [("text", JStr aiText)]))))
       (world_at_model_call w cid (pl_id user) text).
Proof.
  intros Hq Ht Hc Hh auth.
  pose proof (user_text_nonempty _ _ _ Ht) as Hne.
  pose proof (quiet_head 1 w Hq) as Hf.
  destruct v; simpl in Ht, Hh; simpl try_block.
  - unfold chat_try_server_ts. rewrite Ht, Hc, Hh.
    rewrite (bind_Ok _ _ _ _ _ (Message_save_quiet w cid (pl_id user) RoleUser text Hf Hne)).
    unfold bind at 1. unfold Date_now at 1. cbn [db faults clock ticks random draws].
    unfold bind at 1.
    rewrite Conversation_findByIdAndUpdate_quiet
      by (apply (quiet_tail 1 w); [exact Hq | reflexivity]).
    reflexivity.
  - unfold chat_try_part_001.
    assert (Hgo : forall (X : Type) (x y : X),
               match truthy (cb_text b), cb_image b with
               | None, None => x
               | _, _ => y
               end = y).
    { intros X x y. destruct (truthy (cb_text b)), (cb_image b);
        try reflexivity; discriminate. }
    rewrite Hgo.
    assert (Hs : or_else (cb_text b) "[Image attached]" = text).
    { destruct (truthy (cb_text b)), (cb_image b); try discriminate;
        now injection Ht. }
    rewrite Hs, Hc.
    rewrite (bind_Ok _ _ _ _ _ (Message_save_quiet w cid (pl_id user) RoleUser text Hf Hne)).
    unfold bind at 1. unfold Date_now at 1. cbn [db faults clock ticks random draws].
    unfold bind at 1.
    rewrite Conversation_findByIdAndUpdate_quiet
      by (apply (quiet_tail 1 w); [exact Hq | reflexivity]).
    injection Hh as <-.
    reflexivity.
Qed.

Lemma handle_chat_authenticated v auth user b w :
  authenticateToken O auth = inr user ->
  handle O v (PostChat auth b) w =
  try_catch (try_block O v (PostChat auth b) user)
            (fun _ => ret (res_error 500 "Failed to get AI response")) w.
Proof.
  intros Ha. unfold handle. cbn [protected]. now rewrite Ha.
Qed.

(** C8.  [POST /api/chat] is not atomic.  In both revisions, when the
    request passed the guard, the user's message was saved and the
    conversation dated (the two database operations succeeded), and then
    the call to the model throws, the route answers 500 with the body
    [{ error: "Failed to get AI response" }] and leaves the world exactly
    as it was at the call: the user's message is in [messages] and the
    conversation keeps its new [updatedAt]. *)
Theorem chat_failure_keeps_writes
  (v : revision) (auth : option string) (user : Payload) (b : chat_body)
  (w : world database) (text : string) (cid : ObjectId)
  (h : list HistoryMsg) (e : error) :
  authenticateToken O auth = inr user ->
  quiet 2 w ->
  user_text v b = Some text ->
  cb_conversationId b = Some cid ->
  chat_history v b = Some h ->
  model_reply O v b text h = Throw e ->
  let w' := world_at_model_call w cid (pl_id user) text in
  handle O v (PostChat auth b) w =
    (Ok (res_error 500 "Failed to get AI response"), w') /\
  is_5xx (status (res_error 500 "Failed to get AI response")) = true /\
  error_only (body (res_error 500 "Failed to get AI response")) /\
  messages (db w') =
    (messages (db w) ++
       [mkMessage (next_id (db w)) cid (pl_id user) RoleUser text
                  (clock w (ticks w))])%list /\
  conversations (db w') =
    map (touch cid (clock w (S (ticks w)))) (conversations (db w)).
Proof.
  intros Ha Hf Ht Hc Hh Hm w'.
  split.
  - rewrite (handle_chat_authenticated _ _ _ _ _ Ha).
    rewrite (try_catch_Throw _ _ w e w'); [reflexivity |].
    rewrite (chat_try_until_model v user b w text cid h Hf Ht Hc Hh).
    apply bind_Throw. now rewrite Hm.
  - split; [reflexivity |].
    split; [now exists "Failed to get AI response" |].
    split; reflexivity.
Qed.

Lemma chat_message_carries_text v b text :
  truthy (cb_text b) = Some text ->
  chat_message v b text = SendText text \/
  exists ps, chat_message v b text = SendParts (mkPart (Some text) None :: ps).
Proof.
  intros Ht. destruct v; simpl; [now left | right].
  unfold chat_parts. rewrite Ht. simpl. eauto.
Qed.

(** C1, as the code has it.  In both revisions, an authenticated chat
    request that carries a message text, a conversation id and a history
    array goes through the cycle whenever its three database operations
    succeed and the model returns a non-empty reply: the user's message is saved,
    the model is given the formatted history and the text, its reply is
    saved as an ['ai'] message of the same conversation, and the response
    is 200 with [{ text: reply }]. *)
Theorem chat_passes_through_when_all_succeed
  (v : revision) (auth : option string) (user : Payload) (b : chat_body)
  (w : world database) (text : string) (cid : ObjectId)
  (h : list HistoryMsg) (reply : string) :
  authenticateToken O auth = inr user ->
  truthy (cb_text b) = Some text ->
  cb_conversationId b = Some cid ->
  cb_history b = Some h ->
  quiet 3 w ->
  model_reply O v b text h = Ok reply ->
  (reply =? "") = false ->
  let w' := world_after_reply w cid (pl_id user) text reply in
  let r := res_json (JObj [("text", JStr reply)]) in
  handle O v (PostChat auth b) w = (Ok r, w') /\
  status r = 200 /\
  pass_through O v user b text w w' r.
Proof.
  intros Ha Htext Hc Hhist Hf Hm Hne w' r.
  pose proof (user_text_of_text v b text Htext) as Ht.
  assert (Hh : chat_history v b = Some h)
    by (destruct v; simpl; now rewrite Hhist).
  split; [| split; [reflexivity |]].
  - rewrite (handle_chat_authenticated _ _ _ _ _ Ha).
    apply try_catch_Ok.
    rewrite (chat_try_until_model v user b w text cid h
               (quiet_pred 2 w Hf) Ht Hc Hh).
    rewrite Hm. simpl lift_outcome.
    unfold bind at 1. unfold ret at 1.
    assert (Hq : quiet 1 (world_at_model_call w cid (pl_id user) text)).
    { apply (quiet_tail 1 (after_db_op w)); [| reflexivity].
      apply (quiet_tail 2 w); [exact Hf | reflexivity]. }
    rewrite (bind_Ok _ _ _ _ _
               (Message_save_quiet (world_at_model_call w cid (pl_id user) text)
                  cid (pl_id user) RoleAi reply Hq Hne)).
    unfold ret, w', world_after_reply, world_at_model_call, ai_message, user_message.
    cbn [db faults clock ticks random draws users conversations messages
         projects tasks next_id].
    now rewrite <- app_assoc.
  - exists cid, h, reply, (user_message w cid (pl_id user) text),
           (ai_message w cid (pl_id user) reply).
    repeat (split; [first [assumption | reflexivity
                           | now apply chat_message_carries_text] |]).
    reflexivity.
Qed.

End WithOracles.

(** The hypotheses of C8 hold for Alice's request when the model is
    unreachable. *)
Lemma chat_failure_keeps_writes_witness :
  fst (handle Sample.unreachable ServerTs
         (PostChat Sample.alice_header Sample.hello)
         (Sample.world_of Sample.mongo_alice))
  = Ok (res_error 500 "Failed to get AI response") /\
  messages (db (snd (handle Sample.unreachable ServerTs
                       (PostChat Sample.alice_header Sample.hello)
                       (Sample.world_of Sample.mongo_alice))))
  = [mkMessage 11 10 1 RoleUser "Hello" 1000%Z].
Proof.
  pose proof (chat_failure_keeps_writes Sample.unreachable ServerTs
                Sample.alice_header Sample.alice Sample.hello
                (Sample.world_of Sample.mongo_alice) "Hello" 10 []
                ServiceError eq_refl eq_refl eq_refl eq_refl eq_refl eq_refl)
    as [E _].
  rewrite E. split; reflexivity.
Defined.

(** The hypotheses of the amended C1 hold for Alice's request when the
    model answers. *)
Lemma chat_passes_through_witness :
  fst (handle Sample.answering Part001
         (PostChat Sample.alice_header Sample.hello)
         (Sample.world_of Sample.mongo_alice))
  = Ok (res_json (JObj [("text", JStr "Hello, human.")])).
Proof.
  pose proof (chat_passes_through_when_all_succeed Sample.answering Part001
                Sample.alice_header Sample.alice Sample.hello
                (Sample.world_of Sample.mongo_alice) "Hello" 10 []
                "Hello, human."
                eq_refl eq_refl eq_refl eq_refl eq_refl eq_refl eq_refl)
    as [E _].
  now rewrite E.
Defined.

(** Without a [history] field, [src/server.ts] throws at [history.map]
    before it calls the model, and [part_001] takes an empty history. *)
Example chat_without_history :
  fst (handle Sample.answering ServerTs
         (PostChat Sample.alice_header
            (mkChatBody (Some 10) (Some "Hello") None None))
         (Sample.world_of Sample.mongo_alice))
  = Ok (res_error 500 "Failed to get AI response") /\
  fst (handle Sample.answering Part001
         (PostChat Sample.alice_header
            (mkChatBody (Some 10) (Some "Hello") None None))
         (Sample.world_of Sample.mongo_alice))
  = Ok (res_json (JObj [("text", JStr "Hello, human.")])).
Proof. split; reflexivity. Qed.

(** C1, as stated, fails.  Alice's request carries a text and a valid
    token but no conversation id: the user's message is rejected by the
    schema ([conversationId] is required), nothing is stored, and the
    answer is the 500 of the catch block instead of [{ text: reply }],
    in [src/server.ts] and in [part_001] alike, although the model would
    have answered.  The same answer is given to her request [hello],
    which names her conversation, when the model is unreachable, when
    its reply is empty (the ['ai'] message is rejected by the schema),
    and when the database fails on the first save. *)
Lemma not_every_chat_request_passes_through :
  (forall v,
     fst (handle Sample.answering v
            (PostChat Sample.alice_header
               (mkChatBody None (Some "Hello") (Some []) None))
            (Sample.world_of Sample.mongo_alice))
     = Ok (res_error 500 "Failed to get AI response") /\
     messages (db (snd (handle Sample.answering v
                          (PostChat Sample.alice_header
                             (mkChatBody None (Some "Hello") (Some []) None))
                          (Sample.world_of Sample.mongo_alice))))
     = []) /\
  (forall v,
     fst (handle Sample.unreachable v
            (PostChat Sample.alice_header Sample.hello)
            (Sample.world_of Sample.mongo_alice))
     = Ok (res_error 500 "Failed to get AI response")) /\
  (forall v,
     fst (handle (mkOracles Sample.sign Sample.verify Sample.hash Sample.compare
                    (fun _ _ _ => Ok "") (fun _ _ => Throw ServiceError))
            v (PostChat Sample.alice_header Sample.hello)
            (Sample.world_of Sample.mongo_alice))
     = Ok (res_error 500 "Failed to get AI response")) /\
  (forall v,
     fst (handle Sample.answering v
            (PostChat Sample.alice_header Sample.hello)
            (mkWorld Sample.mongo_alice [true] (fun _ => 0%Z) 0 (fun _ => 0) 0))
     = Ok (res_error 500 "Failed to get AI response")) /\
  ~ every_chat_request_passes_through Sample.answering ServerTs /\
  ~ every_chat_request_passes_through Sample.answering Part001.
Proof.
  split; [intros []; split; reflexivity |].
  split; [intros []; reflexivity |].
  split; [intros []; reflexivity |].
  split; [intros []; reflexivity |].
  split; intros Hall;
    destruct (Hall Sample.alice_header Sample.alice
                (mkChatBody None (Some "Hello") (Some []) None) "Hello"
                (Sample.world_of Sample.mongo_alice)
                eq_refl eq_refl)
      as (w' & r & Hrun & (cid & h & reply & um & am & Hrest));
    destruct Hrest as (_ & _ & _ & _ & _ & _ & _ & _ & _ & _ & _ & _ & _ & Hr);
    subst r; apply (f_equal fst) in Hrun; simpl in Hrun; discriminate Hrun.
Qed.

Section Middleware.

Variable O : Oracles.

Lemma handle_public v r w :
  protected r = None ->
  handle O v r w = run O v r (mkPayload 0 "") w.
Proof. intros Hp. unfold handle. now rewrite Hp. Qed.

Lemma handle_protected v r auth user w :
  protected r = Some auth ->
  authenticateToken O auth = inr user ->
  handle O v r w = run O v r user w.
Proof. intros Hp Ha. unfold handle. now rewrite Hp, Ha. Qed.

Lemma handle_without_token v r auth w :
  protected r = Some auth ->
  truthy (bearer_token auth) = None ->
  handle O v r w = (Ok (res_error 401 "Access denied. Token missing."), w).
Proof.
  intros Hp Ht. unfold handle, authenticateToken. now rewrite Hp, Ht.
Qed.

Lemma handle_with_bad_token v r auth token w :
  protected r = Some auth ->
  truthy (bearer_token auth) = Some token ->
  jwt_verify O token = None ->
  handle O v r w = (Ok (res_error 403 "Invalid token."), w).
Proof.
  intros Hp Ht Hv. unfold handle, authenticateToken. now rewrite Hp, Ht, Hv.
Qed.


(** *** Login *)

Lemma User_findOne_quiet w email :
  quiet 1 w ->
  User_findOne email w =
  (Ok (find (fun u => u_email u =? email) (users (db w))), after_db_op w).
Proof.
  intros Hf.
  apply (query_quiet (fun d => find (fun u => u_email u =? email) (users d))).
  exact Hf.
Qed.

Lemma login_unknown_email v b w :
  quiet 1 w ->
  find (fun u => u_email u =? lb_email b) (users (db w)) = None ->
  handle O v (PostLogin b) w
  = (Ok (res_error 401 "Invalid credentials"), after_db_op w).
Proof.
  intros Hf Hn. rewrite handle_public by reflexivity.
  unfold run. apply try_catch_Ok. cbn [try_block]. unfold login_try.
  rewrite (bind_Ok _ _ _ _ _ (User_findOne_quiet w _ Hf)). now rewrite Hn.
Qed.

Lemma login_known_email v b w u :
  quiet 1 w ->
  find (fun u => u_email u =? lb_email b) (users (db w)) = Some u ->
  handle O v (PostLogin b) w =
  (Ok match lb_password b with
      | Some password =>
          if bcrypt_compare O password (u_password u)
          then token_response (jwt_sign O (mkPayload (u_id u) (u_email u)))
                 (User_public (u_id u) (u_name u) (u_email u) (u_avatarColor u))
          else res_error 401 "Invalid credentials"
      | None => res_error 500 "Login failed"
      end,
   after_db_op w).
Proof.
  intros Hf Hs. rewrite handle_public by reflexivity.
  unfold run, try_catch. cbn [try_block]. unfold login_try.
  rewrite (bind_Ok _ _ _ _ _ (User_findOne_quiet w _ Hf)). rewrite Hs.
  unfold bind, compare_password.
  destruct (lb_password b) as [password |]; [| reflexivity].
  unfold ret. now destruct (bcrypt_compare O password (u_password u)).
Qed.

End Middleware.

Section Lists.

Variable O : Oracles.

Lemma owned_by_filter {A} (owner : A -> ObjectId) (key : A -> Z)
  (le : (A -> Z) -> A -> A -> bool) (uid : ObjectId) (l : list A) :
  Forall (fun a => owner a = uid /\ In a l)
         (sort_by (le key) (filter (fun a => Nat.eqb (owner a) uid) l)).
Proof.
  apply sort_by_Forall, Forall_forall. intros a Ha.
  apply filter_In in Ha as [Hin He]. split; [now apply Nat.eqb_eq | assumption].
Qed.

(** C6.  In both revisions, for a request whose token verifies as
    [user], each of the four list routes ([GET /api/conversations],
    [/api/messages], [/api/projects], [/api/tasks]) answers 200 only with
    the encoding of a list of stored records that all have [userId]
    equal to [user.id]: no record of another user is returned. *)
Theorem lists_hold_only_own_records
  (v : revision) (auth : option string) (user : Payload)
  (w w' : world database) (r : response) :
  authenticateToken O auth = inr user ->
  status r = 200 ->
  (handle O v (GetConversations auth) w = (Ok r, w') ->
   exists l, body r = JArr (map Conversation_summary l) /\
             Forall (fun c => c_userId c = pl_id user /\
                              In c (conversations (db w))) l) /\
  (forall conversationId,
   handle O v (GetMessages auth conversationId) w = (Ok r, w') ->
   exists l, body r = JArr (map Message_toJSON l) /\
             Forall (fun m => m_userId m = pl_id user /\
                              In m (messages (db w))) l) /\
  (handle O v (GetProjects auth) w = (Ok r, w') ->
   exists l, body r = JArr (map Project_toJSON l) /\
             Forall (fun p => p_userId p = pl_id user /\
                              In p (projects (db w))) l) /\
  (handle O v (GetTasks auth) w = (Ok r, w') ->
   exists l, body r = JArr (map Task_toJSON l) /\
             Forall (fun t => t_userId t = pl_id user /\
                              In t (tasks (db w))) l).
Proof.
  intros Ha Hs.
  split; [| split; [| split]].
  - rewrite (handle_protected O v (GetConversations auth) auth user w eq_refl Ha).
    intros Hrun. apply list_route_inv in Hrun as [Hb _]; [| exact Hs].
    eexists. split; [exact Hb |]. apply owned_by_filter.
  - intros cid.
    rewrite (handle_protected O v (GetMessages auth cid) auth user w eq_refl Ha).
    intros Hrun. apply list_route_inv in Hrun as [Hb _]; [| exact Hs].
    eexists. split; [exact Hb |].
    apply sort_by_Forall, Forall_forall. intros m Hm.
    apply filter_In in Hm as [Hin He].
    apply andb_true_iff in He as [He _].
    split; [now apply Nat.eqb_eq | assumption].
  - rewrite (handle_protected O v (GetProjects auth) auth user w eq_refl Ha).
    intros Hrun. apply list_route_inv in Hrun as [Hb _]; [| exact Hs].
    eexists. split; [exact Hb |]. apply owned_by_filter.
  - rewrite (handle_protected O v (GetTasks auth) auth user w eq_refl Ha).
    intros Hrun. apply list_route_inv in Hrun as [Hb _]; [| exact Hs].
    eexists. split; [exact Hb |]. apply owned_by_filter.
Qed.

End Lists.

(** Alice lists her conversations next to Bob's data. *)
Lemma lists_hold_only_own_records_witness :
  exists l,
    body (res_json (JArr [Conversation_summary
                            (mkConversation 10 1 "Alice's chat" 900%Z)]))
    = JArr (map Conversation_summary l) /\
    Forall (fun c => c_userId c = pl_id Sample.alice /\
                     In c (conversations
                             (db (Sample.world_of Sample.mongo_shared)))) l.
Proof.
  exact (proj1 (lists_hold_only_own_records Sample.answering ServerTs
                  Sample.alice_header Sample.alice
                  (Sample.world_of Sample.mongo_shared)
                  (Sample.world_of Sample.mongo_shared)
                  (res_json (JArr [Conversation_summary
                                     (mkConversation 10 1 "Alice's chat" 900%Z)]))
                  eq_refl eq_refl)
               eq_refl).
Defined.

Section Image.

Variable O : Oracles.

Lemma handle_image_part_001 auth user prompt p w res ps i :
  authenticateToken O auth = inr user ->
  truthy prompt = Some p ->
  generateContent O "gemini-2.5-flash-image" p = Ok res ->
  first_candidate_parts res = Some ps ->
  first_inlineData ps = Some i ->
  handle O Part001 (PostGenerateImage auth prompt) w =
  (Ok (res_json (JObj [("imageUrl", JStr (imageUrl i))])), w).
Proof.
  intros Ha Hp Hg Hc Hi.
  rewrite (handle_protected O Part001 (PostGenerateImage auth prompt)
             auth user w eq_refl Ha).
  unfold run. apply try_catch_Ok. cbn [try_block].
  unfold generate_image_try_part_001. rewrite Hp, Hg. simpl lift_outcome.
  unfold bind, ret. now rewrite Hc, Hi.
Qed.

Lemma handle_image_server_ts auth user prompt p w res :
  authenticateToken O auth = inr user ->
  truthy prompt = Some p ->
  generateContent O "gemini-1.5-flash" p = Ok res ->
  handle O ServerTs (PostGenerateImage auth prompt) w =
  (Ok (res_error 501
         "Image generation not yet implemented on backend with this model."),
   w).
Proof.
  intros Ha Hp Hg.
  rewrite (handle_protected O ServerTs (PostGenerateImage auth prompt)
             auth user w eq_refl Ha).
  unfold run. apply try_catch_Ok. cbn [try_block].
  unfold generate_image_try_server_ts. rewrite Hp, Hg. reflexivity.
Qed.

Lemma handle_image_throws v auth user prompt p w e :
  authenticateToken O auth = inr user ->
  truthy prompt = Some p ->
  generateContent O (image_model v) p = Throw e ->
  handle O v (PostGenerateImage auth prompt) w =
  (Ok (res_error 500 "Image generation failed"), w).
Proof.
  intros Ha Hp Hg.
  rewrite (handle_protected O v (PostGenerateImage auth prompt)
             auth user w eq_refl Ha).
  unfold run, try_catch.
  destruct v; cbn [try_block image_model] in *;
    [unfold generate_image_try_server_ts | unfold generate_image_try_part_001];
    rewrite Hp; unfold bind; rewrite Hg; reflexivity.
Qed.

(** C4, as the code has it.  For an authenticated
    [POST /api/generate-image] with a non-empty prompt, both revisions
    pass the prompt to the model, and the answer follows the outcome of
    that call.  When the call throws, both answer 500 "Image generation
    failed".  When it returns, [part_001] answers 200 with
    [{ imageUrl: "data:<mimeType>;base64,<data>" }] made from the first
    [inlineData] part of the first candidate of the reply, and
    [src/server.ts] answers 501 "not yet implemented" whatever the model
    returned. *)
Theorem image_route_by_revision
  (auth : option string) (user : Payload) (prompt : option string) (p : string)
  (w : world database) (res : GenerateContentResponse) :
  authenticateToken O auth = inr user ->
  truthy prompt = Some p ->
  (forall ps i,
     generateContent O (image_model Part001) p = Ok res ->
     first_candidate_parts res = Some ps ->
     first_inlineData ps = Some i ->
     handle O Part001 (PostGenerateImage auth prompt) w =
     (Ok (res_json
            (JObj [("imageUrl",
                    JStr ("data:" ++ mimeType i ++ ";base64," ++ data i))])),
      w)) /\
  (generateContent O (image_model ServerTs) p = Ok res ->
   handle O ServerTs (PostGenerateImage auth prompt) w =
   (Ok (res_error 501
          "Image generation not yet implemented on backend with this model."),
    w)) /\
  (forall v e,
     generateContent O (image_model v) p = Throw e ->
     handle O v (PostGenerateImage auth prompt) w =
     (Ok (res_error 500 "Image generation failed"), w)).
Proof.
  intros Ha Hp. split; [| split].
  - intros ps i Hg Hc Hi. now apply (handle_image_part_001 auth user prompt p w res ps).
  - intros Hg. now apply (handle_image_server_ts auth user prompt p w res).
  - intros v e Hg. now apply (handle_image_throws v auth user prompt p w e).
Qed.

End Image.

(** Alice asks [part_001] for a cat and the model returns a PNG. *)
Lemma image_route_by_revision_witness :
  handle Sample.answering Part001
    (PostGenerateImage Sample.alice_header (Some "a cat"))
    (Sample.world_of Sample.mongo_alice)
  = (Ok (res_json (JObj [("imageUrl", JStr "data:image/png;base64,iVBORw0KGgo=")])),
     Sample.world_of Sample.mongo_alice).
Proof.
  exact (proj1 (image_route_by_revision Sample.answering
                  Sample.alice_header Sample.alice (Some "a cat") "a cat"
                  (Sample.world_of Sample.mongo_alice)
                  (mkGenerateContentResponse
                     (Some [mkCandidate
                              (Some (Some [mkPart (Some "Here you go") None;
                                           mkPart None (Some Sample.png)]))]))
                  eq_refl eq_refl)
               [mkPart (Some "Here you go") None; mkPart None (Some Sample.png)]
               Sample.png eq_refl eq_refl eq_refl).
Defined.

(** C4, as stated, fails on [src/server.ts]: the model returns a PNG for
    Alice's prompt and the answer is 501 with an error message, not an
    image URL. *)
Lemma server_ts_never_returns_an_image :
  handle Sample.answering ServerTs
    (PostGenerateImage Sample.alice_header (Some "a cat"))
    (Sample.world_of Sample.mongo_alice)
  = (Ok (res_error 501
           "Image generation not yet implemented on backend with this model."),
     Sample.world_of Sample.mongo_alice) /\
  ~ every_image_request_gets_an_image Sample.answering ServerTs.
Proof.
  split; [reflexivity |].
  intros Hall.
  pose proof (Hall Sample.alice_header Sample.alice (Some "a cat") "a cat"
                (Sample.world_of Sample.mongo_alice)
                _ _ Sample.png eq_refl eq_refl eq_refl eq_refl eq_refl) as E.
  apply (f_equal fst) in E. simpl in E. discriminate E.
Qed.

(** *** Inversion of the writes *)

Ltac open_world w :=
  let d := fresh "d" in
  destruct w as [d ? ? ? ? ?]; destruct d as [? ? ? ? ? ?].

Ltac run_op H :=
  unfold bind, await_db, get_db, put_db, ret, throw, Date_now, fresh_id,
         random_draw, random_below, set_db, set_faults in H;
  cbn [db faults clock ticks random draws users conversations messages
       projects tasks next_id] in H.

Ltac split_faults H :=
  match type of H with
  | context [match ?fs with [] => _ | _ => _ end] => destruct fs as [| [] ?]
  end;
  cbn in H; try discriminate H.

Lemma User_findOne_inv email w o w1 :
  User_findOne email w = (Ok o, w1) ->
  o = find (fun u => u_email u =? email) (users (db w)) /\ db w1 = db w.
Proof.
  apply (query_inv (fun d => find (fun u => u_email u =? email) (users d))).
Qed.

Lemma random_draw_inv (w w1 : world database) n :
  random_draw w = (Ok n, w1) -> db w1 = db w.
Proof. unfold random_draw. now intros [= _ <-]. Qed.

Lemma random_below_inv (w w1 : world database) k n :
  random_below k w = (Ok n, w1) -> db w1 = db w.
Proof. unfold random_below. now intros [= _ <-]. Qed.

Lemma Date_now_inv (w w1 : world database) now :
  Date_now w = (Ok now, w1) -> db w1 = db w.
Proof. unfold Date_now. now intros [= _ <-]. Qed.

Lemma User_save_inv n e p c w u w1 :
  User_save n e p c w = (Ok u, w1) ->
  u = mkUser (next_id (db w)) n e p c /\
  users (db w1) = (users (db w) ++ [u])%list.
Proof.
  intros H. open_world w. unfold User_save in H. run_op H.
  destruct ((n =? "") || (e =? "") || (p =? "")); [discriminate H |].
  split_faults H;
    match type of H with
    | context [existsb ?f ?l] => destruct (existsb f l)
    end;
    try discriminate H; injection H as <- <-; cbn; split; reflexivity.
Qed.

Lemma Conversation_save_inv uid title w c w1 :
  Conversation_save uid title w = (Ok c, w1) ->
  c_userId c = uid /\ c_title c = title /\
  conversations (db w1) = (conversations (db w) ++ [c])%list.
Proof.
  intros H. open_world w. unfold Conversation_save in H. run_op H.
  split_faults H; injection H as <- <-; cbn; repeat split.
Qed.

Lemma Message_save_inv cido uid role text w m w1 :
  Message_save cido uid role text w = (Ok m, w1) ->
  exists cid,
    cido = Some cid /\
    m_conversationId m = cid /\ m_userId m = uid /\
    m_role m = role /\ m_text m = text /\
    messages (db w1) = (messages (db w) ++ [m])%list.
Proof.
  intros H. open_world w. unfold Message_save in H. run_op H.
  destruct cido as [cid |]; [| discriminate H].
  destruct (text =? ""); [discriminate H |].
  split_faults H; injection H as <- <-; exists cid; cbn; repeat split.
Qed.

Lemma Conversation_findByIdAndUpdate_inv cido now w w1 :
  Conversation_findByIdAndUpdate cido now w = (Ok tt, w1) ->
  messages (db w1) = messages (db w).
Proof.
  intros H. open_world w. unfold Conversation_findByIdAndUpdate in H. run_op H.
  destruct cido; split_faults H; injection H as <-; reflexivity.
Qed.

Lemma Project_save_inv uid name description content w p w1 :
  Project_save uid name description content w = (Ok p, w1) ->
  p_userId p = uid /\ Some (p_name p) = name /\
  p_description p = description /\ p_content p = content /\
  projects (db w1) = (projects (db w) ++ [p])%list.
Proof.
  intros H. open_world w. unfold Project_save in H. run_op H.
  destruct name as [n |]; [| discriminate H].
  destruct (n =? ""); [discriminate H |].
  split_faults H; injection H as <- <-; cbn; repeat split.
Qed.

Lemma Task_save_inv uid title w t w1 :
  Task_save uid title w = (Ok t, w1) ->
  t_userId t = uid /\ Some (t_title t) = title /\ t_completed t = false /\
  tasks (db w1) = (tasks (db w) ++ [t])%list.
Proof.
  intros H. open_world w. unfold Task_save in H. run_op H.
  destruct title as [n |]; [| discriminate H].
  destruct (n =? ""); [discriminate H |].
  split_faults H; injection H as <- <-; cbn; repeat split.
Qed.

Section Creation.

Variable O : Oracles.

(** *** What a 200 of each creation route means *)

Lemma signup_inv v b w r w' :
  handle O v (PostSignup b) w = (Ok r, w') ->
  status r = 200 ->
  exists name email password salt u,
    truthy (sb_name b) = Some name /\
    truthy (sb_email b) = Some email /\
    truthy (sb_password b) = Some password /\
    find (fun x => u_email x =? email) (users (db w)) = None /\
    u_name u = name /\ u_email u = email /\
    u_password u = bcrypt_hash O password salt /\
    users (db w') = (users (db w) ++ [u])%list /\
    r = token_response (jwt_sign O (mkPayload (u_id u) email))
          (User_public (u_id u) name email (u_avatarColor u)).
Proof.
  intros Hrun Hs.
  rewrite handle_public in Hrun by reflexivity.
  apply try_catch_inv in Hrun as [Hok | (e & _ & ->)]; [| discriminate Hs].
  cbn [try_block] in Hok. unfold signup_try in Hok.
  destruct (truthy (sb_name b)) as [name |];
    [| injection Hok as <- <-; discriminate Hs].
  destruct (truthy (sb_email b)) as [email |];
    [| injection Hok as <- <-; discriminate Hs].
  destruct (truthy (sb_password b)) as [password |];
    [| injection Hok as <- <-; discriminate Hs].
  apply bind_inv in Hok as (existing & w1 & Hfind & Hok).
  apply User_findOne_inv in Hfind as [-> Hdb1].
  destruct (find _ (users (db w))) eqn:Hnone;
    [injection Hok as <- <-; discriminate Hs |].
  apply bind_inv in Hok as (salt & w2 & Hsalt & Hok).
  apply random_draw_inv in Hsalt as Hdb2.
  apply bind_inv in Hok as (k & w3 & Hk & Hok).
  apply random_below_inv in Hk as Hdb3.
  apply bind_inv in Hok as (u & w4 & Hsave & Hok).
  apply User_save_inv in Hsave as [Hu Husers].
  unfold ret in Hok. injection Hok as <- <-.
  exists name, email, password, salt, u.
  rewrite Husers, Hdb3, Hdb2, Hdb1, Hu. cbn.
  repeat split. exact Hnone.
Qed.

Lemma conversations_post_inv v auth user title w r w' :
  authenticateToken O auth = inr user ->
  handle O v (PostConversations auth title) w = (Ok r, w') ->
  status r = 200 ->
  exists c,
    c_userId c = pl_id user /\
    conversations (db w') = (conversations (db w) ++ [c])%list /\
    r = res_json (JObj [("id", JId (c_id c)); ("title", JStr (c_title c))]).
Proof.
  intros Ha Hrun Hs.
  rewrite (handle_protected O v (PostConversations auth title) auth user w eq_refl Ha)
    in Hrun.
  apply try_catch_inv in Hrun as [Hok | (e & _ & ->)]; [| discriminate Hs].
  cbn [try_block] in Hok. unfold conversations_post_try in Hok.
  apply bind_inv in Hok as (c & w1 & Hsave & Hok).
  apply Conversation_save_inv in Hsave as (Hu & _ & Hc).
  unfold ret in Hok. injection Hok as <- <-.
  exists c. repeat split; assumption.
Qed.

Lemma projects_post_inv v auth user b w r w' :
  authenticateToken O auth = inr user ->
  handle O v (PostProjects auth b) w = (Ok r, w') ->
  status r = 200 ->
  exists p,
    p_userId p = pl_id user /\ Some (p_name p) = pb_name b /\
    projects (db w') = (projects (db w) ++ [p])%list /\
    r = res_json (Project_toJSON p).
Proof.
  intros Ha Hrun Hs.
  rewrite (handle_protected O v (PostProjects auth b) auth user w eq_refl Ha)
    in Hrun.
  apply try_catch_inv in Hrun as [Hok | (e & _ & ->)]; [| discriminate Hs].
  cbn [try_block] in Hok. unfold projects_post_try in Hok.
  apply bind_inv in Hok as (p & w1 & Hsave & Hok).
  apply Project_save_inv in Hsave as (Hu & Hn & _ & _ & Hp).
  unfold ret in Hok. injection Hok as <- <-.
  exists p. repeat split; assumption.
Qed.

Lemma tasks_post_inv v auth user title w r w' :
  authenticateToken O auth = inr user ->
  handle O v (PostTasks auth title) w = (Ok r, w') ->
  status r = 200 ->
  exists t,
    t_userId t = pl_id user /\ Some (t_title t) = title /\
    tasks (db w') = (tasks (db w) ++ [t])%list /\
    r = res_json (Task_toJSON t).
Proof.
  intros Ha Hrun Hs.
  rewrite (handle_protected O v (PostTasks auth title) auth user w eq_refl Ha)
    in Hrun.
  apply try_catch_inv in Hrun as [Hok | (e & _ & ->)]; [| discriminate Hs].
  cbn [try_block] in Hok. unfold tasks_post_try in Hok.
  apply bind_inv in Hok as (t & w1 & Hsave & Hok).
  apply Task_save_inv in Hsave as (Hu & Hn & _ & Ht).
  unfold ret in Hok. injection Hok as <- <-.
  exists t. repeat split; assumption.
Qed.

(** The tail of the chat route, common to both revisions. *)
Lemma chat_tail_inv cido uid (reply : outcome string) w r w' :
  bind (lift_outcome reply)
       (fun aiText =>
          bind (Message_save cido uid RoleAi aiText)
               (fun _ => ret (res_json (JObj [("text", JStr aiText)])))) w
  = (Ok r, w') ->
  exists am,
    m_userId am = uid /\ m_role am = RoleAi /\ reply = Ok (m_text am) /\
    (forall cid, cido = Some cid -> m_conversationId am = cid) /\
    messages (db w') = (messages (db w) ++ [am])%list /\
    r = res_json (JObj [("text", JStr (m_text am))]).
Proof.
  intros H.
  apply bind_inv in H as (aiText & w1 & Hreply & H).
  destruct reply as [t | e]; simpl in Hreply; [| discriminate Hreply].
  unfold ret in Hreply. injection Hreply as -> <-.
  apply bind_inv in H as (am & w2 & Hsave & H).
  apply Message_save_inv in Hsave as (cid & Hc & Hcid & Hu & Hr & Ht & Hm).
  unfold ret in H. injection H as <- <-.
  exists am. rewrite Ht.
  repeat split; try assumption.
  intros cid' Hc'. congruence.
Qed.

Lemma chat_inv v auth user b w r w' :
  authenticateToken O auth = inr user ->
  handle O v (PostChat auth b) w = (Ok r, w') ->
  status r = 200 ->
  exists cid um am,
    cb_conversationId b = Some cid /\
    user_text v b = Some (m_text um) /\
    m_conversationId um = cid /\ m_userId um = pl_id user /\ m_role um = RoleUser /\
    m_conversationId am = cid /\ m_userId am = pl_id user /\ m_role am = RoleAi /\
    messages (db w') = (messages (db w) ++ [um; am])%list /\
    r = res_json (JObj [("text", JStr (m_text am))]).
Proof.
  intros Ha Hrun Hs.
  rewrite (handle_chat_authenticated O v auth user b w Ha) in Hrun.
  apply try_catch_inv in Hrun as [Hok | (e & _ & ->)]; [| discriminate Hs].
  destruct v; cbn [try_block] in Hok.
  - unfold chat_try_server_ts in Hok.
    destruct (truthy (cb_text b)) as [text |] eqn:Htext;
      [| injection Hok as <- <-; discriminate Hs].
    apply bind_inv in Hok as (um & w1 & Hsave & Hok).
    apply Message_save_inv in Hsave as (cid & Hc & Hcid & Hu & Hr & Ht & Hm).
    apply bind_inv in Hok as (now & w2 & Hnow & Hok).
    apply Date_now_inv in Hnow as Hdb2.
    apply bind_inv in Hok as ([] & w3 & Htouch & Hok).
    apply Conversation_findByIdAndUpdate_inv in Htouch as Hm3.
    apply bind_inv in Hok as (chatHistory & w4 & Hhist & Hok).
    destruct (cb_history b) as [h |]; [| discriminate Hhist].
    unfold ret in Hhist. injection Hhist as <- <-.
    apply chat_tail_inv in Hok as (am & Hau & Har & _ & Hac & Hm' & ->).
    exists cid, um, am. simpl user_text. rewrite Ht.
    repeat split; try assumption; try (now apply Hac).
    rewrite Hm', Hm3, Hdb2, Hm. now rewrite <- app_assoc.
  - unfold chat_try_part_001 in Hok.
    destruct (user_text Part001 b) as [text |] eqn:Htext.
    + assert (Hgo : forall (X : Type) (x y : X),
                 match truthy (cb_text b), cb_image b with
                 | None, None => x
                 | _, _ => y
                 end = y).
      { intros X x y. simpl in Htext.
        destruct (truthy (cb_text b)), (cb_image b);
          try reflexivity; discriminate. }
      rewrite Hgo in Hok.
      assert (Hs' : or_else (cb_text b) "[Image attached]" = text).
      { simpl in Htext.
        destruct (truthy (cb_text b)), (cb_image b); try discriminate;
          now injection Htext. }
      rewrite Hs' in Hok.
      apply bind_inv in Hok as (um & w1 & Hsave & Hok).
      apply Message_save_inv in Hsave as (cid & Hc & Hcid & Hu & Hr & Ht & Hm).
      apply bind_inv in Hok as (now & w2 & Hnow & Hok).
      apply Date_now_inv in Hnow as Hdb2.
      apply bind_inv in Hok as ([] & w3 & Htouch & Hok).
      apply Conversation_findByIdAndUpdate_inv in Htouch as Hm3.
      apply chat_tail_inv in Hok as (am & Hau & Har & _ & Hac & Hm' & ->).
      exists cid, um, am. rewrite Ht.
      repeat split; try assumption; try (now apply Hac).
      rewrite Hm', Hm3, Hdb2, Hm. now rewrite <- app_assoc.
    + simpl in Htext.
      destruct (truthy (cb_text b)), (cb_image b); try discriminate.
      injection Hok as <- <-. discriminate Hs.
Qed.

End Creation.

Section Persistence.

Variable O : Oracles.

(** *** The fetch routes in a later world *)

Lemma in_owned_sorted {A} (owner : A -> ObjectId) (le : A -> A -> bool)
  (uid : ObjectId) (l : list A) (a : A) :
  In a l -> owner a = uid ->
  In a (sort_by le (filter (fun x => Nat.eqb (owner x) uid) l)).
Proof.
  intros Hin Ho. apply sort_by_In, filter_In.
  split; [assumption | now apply Nat.eqb_eq].
Qed.

Lemma conversations_get_later v auth user w w2 c :
  authenticateToken O auth = inr user ->
  later w w2 ->
  In c (conversations (db w)) -> c_userId c = pl_id user ->
  exists r2, handle O v (GetConversations auth) w2 = (Ok r2, after_db_op w2) /\
             returns_item Conversation_summary c r2.
Proof.
  intros Ha [Hdb Hf] Hin Hu.
  rewrite (handle_protected O v (GetConversations auth) auth user w2 eq_refl Ha).
  eexists. split.
  - apply (list_route_quiet
             (fun d => sort_by (descending c_updatedAt)
                         (filter (fun c => Nat.eqb (c_userId c) (pl_id user))
                                 (conversations d)))).
    exact Hf.
  - eexists. split; [reflexivity |].
    rewrite Hdb. now apply in_owned_sorted.
Qed.

Lemma messages_get_later v auth user w w2 cid m :
  authenticateToken O auth = inr user ->
  later w w2 ->
  In m (messages (db w)) ->
  m_userId m = pl_id user -> m_conversationId m = cid ->
  exists r2, handle O v (GetMessages auth (Some cid)) w2 = (Ok r2, after_db_op w2) /\
             returns_item Message_toJSON m r2.
Proof.
  intros Ha [Hdb Hf] Hin Hu Hc.
  rewrite (handle_protected O v (GetMessages auth (Some cid)) auth user w2 eq_refl Ha).
  eexists. split.
  - apply (list_route_quiet
             (fun d => sort_by (ascending m_timestamp)
                         (filter (fun m => Nat.eqb (m_userId m) (pl_id user) &&
                                           Nat.eqb (m_conversationId m) cid)
                                 (messages d)))).
    exact Hf.
  - eexists. split; [reflexivity |].
    rewrite Hdb. apply sort_by_In, filter_In. split; [assumption |].
    apply andb_true_iff. split; now apply Nat.eqb_eq.
Qed.

Lemma projects_get_later v auth user w w2 p :
  authenticateToken O auth = inr user ->
  later w w2 ->
  In p (projects (db w)) -> p_userId p = pl_id user ->
  exists r2, handle O v (GetProjects auth) w2 = (Ok r2, after_db_op w2) /\
             returns_item Project_toJSON p r2.
Proof.
  intros Ha [Hdb Hf] Hin Hu.
  rewrite (handle_protected O v (GetProjects auth) auth user w2 eq_refl Ha).
  eexists. split.
  - apply (list_route_quiet
             (fun d => sort_by (descending p_createdAt)
                         (filter (fun p => Nat.eqb (p_userId p) (pl_id user))
                                 (projects d)))).
    exact Hf.
  - eexists. split; [reflexivity |].
    rewrite Hdb. now apply in_owned_sorted.
Qed.

Lemma tasks_get_later v auth user w w2 t :
  authenticateToken O auth = inr user ->
  later w w2 ->
  In t (tasks (db w)) -> t_userId t = pl_id user ->
  exists r2, handle O v (GetTasks auth) w2 = (Ok r2, after_db_op w2) /\
             returns_item Task_toJSON t r2.
Proof.
  intros Ha [Hdb Hf] Hin Hu.
  rewrite (handle_protected O v (GetTasks auth) auth user w2 eq_refl Ha).
  eexists. split.
  - apply (list_route_quiet
             (fun d => sort_by (descending t_createdAt)
                         (filter (fun t => Nat.eqb (t_userId t) (pl_id user))
                                 (tasks d)))).
    exact Hf.
  - eexists. split; [reflexivity |].
    rewrite Hdb. now apply in_owned_sorted.
Qed.

(** *** Each kind of record *)

Hypothesis compare_hash :
  forall password salt,
    bcrypt_compare O password (bcrypt_hash O password salt) = true.

Lemma signup_fetched v : signup_is_fetched O v.
Proof.
  intros b w w' r Hrun Hs.
  destruct (signup_inv O v b w r w' Hrun Hs)
    as (name & email & password & salt & u & Hn & He & Hp & Hnone
        & Hun & Hue & Hup & Husers & Hr).
  exists name, email, password, u.
  repeat (split; [assumption |]).
  split; [rewrite Husers; apply in_or_app; right; now left |].
  repeat (split; [assumption |]).
  intros w2 [Hdb Hf].
  rewrite (login_known_email O v (mkLoginBody email (Some password)) w2 u Hf).
  - cbn [lb_password]. rewrite Hup, compare_hash, Hue, Hun. reflexivity.
  - cbn [lb_email]. rewrite Hdb, Husers.
    apply find_app_last; [assumption |].
    rewrite Hue. apply String.eqb_refl.
Qed.

Lemma conversation_fetched v : conversation_is_fetched O v.
Proof.
  intros auth user title w w' r Ha Hrun Hs.
  destruct (conversations_post_inv O v auth user title w r w' Ha Hrun Hs)
    as (c & Hu & Hc & Hr).
  assert (Hin : In c (conversations (db w')))
    by (rewrite Hc; apply in_or_app; right; now left).
  exists c. repeat (split; [assumption |]).
  intros w2 Hl. now apply (conversations_get_later v auth user w').
Qed.

Lemma messages_fetched v : messages_are_fetched O v.
Proof.
  intros auth user b w w' r Ha Hrun Hs.
  destruct (chat_inv O v auth user b w r w' Ha Hrun Hs)
    as (cid & um & am & Hc & Ht & Huc & Huu & Hur & Hac & Hau & Har & Hm & Hr).
  assert (Hium : In um (messages (db w')))
    by (rewrite Hm; apply in_or_app; right; simpl; tauto).
  assert (Hiam : In am (messages (db w')))
    by (rewrite Hm; apply in_or_app; right; simpl; tauto).
  exists um, am. repeat (split; [assumption |]).
  intros w2 Hl. rewrite Hc.
  destruct (messages_get_later v auth user w' w2 cid um Ha Hl Hium Huu Huc)
    as (r2 & Hget & Hret).
  destruct (messages_get_later v auth user w' w2 cid am Ha Hl Hiam Hau Hac)
    as (r2' & Hget' & Hret').
  exists r2. split; [assumption |]. split; [assumption |].
  rewrite Hget in Hget'. now injection Hget' as <-.
Qed.

Lemma project_fetched v : project_is_fetched O v.
Proof.
  intros auth user b w w' r Ha Hrun Hs.
  destruct (projects_post_inv O v auth user b w r w' Ha Hrun Hs)
    as (p & Hu & Hn & Hp & Hr).
  assert (Hin : In p (projects (db w')))
    by (rewrite Hp; apply in_or_app; right; now left).
  exists p. repeat (split; [assumption |]).
  intros w2 Hl. now apply (projects_get_later v auth user w').
Qed.

Lemma task_fetched v : task_is_fetched O v.
Proof.
  intros auth user title w w' r Ha Hrun Hs.
  destruct (tasks_post_inv O v auth user title w r w' Ha Hrun Hs)
    as (t & Hu & Hn & Ht & Hr).
  assert (Hin : In t (tasks (db w')))
    by (rewrite Ht; apply in_or_app; right; now left).
  exists t. repeat (split; [assumption |]).
  intros w2 Hl. now apply (tasks_get_later v auth user w').
Qed.

End Persistence.

(** *** Exceptions *)



(** *** No route hides a failure of the database *)

Lemma tracked_fresh_id : tracked fresh_id.
Proof. apply tracked_step. intros w. now eexists _, _. Qed.

Section Failures.

Variable O : Oracles.

Ltac track :=
  repeat first
    [ apply tracked_ret
    | apply tracked_throw
    | apply tracked_lift_outcome
    | apply tracked_await_db
    | apply tracked_get_db
    | apply tracked_put_db
    | apply tracked_Date_now
    | apply tracked_random_below
    | apply tracked_random_draw
    | apply tracked_fresh_id
    | apply tracked_bind; [| intros ?]
    | match goal with
      | |- tracked (match ?x with _ => _ end) => destruct x
      end ].



End Failures.

(** *** Well-formed creation requests are answered 200 *)

Section Success.

Variable O : Oracles.

(** The cases of a schedule whose next operations succeed. *)
Ltac quiet_cases Hq :=
  unfold quiet in Hq; cbn [faults firstn existsb] in Hq;
  repeat match goal with
         | |- context [match ?fs with [] => _ | _ => _ end] =>
             destruct fs as [| [] ?]; cbn [firstn existsb orb] in Hq;
             try discriminate Hq; cbn
         end.

Lemma signup_success v : signup_succeeds O v.
Proof.
  intros b name email password w Hn He Hp Hfree Hhash Hq.
  assert (Hfind : find (fun u => u_email u =? email) (users (db w)) = None).
  { apply find_none_iff. intros u Hu. apply String.eqb_neq. now apply Hfree. }
  assert (Hex : existsb (fun u => u_email u =? email) (users (db w)) = false).
  { destruct (existsb _ (users (db w))) eqn:E; [| reflexivity].
    apply existsb_exists in E as (u & Hu & E). apply String.eqb_eq in E.
    now destruct (Hfree u Hu). }
  pose proof (truthy_Some _ _ Hn) as [_ Hn'].
  pose proof (truthy_Some _ _ He) as [_ He'].
  rewrite handle_public by reflexivity. unfold run, try_catch.
  cbn [try_block]. unfold signup_try. rewrite Hn, He, Hp.
  rewrite (bind_Ok _ _ _ _ _ (User_findOne_quiet w email (quiet_head 1 w Hq))).
  rewrite Hfind.
  destruct w as [d fs ck tk rn dr]. cbn [db] in *.
  unfold User_save.
  unfold bind, random_draw, random_below, fresh_id, after_db_op,
         await_db, get_db, put_db, ret, throw, set_db, set_faults.
  cbn [db faults clock ticks random draws users conversations messages
       projects tasks next_id tl].
  rewrite Hn', He'. cbn [orb].
  pose proof (Hhash (rn dr)) as Hh. apply String.eqb_neq in Hh. rewrite Hh.
  unfold quiet in Hq. cbn [faults] in Hq.
  destruct fs as [| f1 [| [] fs]]; cbn [tl]; cbn in Hq;
    try (rewrite orb_true_r in Hq; discriminate Hq);
    cbn; rewrite Hex; eexists _, _; split; reflexivity.
Qed.

Lemma conversation_success v : conversation_succeeds O v.
Proof.
  intros auth user title w Ha Hq.
  rewrite (handle_protected O v (PostConversations auth title) auth user w
             eq_refl Ha).
  unfold run, try_catch. cbn [try_block].
  unfold conversations_post_try, Conversation_save.
  destruct w as [d fs ck tk rn dr].
  unfold bind, fresh_id, Date_now, await_db, get_db, put_db, ret, set_db,
         set_faults.
  cbn [db faults clock ticks random draws]. quiet_cases Hq;
    eexists _, _; split; reflexivity.
Qed.

Lemma project_success v : project_succeeds O v.
Proof.
  intros auth user b name w Ha Hn Hq.
  apply truthy_Some in Hn as [Hn Hne].
  rewrite (handle_protected O v (PostProjects auth b) auth user w eq_refl Ha).
  unfold run, try_catch. cbn [try_block].
  unfold projects_post_try, Project_save. rewrite Hn.
  destruct w as [d fs ck tk rn dr].
  unfold bind, fresh_id, Date_now, await_db, get_db, put_db, ret, set_db,
         set_faults.
  cbn [db faults clock ticks random draws]. rewrite Hne.
  cbn [db faults clock ticks random draws]. quiet_cases Hq;
    eexists _, _; split; reflexivity.
Qed.

Lemma task_success v : task_succeeds O v.
Proof.
  intros auth user title t w Ha Ht Hq.
  apply truthy_Some in Ht as [-> Hne].
  rewrite (handle_protected O v (PostTasks auth (Some t)) auth user w eq_refl Ha).
  unfold run, try_catch. cbn [try_block].
  unfold tasks_post_try, Task_save.
  destruct w as [d fs ck tk rn dr].
  unfold bind, fresh_id, Date_now, await_db, get_db, put_db, ret, set_db,
         set_faults.
  cbn [db faults clock ticks random draws]. rewrite Hne.
  cbn [db faults clock ticks random draws]. quiet_cases Hq;
    eexists _, _; split; reflexivity.
Qed.

Lemma chat_success v : chat_succeeds O v.
Proof.
  intros auth user b text cid h reply w Ha Ht Hc Hh Hm Hne Hq.
  apply String.eqb_neq in Hne.
  rewrite (handle_chat_authenticated O _ _ _ _ _ Ha).
  eexists _, _. split.
  - apply try_catch_Ok.
    rewrite (chat_try_until_model O v user b w text cid h
               (quiet_pred 2 w Hq) Ht Hc Hh).
    rewrite Hm. simpl lift_outcome.
    unfold bind at 1. unfold ret at 1.
    assert (Hq3 : quiet 1 (world_at_model_call w cid (pl_id user) text)).
    { apply (quiet_tail 1 (after_db_op w)); [| reflexivity].
      apply (quiet_tail 2 w); [exact Hq | reflexivity]. }
    rewrite (bind_Ok _ _ _ _ _
               (Message_save_quiet (world_at_model_call w cid (pl_id user) text)
                  cid (pl_id user) RoleAi reply Hq3 Hne)).
    reflexivity.
  - reflexivity.
Qed.

End Success.

End MongoFacts.

(** ** The SQLite server *)

Module SqliteFacts.
Import Sqlite RuntimeFacts.

Ltac open_world w :=
  let d := fresh "d" in
  destruct w as [d ? ? ? ? ?]; destruct d as [? ? ? ? ? ? ? ? ? ?].

Ltac run_op H :=
  unfold exec, bind, await_db, get_db, put_db, ret, throw, Date_now,
         random_below, set_db, set_faults in H;
  cbn [db faults clock ticks random draws users conversations chat_messages
       projects tasks seq_users seq_conversations seq_chat_messages
       seq_projects seq_tasks] in H.

Ltac split_faults H :=
  match type of H with
  | context [match ?fs with [] => _ | _ => _ end] => destruct fs as [| [] ?]
  end;
  cbn in H; try discriminate H.

(** The foreign-key check of an insert. *)
Ltac split_check H :=
  unfold user_exists, conversation_exists in H;
  cbn [users conversations] in H;
  match type of H with
  | context [if ?c then _ else _] => destruct c
  end;
  try discriminate H.




(** *** Login *)

Lemma select_user_quiet email password w :
  quiet 1 w ->
  select_user email password w =
  (Ok (find (fun u => (ur_email u =? email) && (ur_password u =? password))
            (users (db w))), after_db_op w).
Proof.
  intros Hf.
  apply (query_quiet
           (fun d => find (fun u => (ur_email u =? email) &&
                                    (ur_password u =? password)) (users d))).
  exact Hf.
Qed.

Lemma login_quiet email password w :
  quiet 1 w ->
  handle (PostLogin email password) w =
  (Ok match find (fun u => (ur_email u =? email) && (ur_password u =? password))
                 (users (db w)) with
      | Some u => res_json (user_public (ur_id u) (ur_name u) (ur_email u)
                                        (ur_avatarColor u))
      | None => res_error 401 "Invalid credentials"
      end, after_db_op w).
Proof.
  intros Hf. unfold handle. apply try_catch_Ok. cbn [try_block].
  unfold login_try. rewrite (bind_Ok _ _ _ _ _ (select_user_quiet _ _ w Hf)).
  now destruct (find _ (users (db w))).
Qed.

(** *** Inversion of the inserts *)

Lemma sqlite_random_below_inv (w w1 : world database) k n :
  random_below k w = (Ok n, w1) -> db w1 = db w /\ faults w1 = faults w.
Proof. unfold random_below. now intros [= _ <-]. Qed.

Lemma insert_user_inv n e p c w id w1 :
  insert_user n e p c w = (Ok id, w1) ->
  existsb (fun u => ur_email u =? e) (users (db w)) = false /\
  users (db w1) = (users (db w) ++ [mkUserRow id n e p c])%list.
Proof.
  intros H. open_world w. unfold insert_user in H. run_op H.
  split_faults H;
    match type of H with
    | context [existsb ?f ?l] => destruct (existsb f l) eqn:Ex
    end;
    try discriminate H; injection H as <- <-; cbn;
    (split; [assumption | reflexivity]).
Qed.

Lemma insert_conversation_inv uid title w id w1 :
  insert_conversation uid title w = (Ok id, w1) ->
  exists now,
    conversations (db w1) =
    (conversations (db w) ++ [mkConversationRow id uid title now])%list.
Proof.
  intros H. open_world w. unfold insert_conversation in H. run_op H.
  split_faults H; split_check H; injection H as <- <-; eexists; reflexivity.
Qed.

Lemma insert_message_inv cid uid role text w id w1 :
  insert_message cid uid role text w = (Ok id, w1) ->
  exists now,
    chat_messages (db w1) =
    (chat_messages (db w) ++ [mkChatMessageRow id cid uid role text now])%list.
Proof.
  intros H. open_world w. unfold insert_message in H. run_op H.
  split_faults H; split_check H; injection H as <- <-; eexists; reflexivity.
Qed.

Lemma touch_conversation_inv cid w w1 :
  touch_conversation cid w = (Ok tt, w1) ->
  chat_messages (db w1) = chat_messages (db w).
Proof.
  intros H. open_world w. unfold touch_conversation in H. run_op H.
  split_faults H; injection H as <-; reflexivity.
Qed.

Lemma insert_project_inv uid name description content w id w1 :
  insert_project uid name description content w = (Ok id, w1) ->
  exists now,
    projects (db w1) =
    (projects (db w) ++ [mkProjectRow id uid name description content now])%list.
Proof.
  intros H. open_world w. unfold insert_project in H. run_op H.
  split_faults H; split_check H; injection H as <- <-; eexists; reflexivity.
Qed.

Lemma insert_task_inv uid title w id w1 :
  insert_task uid title w = (Ok id, w1) ->
  exists now,
    tasks (db w1) = (tasks (db w) ++ [mkTaskRow id uid title 0%Z now])%list.
Proof.
  intros H. open_world w. unfold insert_task in H. run_op H.
  split_faults H; split_check H; injection H as <- <-; eexists; reflexivity.
Qed.

Lemma truthy_number_Some o n : truthy_number o = Some n -> o = Some n.
Proof.
  destruct o as [[| k] |]; simpl; intros [= <-]; reflexivity.
Qed.

(** *** What a 200 of each creation route means *)

Lemma signup_catch_not_200 b e : status (catch_block (PostSignup b) e) <> 200.
Proof.
  cbn [catch_block]. destruct (error_code e) as [code |];
    [destruct (code =? "SQLITE_CONSTRAINT_UNIQUE") |]; discriminate.
Qed.

Lemma sqlite_signup_inv b w r w' :
  handle (PostSignup b) w = (Ok r, w') ->
  status r = 200 ->
  exists name email password u,
    truthy (sb_name b) = Some name /\
    truthy (sb_email b) = Some email /\
    truthy (sb_password b) = Some password /\
    existsb (fun x => ur_email x =? email) (users (db w)) = false /\
    ur_name u = name /\ ur_email u = email /\ ur_password u = password /\
    users (db w') = (users (db w) ++ [u])%list /\
    r = res_json (user_public (ur_id u) name email (ur_avatarColor u)).
Proof.
  intros Hrun Hs. unfold handle in Hrun.
  apply try_catch_inv in Hrun as [Hok | (e & _ & ->)];
    [| now apply signup_catch_not_200 in Hs].
  cbn [try_block] in Hok. unfold signup_try in Hok.
  destruct (truthy (sb_name b)) as [name |];
    [| injection Hok as <- <-; discriminate Hs].
  destruct (truthy (sb_email b)) as [email |];
    [| injection Hok as <- <-; discriminate Hs].
  destruct (truthy (sb_password b)) as [password |];
    [| injection Hok as <- <-; discriminate Hs].
  apply bind_inv in Hok as (k & w1 & Hk & Hok).
  apply sqlite_random_below_inv in Hk as [Hdb1 _].
  apply bind_inv in Hok as (id & w2 & Hins & Hok).
  apply insert_user_inv in Hins as [Hfresh Husers].
  unfold ret in Hok. injection Hok as <- <-.
  rewrite Hdb1 in Hfresh, Husers.
  exists name, email, password,
         (mkUserRow id name email password (nth k colors "")).
  repeat (split; [reflexivity |]).
  split; [exact Hfresh |].
  repeat (split; [reflexivity |]).
  split; [exact Husers | reflexivity].
Qed.

Lemma sqlite_conversations_post_inv userId title w r w' :
  handle (PostConversations userId title) w = (Ok r, w') ->
  status r = 200 ->
  exists c,
    Some (cr_user_id c) = userId /\
    conversations (db w') = (conversations (db w) ++ [c])%list /\
    r = res_json (JObj [("id", JId (cr_id c)); ("title", JStr (cr_title c))]).
Proof.
  intros Hrun Hs. unfold handle in Hrun.
  apply try_catch_inv in Hrun as [Hok | (e & _ & ->)]; [| discriminate Hs].
  cbn [try_block] in Hok. unfold conversations_post_try in Hok.
  destruct (truthy_number userId) as [uid |] eqn:Hu;
    [| injection Hok as <- <-; discriminate Hs].
  apply truthy_number_Some in Hu. subst userId.
  apply bind_inv in Hok as (id & w1 & Hins & Hok).
  apply insert_conversation_inv in Hins as (now & Hc).
  unfold ret in Hok. injection Hok as <- <-.
  exists (mkConversationRow id uid (or_else title "New Chat") now).
  split; [reflexivity | split; [exact Hc | reflexivity]].
Qed.

Lemma messages_post_inv b w r w' :
  handle (PostMessages b) w = (Ok r, w') ->
  status r = 200 ->
  exists m,
    Some (mr_user_id m) = mb_userId b /\
    Some (mr_conversation_id m) = mb_conversationId b /\
    mr_role m = mb_role b /\ mr_text m = mb_text b /\
    chat_messages (db w') = (chat_messages (db w) ++ [m])%list.
Proof.
  intros Hrun Hs. unfold handle in Hrun.
  apply try_catch_inv in Hrun as [Hok | (e & _ & ->)]; [| discriminate Hs].
  cbn [try_block] in Hok. unfold messages_post_try in Hok.
  destruct (truthy_number (mb_userId b)) as [uid |] eqn:Hu;
    [| injection Hok as <- <-; discriminate Hs].
  destruct (truthy_number (mb_conversationId b)) as [cid |] eqn:Hc;
    [| injection Hok as <- <-; discriminate Hs].
  apply truthy_number_Some in Hu, Hc.
  apply bind_inv in Hok as (id & w1 & Hins & Hok).
  apply insert_message_inv in Hins as (now & Hm).
  apply bind_inv in Hok as ([] & w2 & Htouch & Hok).
  apply touch_conversation_inv in Htouch.
  unfold ret in Hok. injection Hok as <- <-.
  exists (mkChatMessageRow id cid uid (mb_role b) (mb_text b) now).
  rewrite Htouch, Hm, Hu, Hc. repeat split.
Qed.

Lemma sqlite_projects_post_inv b w r w' :
  handle (PostProjects b) w = (Ok r, w') ->
  status r = 200 ->
  exists p,
    Some (pr_user_id p) = pb_userId b /\ pr_name p = pb_name b /\
    projects (db w') = (projects (db w) ++ [p])%list.
Proof.
  intros Hrun Hs. unfold handle in Hrun.
  apply try_catch_inv in Hrun as [Hok | (e & _ & ->)]; [| discriminate Hs].
  cbn [try_block] in Hok. unfold projects_post_try in Hok.
  destruct (truthy_number (pb_userId b)) as [uid |] eqn:Hu;
    [| injection Hok as <- <-; discriminate Hs].
  apply truthy_number_Some in Hu.
  apply bind_inv in Hok as (id & w1 & Hins & Hok).
  apply insert_project_inv in Hins as (now & Hp).
  unfold ret in Hok. injection Hok as <- <-.
  exists (mkProjectRow id uid (pb_name b) (pb_description b) (pb_content b) now).
  rewrite Hp, Hu. repeat split.
Qed.

Lemma sqlite_tasks_post_inv userId title w r w' :
  handle (PostTasks userId title) w = (Ok r, w') ->
  status r = 200 ->
  exists t,
    Some (tr_user_id t) = userId /\ tr_title t = title /\
    tasks (db w') = (tasks (db w) ++ [t])%list.
Proof.
  intros Hrun Hs. unfold handle in Hrun.
  apply try_catch_inv in Hrun as [Hok | (e & _ & ->)]; [| discriminate Hs].
  cbn [try_block] in Hok. unfold tasks_post_try in Hok.
  destruct (truthy_number userId) as [uid |] eqn:Hu;
    [| injection Hok as <- <-; discriminate Hs].
  apply truthy_number_Some in Hu. subst userId.
  apply bind_inv in Hok as (id & w1 & Hins & Hok).
  apply insert_task_inv in Hins as (now & Ht).
  unfold ret in Hok. injection Hok as <- <-.
  exists (mkTaskRow id uid title 0%Z now).
  rewrite Ht. repeat split.
Qed.

(** *** The fetch routes in a later world *)

Lemma sqlite_conversations_get_later uid w w2 c :
  later w w2 ->
  In c (conversations (db w)) -> cr_user_id c = uid ->
  exists r2, handle (GetConversations (Some uid)) w2 = (Ok r2, after_db_op w2) /\
             returns_item conversation_toJSON c r2.
Proof.
  intros [Hdb Hf] Hin Hu. unfold handle. cbn [try_block catch_block].
  eexists. split.
  - apply (list_route_quiet
             (fun d => sort_by (descending cr_updated_at)
                         (filter (fun c => Nat.eqb (cr_user_id c) uid)
                                 (conversations d)))).
    exact Hf.
  - eexists. split; [reflexivity |].
    rewrite Hdb. apply sort_by_In, filter_In.
    split; [assumption | now apply Nat.eqb_eq].
Qed.

Lemma sqlite_messages_get_later uid cid w w2 m :
  later w w2 ->
  In m (chat_messages (db w)) ->
  mr_user_id m = uid -> mr_conversation_id m = cid ->
  exists r2, handle (GetMessages (Some uid) (Some cid)) w2 = (Ok r2, after_db_op w2) /\
             returns_item message_toJSON m r2.
Proof.
  intros [Hdb Hf] Hin Hu Hc. unfold handle. cbn [try_block catch_block].
  eexists. split.
  - apply (list_route_quiet
             (fun d => sort_by (ascending mr_timestamp)
                         (filter (fun m => Nat.eqb (mr_user_id m) uid &&
                                           Nat.eqb (mr_conversation_id m) cid)
                                 (chat_messages d)))).
    exact Hf.
  - eexists. split; [reflexivity |].
    rewrite Hdb. apply sort_by_In, filter_In. split; [assumption |].
    apply andb_true_iff. split; now apply Nat.eqb_eq.
Qed.

Lemma sqlite_projects_get_later uid w w2 p :
  later w w2 ->
  In p (projects (db w)) -> pr_user_id p = uid ->
  exists r2, handle (GetProjects (Some uid)) w2 = (Ok r2, after_db_op w2) /\
             returns_item project_toJSON p r2.
Proof.
  intros [Hdb Hf] Hin Hu. unfold handle. cbn [try_block catch_block].
  eexists. split.
  - apply (list_route_quiet
             (fun d => sort_by (descending pr_created_at)
                         (filter (fun p => Nat.eqb (pr_user_id p) uid)
                                 (projects d)))).
    exact Hf.
  - eexists. split; [reflexivity |].
    rewrite Hdb. apply sort_by_In, filter_In.
    split; [assumption | now apply Nat.eqb_eq].
Qed.

Lemma sqlite_tasks_get_later uid w w2 t :
  later w w2 ->
  In t (tasks (db w)) -> tr_user_id t = uid ->
  exists r2, handle (GetTasks (Some uid)) w2 = (Ok r2, after_db_op w2) /\
             returns_item task_toJSON t r2.
Proof.
  intros [Hdb Hf] Hin Hu. unfold handle. cbn [try_block catch_block].
  eexists. split.
  - apply (list_route_quiet
             (fun d => sort_by (descending tr_created_at)
                         (filter (fun t => Nat.eqb (tr_user_id t) uid)
                                 (tasks d)))).
    exact Hf.
  - eexists. split; [reflexivity |].
    rewrite Hdb. apply sort_by_In, filter_In.
    split; [assumption | now apply Nat.eqb_eq].
Qed.

(** *** Each kind of row *)

Lemma existsb_false_find {A} (f g : A -> bool) (l : list A) :
  existsb f l = false -> find (fun a => f a && g a) l = None.
Proof.
  intros He. apply find_none_iff. intros a Ha.
  destruct (f a) eqn:Ef; [| reflexivity].
  assert (existsb f l = true) by (apply existsb_exists; eauto).
  congruence.
Qed.

Lemma sqlite_signup_fetched : signup_is_fetched.
Proof.
  intros b w w' r Hrun Hs.
  destruct (sqlite_signup_inv b w r w' Hrun Hs)
    as (name & email & password & u & Hn & He & Hp & Hfresh
        & Hun & Hue & Hup & Husers & Hr).
  exists name, email, password, u.
  repeat (split; [assumption |]).
  split; [rewrite Husers; apply in_or_app; right; now left |].
  repeat (split; [assumption |]).
  intros w2 [Hdb Hf].
  rewrite (login_quiet email password w2 Hf), Hdb, Husers.
  rewrite (find_app_last _ _ u).
  - now rewrite Hun, Hue.
  - now apply existsb_false_find.
  - rewrite Hue, Hup, !String.eqb_refl. reflexivity.
Qed.

Lemma sqlite_conversation_fetched : conversation_is_fetched.
Proof.
  intros userId title w w' r Hrun Hs.
  destruct (sqlite_conversations_post_inv userId title w r w' Hrun Hs)
    as (c & Hu & Hc & Hr).
  assert (Hin : In c (conversations (db w')))
    by (rewrite Hc; apply in_or_app; right; now left).
  exists c. repeat (split; [assumption |]).
  intros w2 Hl. rewrite <- Hu.
  now apply (sqlite_conversations_get_later (cr_user_id c) w').
Qed.

Lemma message_fetched : message_is_fetched.
Proof.
  intros b w w' r Hrun Hs.
  destruct (messages_post_inv b w r w' Hrun Hs)
    as (m & Hu & Hc & Hr & Ht & Hm).
  assert (Hin : In m (chat_messages (db w')))
    by (rewrite Hm; apply in_or_app; right; now left).
  exists m. repeat (split; [assumption |]).
  intros w2 Hl. rewrite <- Hu, <- Hc.
  now apply (sqlite_messages_get_later (mr_user_id m) (mr_conversation_id m) w').
Qed.

Lemma sqlite_project_fetched : project_is_fetched.
Proof.
  intros b w w' r Hrun Hs.
  destruct (sqlite_projects_post_inv b w r w' Hrun Hs) as (p & Hu & Hn & Hp).
  assert (Hin : In p (projects (db w')))
    by (rewrite Hp; apply in_or_app; right; now left).
  exists p. repeat (split; [assumption |]).
  intros w2 Hl. rewrite <- Hu.
  now apply (sqlite_projects_get_later (pr_user_id p) w').
Qed.

Lemma sqlite_task_fetched : task_is_fetched.
Proof.
  intros userId title w w' r Hrun Hs.
  destruct (sqlite_tasks_post_inv userId title w r w' Hrun Hs) as (t & Hu & Hn & Ht).
  assert (Hin : In t (tasks (db w')))
    by (rewrite Ht; apply in_or_app; right; now left).
  exists t. repeat (split; [assumption |]).
  intros w2 Hl. rewrite <- Hu.
  now apply (sqlite_tasks_get_later (tr_user_id t) w').
Qed.

(** *** No route hides a failure of the database *)

Ltac track :=
  repeat first
    [ apply tracked_ret
    | apply tracked_throw
    | apply tracked_await_db
    | apply tracked_get_db
    | apply tracked_put_db
    | apply tracked_Date_now
    | apply tracked_random_below
    | apply tracked_bind; [| intros ?]
    | match goal with
      | |- tracked (match ?x with _ => _ end) => destruct x
      end ].


(** *** Well-formed creation requests are answered 200 *)

Ltac quiet_cases Hq :=
  unfold quiet in Hq; cbn [faults firstn existsb] in Hq;
  repeat match goal with
         | |- context [match ?fs with [] => _ | _ => _ end] =>
             destruct fs as [| [] ?]; cbn [firstn existsb orb] in Hq;
             try discriminate Hq; cbn
         end.

Ltac run_all :=
  unfold exec, bind, await_db, get_db, put_db, ret, throw, Date_now,
         random_below, set_db, set_faults;
  cbn [db faults clock ticks random draws].

Lemma sqlite_signup_success : signup_succeeds.
Proof.
  intros b name email password w Hn He Hp Hfree Hq.
  assert (Hex : existsb (fun u => ur_email u =? email) (users (db w)) = false).
  { destruct (existsb _ (users (db w))) eqn:E; [| reflexivity].
    apply existsb_exists in E as (u & Hu & E). apply String.eqb_eq in E.
    now destruct (Hfree u Hu). }
  unfold handle, try_catch. cbn [try_block]. unfold signup_try.
  rewrite Hn, He, Hp. unfold insert_user.
  destruct w as [d fs ck tk rn dr]. cbn [db] in Hex. run_all.
  quiet_cases Hq; rewrite Hex; eexists _, _; split; reflexivity.
Qed.

Lemma sqlite_conversation_success : conversation_succeeds.
Proof.
  intros userId uid title w Hu Hex Hq.
  unfold handle, try_catch. cbn [try_block]. unfold conversations_post_try.
  rewrite Hu. unfold insert_conversation.
  destruct w as [d fs ck tk rn dr]. cbn [db] in Hex. run_all.
  quiet_cases Hq; rewrite Hex; eexists _, _; split; reflexivity.
Qed.

Lemma sqlite_project_success : project_succeeds.
Proof.
  intros b uid w Hu Hex Hq.
  unfold handle, try_catch. cbn [try_block]. unfold projects_post_try.
  rewrite Hu. unfold insert_project.
  destruct w as [d fs ck tk rn dr]. cbn [db] in Hex. run_all.
  quiet_cases Hq; rewrite Hex; eexists _, _; split; reflexivity.
Qed.

Lemma sqlite_task_success : task_succeeds.
Proof.
  intros userId uid title w Hu Hex Hq.
  unfold handle, try_catch. cbn [try_block]. unfold tasks_post_try.
  rewrite Hu. unfold insert_task.
  destruct w as [d fs ck tk rn dr]. cbn [db] in Hex. run_all.
  quiet_cases Hq; rewrite Hex; eexists _, _; split; reflexivity.
Qed.

Lemma sqlite_message_success : message_succeeds.
Proof.
  intros b uid cid w Hu Hc Hex Hcx Hq.
  unfold handle, try_catch. cbn [try_block]. unfold messages_post_try.
  rewrite Hu, Hc. unfold insert_message, touch_conversation.
  destruct w as [d fs ck tk rn dr]. cbn [db] in Hex, Hcx. run_all.
  unfold quiet in Hq. cbn [faults] in Hq.
  destruct fs as [| [] [| [] fs]]; cbn in Hq; try discriminate Hq;
    cbn; rewrite Hex, Hcx; cbn; eexists _, _; split; reflexivity.
Qed.


End SqliteFacts.

(** ** Statements about all three revisions of the server *)

Module ServerFacts.
Import RuntimeFacts.

(** *** Login *)

(** When both logins send a password string, their failures look alike.
    In both token-based revisions, when the lookup of the user succeeds,
    a login whose email matches no stored user and a login whose email
    matches a user but whose password [bcrypt.compare] rejects get the
    same answer: 401 with [{ error: "Invalid credentials" }], and nothing
    is written.  The same holds in the SQLite revision, where a login
    fails when no row has that email and when a row has it with another
    password. *)
Theorem login_failures_look_alike :
  (forall (O : Mongo.Oracles) (v : Mongo.revision)
          (w1 w2 : world Mongo.database) (b1 b2 : Mongo.login_body)
          (u : Mongo.User) (p2 : string),
     quiet 1 w1 -> quiet 1 w2 ->
     (forall x, In x (Mongo.users (db w1)) ->
                Mongo.u_email x <> Mongo.lb_email b1) ->
     find (fun x => Mongo.u_email x =? Mongo.lb_email b2)
          (Mongo.users (db w2)) = Some u ->
     Mongo.lb_password b2 = Some p2 ->
     Mongo.bcrypt_compare O p2 (Mongo.u_password u) = false ->
     Mongo.handle O v (Mongo.PostLogin b1) w1
       = (Ok (res_error 401 "Invalid credentials"), after_db_op w1) /\
     Mongo.handle O v (Mongo.PostLogin b2) w2
       = (Ok (res_error 401 "Invalid credentials"), after_db_op w2)) /\
  (forall (w1 w2 : world Sqlite.database) (e1 p1 e2 p2 : string),
     quiet 1 w1 -> quiet 1 w2 ->
     (forall x, In x (Sqlite.users (db w1)) -> Sqlite.ur_email x <> e1) ->
     (exists x, In x (Sqlite.users (db w2)) /\ Sqlite.ur_email x = e2) ->
     (forall x, In x (Sqlite.users (db w2)) ->
                Sqlite.ur_email x = e2 -> Sqlite.ur_password x <> p2) ->
     Sqlite.handle (Sqlite.PostLogin e1 p1) w1
       = (Ok (res_error 401 "Invalid credentials"), after_db_op w1) /\
     Sqlite.handle (Sqlite.PostLogin e2 p2) w2
       = (Ok (res_error 401 "Invalid credentials"), after_db_op w2)).
Proof.
  split.
  - intros O v w1 w2 b1 b2 u p2 Hf1 Hf2 Hno Hyes Hp Hbad. split.
    + apply MongoFacts.login_unknown_email; [assumption |].
      apply find_none_iff. intros x Hx.
      apply String.eqb_neq. now apply Hno.
    + rewrite (MongoFacts.login_known_email O v b2 w2 u Hf2 Hyes).
      now rewrite Hp, Hbad.
  - intros w1 w2 e1 p1 e2 p2 Hf1 Hf2 Hno _ Hbad. split.
    + rewrite (SqliteFacts.login_quiet e1 p1 w1 Hf1).
      replace (find _ (Sqlite.users (db w1))) with (@None Sqlite.user_row);
        [reflexivity |].
      symmetry. apply find_none_iff. intros x Hx.
      apply andb_false_iff. left. apply String.eqb_neq. now apply Hno.
    + rewrite (SqliteFacts.login_quiet e2 p2 w2 Hf2).
      replace (find _ (Sqlite.users (db w2))) with (@None Sqlite.user_row);
        [reflexivity |].
      symmetry. apply find_none_iff. intros x Hx.
      apply andb_false_iff.
      destruct (Sqlite.ur_email x =? e2) eqn:E; [right | now left].
      apply String.eqb_eq in E. apply String.eqb_neq. now apply Hbad.
Qed.

(** An unknown address and a wrong password for Alice, on both kinds of
    server. *)
Lemma login_failures_look_alike_witness :
  (Mongo.handle Sample.answering Mongo.Part001
     (Mongo.PostLogin (Mongo.mkLoginBody "nobody@example.com" (Some "wonderland")))
     (Sample.world_of Sample.mongo_alice)
   = (Ok (res_error 401 "Invalid credentials"), Sample.world_of Sample.mongo_alice) /\
   Mongo.handle Sample.answering Mongo.Part001
     (Mongo.PostLogin (Mongo.mkLoginBody "alice@example.com" (Some "looking-glass")))
     (Sample.world_of Sample.mongo_alice)
   = (Ok (res_error 401 "Invalid credentials"), Sample.world_of Sample.mongo_alice)) /\
  (Sqlite.handle (Sqlite.PostLogin "nobody@example.com" "wonderland")
     (Sample.world_of Sample.sqlite_alice)
   = (Ok (res_error 401 "Invalid credentials"), Sample.world_of Sample.sqlite_alice) /\
   Sqlite.handle (Sqlite.PostLogin "alice@example.com" "looking-glass")
     (Sample.world_of Sample.sqlite_alice)
   = (Ok (res_error 401 "Invalid credentials"), Sample.world_of Sample.sqlite_alice)).
Proof.
  split.
  - apply (proj1 login_failures_look_alike Sample.answering Mongo.Part001
             (Sample.world_of Sample.mongo_alice)
             (Sample.world_of Sample.mongo_alice)
             (Mongo.mkLoginBody "nobody@example.com" (Some "wonderland"))
             (Mongo.mkLoginBody "alice@example.com" (Some "looking-glass"))
             (Mongo.mkUser 1 "Alice" "alice@example.com" "$2a$10$wonderland"
                           "#4a90e2")
             "looking-glass");
      try reflexivity.
    intros x [<- | []]. discriminate.
  - apply (proj2 login_failures_look_alike
             (Sample.world_of Sample.sqlite_alice)
             (Sample.world_of Sample.sqlite_alice));
      try reflexivity.
    + intros x [<- | []]. discriminate.
    + eexists. split; [now left | reflexivity].
    + intros x [<- | []] _. discriminate.
Defined.

(** C7 fails on [src/server.ts] and [part_001] for a login that sends no
    password string.  The route gives [req.body.password] to
    [bcrypt.compare] as it came; [bcryptjs] rejects an argument that is
    not a string, and that happens only after [User.findOne] found a
    user.  So, when the lookup succeeds, the login without a password is
    answered 500 "Login failed" for a registered email and 401 "Invalid
    credentials" for an email that no user has: the two answers tell
    whether the email is registered. *)
Theorem login_without_password_reveals_registration
  (O : Mongo.Oracles) (v : Mongo.revision) (w : world Mongo.database)
  (known unknown : string) (u : Mongo.User) :
  quiet 1 w ->
  find (fun x => Mongo.u_email x =? known) (Mongo.users (db w)) = Some u ->
  (forall x, In x (Mongo.users (db w)) -> Mongo.u_email x <> unknown) ->
  Mongo.handle O v (Mongo.PostLogin (Mongo.mkLoginBody known None)) w
    = (Ok (res_error 500 "Login failed"), after_db_op w) /\
  Mongo.handle O v (Mongo.PostLogin (Mongo.mkLoginBody unknown None)) w
    = (Ok (res_error 401 "Invalid credentials"), after_db_op w) /\
  status (res_error 500 "Login failed")
    <> status (res_error 401 "Invalid credentials").
Proof.
  intros Hq Hyes Hno. split; [| split].
  - now rewrite (MongoFacts.login_known_email O v
                   (Mongo.mkLoginBody known None) w u Hq Hyes).
  - apply MongoFacts.login_unknown_email; [assumption |].
    apply find_none_iff. intros x Hx.
    apply String.eqb_neq. now apply Hno.
  - discriminate.
Qed.

(** A login without a password, for Alice's address and for an address
    that nobody has, on [src/server.ts]. *)
Lemma login_without_password_reveals_registration_witness :
  Mongo.handle Sample.answering Mongo.ServerTs
    (Mongo.PostLogin (Mongo.mkLoginBody "alice@example.com" None))
    (Sample.world_of Sample.mongo_alice)
  = (Ok (res_error 500 "Login failed"), Sample.world_of Sample.mongo_alice) /\
  Mongo.handle Sample.answering Mongo.ServerTs
    (Mongo.PostLogin (Mongo.mkLoginBody "nobody@example.com" None))
    (Sample.world_of Sample.mongo_alice)
  = (Ok (res_error 401 "Invalid credentials"), Sample.world_of Sample.mongo_alice).
Proof.
  assert (Hno : forall x, In x (Mongo.users (db (Sample.world_of Sample.mongo_alice))) ->
                          Mongo.u_email x <> "nobody@example.com").
  { intros x [<- | []]. discriminate. }
  destruct (login_without_password_reveals_registration
              Sample.answering Mongo.ServerTs
              (Sample.world_of Sample.mongo_alice)
              "alice@example.com" "nobody@example.com"
              (Mongo.mkUser 1 "Alice" "alice@example.com" "$2a$10$wonderland"
                            "#4a90e2")
              eq_refl eq_refl Hno)
    as (Hknown & Hunknown & _).
  split; [exact Hknown | exact Hunknown].
Defined.

(** *** Exceptions *)




(** *** Authentication *)

(** C2, as the code has it.  In [src/server.ts] and [part_001]:
    a request to a protected route whose [authorization] header yields
    no token is answered 401, one whose token fails [jwt.verify] is
    answered 403, and in both cases the handler does not run; a signup
    answered 200 stores [bcrypt.hash(password)] as the password of the
    new user; a login that finds the user is decided by [bcrypt.compare]
    of the sent password with the stored hash, which throws when no
    password string was sent.  In the SQLite revision
    ([part_002]) there is no token and no hash: a signup answered 200
    stores the password as it was sent, a login succeeds exactly when a
    row has the sent email and the sent password, and a list route
    answers 200 to whoever names a [userId]. *)
Theorem authentication_by_revision :
  (forall (O : Mongo.Oracles) (v : Mongo.revision) (r : Mongo.api_request)
          (auth : option string) (w : world Mongo.database),
     Mongo.protected r = Some auth ->
     truthy (Mongo.bearer_token auth) = None ->
     Mongo.handle O v r w
       = (Ok (res_error 401 "Access denied. Token missing."), w)) /\
  (forall (O : Mongo.Oracles) (v : Mongo.revision) (r : Mongo.api_request)
          (auth : option string) (token : string) (w : world Mongo.database),
     Mongo.protected r = Some auth ->
     truthy (Mongo.bearer_token auth) = Some token ->
     Mongo.jwt_verify O token = None ->
     Mongo.handle O v r w = (Ok (res_error 403 "Invalid token."), w)) /\
  (forall (O : Mongo.Oracles) (v : Mongo.revision) (b : Mongo.signup_body)
          (w w' : world Mongo.database) (r : response),
     Mongo.handle O v (Mongo.PostSignup b) w = (Ok r, w') ->
     status r = 200 ->
     exists password salt u,
       truthy (Mongo.sb_password b) = Some password /\
       Mongo.users (db w') = (Mongo.users (db w) ++ [u])%list /\
       Mongo.u_password u = Mongo.bcrypt_hash O password salt) /\
  (forall (O : Mongo.Oracles) (v : Mongo.revision) (b : Mongo.login_body)
          (w : world Mongo.database) (u : Mongo.User),
     quiet 1 w ->
     find (fun x => Mongo.u_email x =? Mongo.lb_email b) (Mongo.users (db w))
       = Some u ->
     Mongo.handle O v (Mongo.PostLogin b) w =
     (Ok match Mongo.lb_password b with
         | Some password =>
             if Mongo.bcrypt_compare O password (Mongo.u_password u)
             then Mongo.token_response
                    (Mongo.jwt_sign O (Mongo.mkPayload (Mongo.u_id u) (Mongo.u_email u)))
                    (Mongo.User_public (Mongo.u_id u) (Mongo.u_name u)
                       (Mongo.u_email u) (Mongo.u_avatarColor u))
             else res_error 401 "Invalid credentials"
         | None => res_error 500 "Login failed"
         end,
      after_db_op w)) /\
  (forall (b : Sqlite.signup_body) (w w' : world Sqlite.database) (r : response),
     Sqlite.handle (Sqlite.PostSignup b) w = (Ok r, w') ->
     status r = 200 ->
     exists password u,
       truthy (Sqlite.sb_password b) = Some password /\
       Sqlite.users (db w') = (Sqlite.users (db w) ++ [u])%list /\
       Sqlite.ur_password u = password) /\
  (forall (email password : string) (w : world Sqlite.database),
     quiet 1 w ->
     Sqlite.handle (Sqlite.PostLogin email password) w =
     (Ok match find (fun u => (Sqlite.ur_email u =? email) &&
                              (Sqlite.ur_password u =? password))
                    (Sqlite.users (db w)) with
         | Some u => res_json (Sqlite.user_public (Sqlite.ur_id u)
                                 (Sqlite.ur_name u) (Sqlite.ur_email u)
                                 (Sqlite.ur_avatarColor u))
         | None => res_error 401 "Invalid credentials"
         end,
      after_db_op w)) /\
  (forall (uid : nat) (w : world Sqlite.database),
     quiet 1 w ->
     exists items,
       Sqlite.handle (Sqlite.GetConversations (Some uid)) w
       = (Ok (res_json (JArr items)), after_db_op w)).
Proof.
  split; [| split; [| split; [| split; [| split; [| split]]]]].
  - intros O v r auth w Hp Ht.
    exact (MongoFacts.handle_without_token O v r auth w Hp Ht).
  - intros O v r auth token w Hp Ht Hv.
    exact (MongoFacts.handle_with_bad_token O v r auth token w Hp Ht Hv).
  - intros O v b w w' r Hrun Hs.
    destruct (MongoFacts.signup_inv O v b w r w' Hrun Hs)
      as (name & email & password & salt & u & _ & _ & Hp & _ & _ & _
          & Hup & Husers & _).
    now exists password, salt, u.
  - intros O v b w u Hf Hu. now apply MongoFacts.login_known_email.
  - intros b w w' r Hrun Hs.
    destruct (SqliteFacts.sqlite_signup_inv b w r w' Hrun Hs)
      as (name & email & password & u & _ & _ & Hp & _ & _ & _
          & Hup & Husers & _).
    now exists password, u.
  - intros email password w Hf. now apply SqliteFacts.login_quiet.
  - intros uid w Hf. eexists. unfold Sqlite.handle.
    cbn [Sqlite.try_block Sqlite.catch_block].
    apply (list_route_quiet
             (fun d => sort_by (descending Sqlite.cr_updated_at)
                         (filter (fun c => Nat.eqb (Sqlite.cr_user_id c) uid)
                                 (Sqlite.conversations d)))).
    exact Hf.
Qed.

(** A request without a token and one with a token that does not
    verify, on the token-based server. *)
Lemma authentication_by_revision_witness :
  Mongo.handle Sample.answering Mongo.ServerTs
    (Mongo.GetTasks (Some "Bearer")) (Sample.world_of Sample.mongo_alice)
  = (Ok (res_error 401 "Access denied. Token missing."),
     Sample.world_of Sample.mongo_alice) /\
  Mongo.handle Sample.answering Mongo.ServerTs
    (Mongo.GetTasks (Some "Bearer forged")) (Sample.world_of Sample.mongo_alice)
  = (Ok (res_error 403 "Invalid token."), Sample.world_of Sample.mongo_alice).
Proof.
  split.
  - exact (proj1 authentication_by_revision Sample.answering Mongo.ServerTs
             (Mongo.GetTasks (Some "Bearer")) (Some "Bearer")
             (Sample.world_of Sample.mongo_alice) eq_refl eq_refl).
  - exact (proj1 (proj2 authentication_by_revision) Sample.answering
             Mongo.ServerTs (Mongo.GetTasks (Some "Bearer forged"))
             (Some "Bearer forged") "forged"
             (Sample.world_of Sample.mongo_alice) eq_refl eq_refl eq_refl).
Defined.

(** C2, as stated, fails on the SQLite revision: Bob signs up with the
    password ["builder"] and the row that is stored holds ["builder"];
    Alice's tasks are listed for a request that carries no token. *)
Lemma sqlite_stores_the_password_itself :
  Sqlite.users
    (db (snd (Sqlite.handle
                (Sqlite.PostSignup
                   (Sqlite.mkSignupBody (Some "Bob") (Some "bob@example.com")
                                        (Some "builder")))
                (Sample.world_of Sample.sqlite_alice))))
  = [Sqlite.mkUserRow 1 "Alice" "alice@example.com" "wonderland" "#4a90e2";
     Sqlite.mkUserRow 2 "Bob" "bob@example.com" "builder" "#4a90e2"] /\
  fst (Sqlite.handle (Sqlite.GetTasks (Some 1))
         (Sample.world_of Sample.sqlite_alice))
  = Ok (res_json (JArr [])) /\
  ~ Sqlite.passwords_are_stored_hashed.
Proof.
  split; [reflexivity |]. split; [reflexivity |].
  intros Hall.
  apply (Hall "Bob" "bob@example.com" "builder"
              (Sample.world_of Sample.sqlite_alice) _ _ eq_refl eq_refl
              (Sqlite.mkUserRow 2 "Bob" "bob@example.com" "builder" "#4a90e2")).
  - simpl. tauto.
  - reflexivity.
  - reflexivity.
Qed.

(** *** Persistence *)

(** C5.  All five kinds of record are persisted, in the three
    revisions.  For each creation request (signup,
    [POST /api/conversations], [POST /api/chat] with its two messages,
    [POST /api/projects], [POST /api/tasks]; [POST /api/messages] in the
    SQLite revision, which has no chat route) two things hold.  The
    request succeeds: when it carries what the route and the schema ask
    for (in the SQLite revision the rows it names exist, as the foreign
    keys demand), the database operations it makes succeed, and for a
    chat the model returns a reply, the answer is 200.  And whenever the
    request is answered 200, the record is in its collection, and in any
    later world with the same database, if the query of the fetch
    succeeds, the fetch of the same user (login for a user, the list
    route for the rest) answers 200 with it.  The login after a signup
    relies on [bcrypt.compare] accepting a password against its own
    [bcrypt.hash]. *)
Theorem creations_are_persisted (O : Mongo.Oracles) :
  (forall password salt,
     Mongo.bcrypt_compare O password (Mongo.bcrypt_hash O password salt) = true) ->
  (forall v : Mongo.revision,
     (Mongo.signup_succeeds O v /\ Mongo.signup_is_fetched O v) /\
     (Mongo.conversation_succeeds O v /\ Mongo.conversation_is_fetched O v) /\
     (Mongo.chat_succeeds O v /\ Mongo.messages_are_fetched O v) /\
     (Mongo.project_succeeds O v /\ Mongo.project_is_fetched O v) /\
     (Mongo.task_succeeds O v /\ Mongo.task_is_fetched O v)) /\
  ((Sqlite.signup_succeeds /\ Sqlite.signup_is_fetched) /\
   (Sqlite.conversation_succeeds /\ Sqlite.conversation_is_fetched) /\
   (Sqlite.message_succeeds /\ Sqlite.message_is_fetched) /\
   (Sqlite.project_succeeds /\ Sqlite.project_is_fetched) /\
   (Sqlite.task_succeeds /\ Sqlite.task_is_fetched)).
Proof.
  intros Hlaw. split.
  - intros v. repeat apply conj.
    + apply MongoFacts.signup_success.
    + now apply MongoFacts.signup_fetched.
    + apply MongoFacts.conversation_success.
    + apply MongoFacts.conversation_fetched.
    + apply MongoFacts.chat_success.
    + apply MongoFacts.messages_fetched.
    + apply MongoFacts.project_success.
    + apply MongoFacts.project_fetched.
    + apply MongoFacts.task_success.
    + apply MongoFacts.task_fetched.
  - repeat apply conj.
    + apply SqliteFacts.sqlite_signup_success.
    + apply SqliteFacts.sqlite_signup_fetched.
    + apply SqliteFacts.sqlite_conversation_success.
    + apply SqliteFacts.sqlite_conversation_fetched.
    + apply SqliteFacts.sqlite_message_success.
    + apply SqliteFacts.message_fetched.
    + apply SqliteFacts.sqlite_project_success.
    + apply SqliteFacts.sqlite_project_fetched.
    + apply SqliteFacts.sqlite_task_success.
    + apply SqliteFacts.sqlite_task_fetched.
Qed.

(** With the sample libraries, from the theorem alone: Alice's chat on
    [part_001] is answered 200 and leaves two messages that her next
    [GET /api/messages] returns; her task on [src/server.ts] is answered
    200 and her next [GET /api/tasks] returns it; on the SQLite server a
    message of hers in her conversation is answered 200 and the next
    [GET /api/messages] returns it. *)
Lemma creations_are_persisted_witness :
  (exists r w' um am r2,
     Mongo.handle Sample.answering Mongo.Part001
       (Mongo.PostChat Sample.alice_header Sample.hello)
       (Sample.world_of Sample.mongo_alice) = (Ok r, w') /\
     status r = 200 /\
     In um (Mongo.messages (db w')) /\ In am (Mongo.messages (db w')) /\
     Mongo.m_role um = Mongo.RoleUser /\ Mongo.m_role am = Mongo.RoleAi /\
     Mongo.handle Sample.answering Mongo.Part001
       (Mongo.GetMessages Sample.alice_header (Some 10)) (set_faults [] w')
     = (Ok r2, after_db_op (set_faults [] w')) /\
     returns_item Mongo.Message_toJSON um r2 /\
     returns_item Mongo.Message_toJSON am r2) /\
  (exists r w' t r2,
     Mongo.handle Sample.answering Mongo.ServerTs
       (Mongo.PostTasks Sample.alice_header (Some "Paint the roses"))
       (Sample.world_of Sample.mongo_shared) = (Ok r, w') /\
     status r = 200 /\
     In t (Mongo.tasks (db w')) /\ Mongo.t_title t = "Paint the roses" /\
     Mongo.handle Sample.answering Mongo.ServerTs
       (Mongo.GetTasks Sample.alice_header) (set_faults [] w')
     = (Ok r2, after_db_op (set_faults [] w')) /\
     returns_item Mongo.Task_toJSON t r2) /\
  (exists r w' m r2,
     Sqlite.handle
       (Sqlite.PostMessages
          (Sqlite.mkMessageBody (Some 1) (Some 1) (Some "user") (Some "Tea?")))
       (Sample.world_of Sample.sqlite_shared) = (Ok r, w') /\
     status r = 200 /\
     In m (Sqlite.chat_messages (db w')) /\ Sqlite.mr_text m = Some "Tea?" /\
     Sqlite.handle (Sqlite.GetMessages (Some 1) (Some 1)) (set_faults [] w')
     = (Ok r2, after_db_op (set_faults [] w')) /\
     returns_item Sqlite.message_toJSON m r2).
Proof.
  pose proof (creations_are_persisted Sample.answering
                (fun password salt => String.eqb_refl _)) as [Hm Hs].
  assert (Hreply : "Hello, human." <> "") by discriminate.
  split; [| split].
  - destruct (Hm Mongo.Part001) as (_ & _ & (Hgo & Hkept) & _).
    destruct (Hgo Sample.alice_header Sample.alice Sample.hello "Hello" 10 []
                  "Hello, human." (Sample.world_of Sample.mongo_alice)
                  eq_refl eq_refl eq_refl eq_refl eq_refl Hreply eq_refl)
      as (r & w' & Hrun & Hok).
    destruct (Hkept Sample.alice_header Sample.alice Sample.hello _ w' r
                    eq_refl Hrun Hok)
      as (um & am & Hum & Ham & Hru & _ & Hra & _ & Hrest).
    destruct (Hrest (set_faults [] w') (conj eq_refl eq_refl))
      as (r2 & Hget & Hu2 & Ha2).
    exists r, w', um, am, r2.
    repeat (split; [assumption |]). assumption.
  - destruct (Hm Mongo.ServerTs) as (_ & _ & _ & _ & (Hgo & Hkept)).
    destruct (Hgo Sample.alice_header Sample.alice (Some "Paint the roses")
                  "Paint the roses" (Sample.world_of Sample.mongo_shared)
                  eq_refl eq_refl eq_refl)
      as (r & w' & Hrun & Hok).
    destruct (Hkept Sample.alice_header Sample.alice (Some "Paint the roses")
                    _ w' r eq_refl Hrun Hok)
      as (t & Hin & _ & Ht & _ & Hrest).
    destruct (Hrest (set_faults [] w') (conj eq_refl eq_refl))
      as (r2 & Hget & Ht2).
    exists r, w', t, r2. injection Ht as Ht.
    repeat (split; [assumption |]). assumption.
  - destruct Hs as (_ & _ & (Hgo & Hkept) & _).
    destruct (Hgo (Sqlite.mkMessageBody (Some 1) (Some 1) (Some "user")
                     (Some "Tea?"))
                  1 1 (Sample.world_of Sample.sqlite_shared)
                  eq_refl eq_refl eq_refl eq_refl eq_refl)
      as (r & w' & Hrun & Hok).
    destruct (Hkept _ _ w' r Hrun Hok)
      as (m & Hin & _ & _ & _ & Ht & Hrest).
    destruct (Hrest (set_faults [] w') (conj eq_refl eq_refl))
      as (r2 & Hget & Hm2).
    exists r, w', m, r2.
    repeat (split; [assumption |]). assumption.
Defined.

(** *** Runs on the sample data *)

(** Bob signs up on the token-based server and logs in again. *)
Example mongo_signup_then_login :
  let signup :=
    Mongo.handle Sample.answering Mongo.ServerTs
      (Mongo.PostSignup
         (Mongo.mkSignupBody (Some "Bob") (Some "bob@example.com") (Some "builder")))
      (Sample.world_of Sample.mongo_alice) in
  Mongo.users (db (snd signup))
  = [Mongo.mkUser 1 "Alice" "alice@example.com" "$2a$10$wonderland" "#4a90e2";
     Mongo.mkUser 11 "Bob" "bob@example.com" "$2a$10$builder" "#e24a4a"] /\
  fst (Mongo.handle Sample.answering Mongo.ServerTs
         (Mongo.PostLogin (Mongo.mkLoginBody "bob@example.com" (Some "builder")))
         (snd signup))
  = Ok (Mongo.token_response "token-of-bob@example.com"
          (Mongo.User_public 11 "Bob" "bob@example.com" "#e24a4a")).
Proof. split; reflexivity. Qed.

(** The same on the SQLite server. *)
Example sqlite_signup_then_login :
  let signup :=
    Sqlite.handle
      (Sqlite.PostSignup
         (Sqlite.mkSignupBody (Some "Bob") (Some "bob@example.com") (Some "builder")))
      (Sample.world_of Sample.sqlite_alice) in
  fst signup
  = Ok (res_json (Sqlite.user_public 2 "Bob" "bob@example.com" "#4a90e2")) /\
  fst (Sqlite.handle (Sqlite.PostLogin "bob@example.com" "builder") (snd signup))
  = Ok (res_json (Sqlite.user_public 2 "Bob" "bob@example.com" "#4a90e2")).
Proof. split; reflexivity. Qed.

(** Alice adds a task next to Bob's; her list shows hers only, newest
    first. *)
Example mongo_task_then_list :
  let post :=
    Mongo.handle Sample.answering Mongo.Part001
      (Mongo.PostTasks Sample.alice_header (Some "Paint the roses"))
      (Sample.world_of Sample.mongo_shared) in
  fst (Mongo.handle Sample.answering Mongo.Part001
         (Mongo.GetTasks Sample.alice_header) (snd post))
  = Ok (res_json
          (JArr [Mongo.Task_toJSON
                   (Mongo.mkTask 30 1 "Paint the roses" false 1000%Z);
                 Mongo.Task_toJSON
                   (Mongo.mkTask 13 1 "Follow the rabbit" false 903%Z)])).
Proof. reflexivity. Qed.

(** A database that fails on the first operation: the list route
    answers with the message of its catch block. *)
Example mongo_list_with_database_down :
  fst (Mongo.handle Sample.answering Mongo.ServerTs
         (Mongo.GetProjects Sample.alice_header)
         (mkWorld Sample.mongo_shared [true] (fun _ => 0%Z) 0 (fun _ => 0) 0))
  = Ok (res_error 500 "Failed to fetch projects").
Proof. reflexivity. Qed.

(** Alice opens a conversation and a project on the token-based server
    and finds both in her lists. *)
Example mongo_conversation_and_project_then_lists :
  let w1 :=
    snd (Mongo.handle Sample.answering Mongo.ServerTs
           (Mongo.PostConversations Sample.alice_header None)
           (Sample.world_of Sample.mongo_empty)) in
  let w2 :=
    snd (Mongo.handle Sample.answering Mongo.ServerTs
           (Mongo.PostProjects Sample.alice_header
              (Mongo.mkProjectBody (Some "Croquet") None (Some "flamingos")))
           w1) in
  fst (Mongo.handle Sample.answering Mongo.ServerTs
         (Mongo.GetConversations Sample.alice_header) w2)
  = Ok (res_json
          (JArr [JObj [("id", JNum 1); ("title", JStr "New Chat");
                       ("updated_at", JNum 1000)]])) /\
  fst (Mongo.handle Sample.answering Mongo.ServerTs
         (Mongo.GetProjects Sample.alice_header) w2)
  = Ok (res_json
          (JArr [JObj [("_id", JNum 2); ("userId", JNum 1);
                       ("name", JStr "Croquet"); ("content", JStr "flamingos");
                       ("createdAt", JNum 1001); ("__v", JNum 0)]])).
Proof. split; reflexivity. Qed.

(** The same user on the SQLite server: a conversation, a message in
    it, a project and a task, each found by its list route. *)
Example sqlite_creations_then_lists :
  let w1 :=
    snd (Sqlite.handle (Sqlite.PostConversations (Some 1) (Some "Tea"))
           (Sample.world_of Sample.sqlite_alice)) in
  let w2 :=
    snd (Sqlite.handle
           (Sqlite.PostMessages
              (Sqlite.mkMessageBody (Some 1) (Some 1) (Some "user") (Some "Hi")))
           w1) in
  let w3 :=
    snd (Sqlite.handle
           (Sqlite.PostProjects
              (Sqlite.mkProjectBody (Some 1) (Some "Croquet") None None))
           w2) in
  let w4 := snd (Sqlite.handle (Sqlite.PostTasks (Some 1) (Some "Paint")) w3) in
  fst (Sqlite.handle (Sqlite.GetConversations (Some 1)) w4)
  = Ok (res_json
          (JArr [Sqlite.conversation_toJSON
                   (Sqlite.mkConversationRow 1 1 "Tea" 1002%Z)])) /\
  fst (Sqlite.handle (Sqlite.GetMessages (Some 1) (Some 1)) w4)
  = Ok (res_json
          (JArr [Sqlite.message_toJSON
                   (Sqlite.mkChatMessageRow 1 1 1 (Some "user") (Some "Hi")
                      1001%Z)])) /\
  fst (Sqlite.handle (Sqlite.GetProjects (Some 1)) w4)
  = Ok (res_json
          (JArr [Sqlite.project_toJSON
                   (Sqlite.mkProjectRow 1 1 (Some "Croquet") None None 1003%Z)])) /\
  fst (Sqlite.handle (Sqlite.GetTasks (Some 1)) w4)
  = Ok (res_json
          (JArr [Sqlite.task_toJSON
                   (Sqlite.mkTaskRow 1 1 (Some "Paint") 0%Z 1004%Z)])).
Proof. repeat split; reflexivity. Qed.

(** The foreign keys of the SQLite schema at work.  A task for a user
    that no row of [users] has is refused by the insert, and the catch
    block answers 500; so is a message in a conversation that does not
    exist.  Deleting Alice's conversation 1 removes her message in it
    first, and then the conversation. *)
Example sqlite_foreign_keys :
  fst (Sqlite.handle (Sqlite.PostTasks (Some 7) (Some "Paint"))
         (Sample.world_of Sample.sqlite_alice))
  = Ok (res_error 500 "Failed to create task") /\
  fst (Sqlite.handle
         (Sqlite.PostMessages
            (Sqlite.mkMessageBody (Some 1) (Some 9) (Some "user") (Some "Hi")))
         (Sample.world_of Sample.sqlite_alice))
  = Ok (res_error 500 "Failed to save message") /\
  fst (Sqlite.handle (Sqlite.DeleteConversation 1 (Some 1))
         (Sample.world_of Sample.sqlite_shared))
  = Ok (res_json success_body).
Proof. repeat split; reflexivity. Qed.

End ServerFacts.
(** ** What a computation keeps *)

Module FrameFacts.

Section Keeps.

Context {W : Type} (R : W -> W -> Prop).
Hypothesis R_refl : forall w, R w w.
Hypothesis R_trans : forall w1 w2 w3, R w1 w2 -> R w2 w3 -> R w1 w3.

Lemma keeps_ret {A} (a : A) : keeps R (ret a).
Proof. intros w. apply R_refl. Qed.

Lemma keeps_throw {A} (e : error) : keeps R (@throw W A e).
Proof. intros w. apply R_refl. Qed.

Lemma keeps_lift_outcome {A} (o : outcome A) : keeps R (lift_outcome o).
Proof. destruct o; [apply keeps_ret | apply keeps_throw]. Qed.

Lemma keeps_bind {A B} (m : M W A) (k : A -> M W B) :
  keeps R m -> (forall a, keeps R (k a)) -> keeps R (bind m k).
Proof.
  intros Hm Hk w. unfold bind. specialize (Hm w).
  destruct (m w) as [[a | e] w1]; cbn [snd] in *; [| exact Hm].
  apply (R_trans _ w1); [exact Hm | apply Hk].
Qed.

Lemma keeps_try_catch {A} (m : M W A) (h : error -> M W A) :
  keeps R m -> (forall e, keeps R (h e)) -> keeps R (try_catch m h).
Proof.
  intros Hm Hh w. unfold try_catch. specialize (Hm w).
  destruct (m w) as [[a | e] w1]; cbn [snd] in *; [exact Hm |].
  apply (R_trans _ w1); [exact Hm | apply Hh].
Qed.

End Keeps.

End FrameFacts.

(** ** Lists under the query helpers *)

Module ListFacts.

(** Nothing that was deleted is selected afterwards. *)
Lemma filter_deleted {A} (f g : A -> bool) (l : list A) :
  (forall a, g a = true -> f a = true) ->
  filter g (filter (fun a => negb (f a)) l) = [].
Proof.
  intros Hfg. induction l as [| a t IH]; cbn; [reflexivity |].
  destruct (f a) eqn:Ef; cbn; [exact IH |].
  destruct (g a) eqn:Eg; [| exact IH].
  rewrite (Hfg a Eg) in Ef. discriminate Ef.
Qed.

(** What the deletion did not match is selected as before. *)
Lemma filter_not_deleted {A} (f g : A -> bool) (l : list A) :
  (forall a, g a = true -> f a = false) ->
  filter g (filter (fun a => negb (f a)) l) = filter g l.
Proof.
  intros Hfg. induction l as [| a t IH]; cbn; [reflexivity |].
  destruct (f a) eqn:Ef; cbn.
  - destruct (g a) eqn:Eg; [| exact IH].
    rewrite (Hfg a Eg) in Ef. discriminate Ef.
  - now rewrite IH.
Qed.

Lemma Forall_filter_keeps {A} (P : A -> Prop) (f : A -> bool) (l : list A) :
  Forall P l -> Forall P (filter f l).
Proof.
  rewrite !Forall_forall. intros H a Ha. apply H.
  now apply filter_In in Ha as [Ha _].
Qed.

Lemma NoDup_snoc {A} (l : list A) (a : A) :
  NoDup l -> ~ In a l -> NoDup (l ++ [a]).
Proof.
  intros Hl Ha. apply NoDup_app. repeat split.
  - exact Hl.
  - constructor; [intros [] | constructor].
  - intros x Hx [<- | []]. now apply Ha.
Qed.

(** [remove_first] when the key that [f] tests is unique. *)
Lemma remove_first_In {A} (key : A -> nat) (k : nat) (f : A -> bool)
  (l : list A) (a : A) :
  NoDup (map key l) ->
  (forall x, f x = true -> key x = k) ->
  In a (remove_first f l) -> In a l /\ f a = false.
Proof.
  intros Hnd Hk. induction l as [| x t IH]; cbn; [intros [] |].
  inversion Hnd as [| ? ? Hx Ht]; subst.
  destruct (f x) eqn:Ex.
  - intros Ha. split; [now right |].
    destruct (f a) eqn:Ea; [| reflexivity].
    exfalso. apply Hx. apply in_map_iff. exists a. split; [| exact Ha].
    rewrite (Hk a Ea). symmetry. now apply Hk.
  - intros [<- | Ha]; [split; [now left | exact Ex] |].
    destruct (IH Ht Ha) as [Hin Hf]. split; [now right | exact Hf].
Qed.

Lemma update_first_other {A} (f : A -> bool) (g : A -> A) (l : list A) (a : A) :
  In a l -> f a = false -> In a (update_first f g l).
Proof.
  intros Ha Hf. induction l as [| x t IH]; cbn; [destruct Ha |].
  destruct (f x) eqn:Ex.
  - destruct Ha as [-> | Ha]; [congruence | now right].
  - destruct Ha as [-> | Ha]; [now left | right; now apply IH].
Qed.

Lemma update_first_none {A} (f : A -> bool) (g : A -> A) (l : list A) :
  (forall a, In a l -> f a = false) -> update_first f g l = l.
Proof.
  induction l as [| x t IH]; cbn; intros H; [reflexivity |].
  rewrite (H x) by now left. f_equal. apply IH. intros a Ha. apply H. now right.
Qed.

Lemma update_first_map {A B} (f : A -> bool) (g : A -> A) (h : A -> B)
  (l : list A) :
  (forall a, h (g a) = h a) -> map h (update_first f g l) = map h l.
Proof.
  intros Hg. induction l as [| x t IH]; cbn; [reflexivity |].
  destruct (f x); cbn; [now rewrite Hg | now rewrite IH].
Qed.

Lemma update_first_hit {A} (key : A -> nat) (f : A -> bool) (g : A -> A)
  (l : list A) (a : A) :
  NoDup (map key l) ->
  (forall x y, f x = true -> f y = true -> key x = key y) ->
  In a l -> f a = true -> In (g a) (update_first f g l).
Proof.
  intros Hnd Hk Ha Hf. induction l as [| x t IH]; cbn; [destruct Ha |].
  inversion Hnd as [| ? ? Hx Ht]; subst.
  destruct (f x) eqn:Ex.
  - destruct Ha as [-> | Ha]; [now left |].
    exfalso. apply Hx. apply in_map_iff. exists a. split; [| exact Ha].
    now apply Hk.
  - destruct Ha as [-> | Ha]; [congruence | right; now apply IH].
Qed.

Lemma Forall_update_first {A} (P : A -> Prop) (f : A -> bool) (g : A -> A)
  (l : list A) :
  (forall a, P a -> P (g a)) -> Forall P l -> Forall P (update_first f g l).
Proof.
  intros Hg. induction 1 as [| a t Ha Ht IH]; cbn; [constructor |].
  destruct (f a); constructor; auto.
Qed.

Lemma quiet_after {D} n (d : D) (w : world D) :
  quiet (S n) w -> quiet n (set_db d (after_db_op w)).
Proof.
  intros Hq. apply (RuntimeFacts.quiet_tail n w); [exact Hq | reflexivity].
Qed.

End ListFacts.

(** ** The bearer token, from [apiFetch] to [authenticateToken] *)

Module TokenFacts.
Import Mongo RuntimeFacts.

(** *** [split] *)

Lemma split_without_sep sep s :
  ~ In sep (list_ascii_of_string s) -> split sep s = [s].
Proof.
  induction s as [| c rest IH]; cbn; intros Hn; [reflexivity |].
  destruct (Ascii.eqb c sep) eqn:E.
  - apply Ascii.eqb_eq in E. exfalso. apply Hn. now left.
  - rewrite IH; [reflexivity |]. intros Hin. apply Hn. now right.
Qed.

Lemma split_at_first_sep sep a b :
  ~ In sep (list_ascii_of_string a) ->
  split sep (a ++ String sep b) = a :: split sep b.
Proof.
  induction a as [| c rest IH]; cbn; intros Hn.
  - now rewrite Ascii.eqb_refl.
  - destruct (Ascii.eqb c sep) eqn:E.
    + apply Ascii.eqb_eq in E. exfalso. apply Hn. now left.
    + rewrite IH; [reflexivity |]. intros Hin. apply Hn. now right.
Qed.

Lemma append_sep_not_empty a sep b : (a ++ String sep b =? "") = false.
Proof. now destruct a. Qed.

Lemma append_empty s : s ++ "" = s.
Proof. induction s as [| c s IH]; cbn; congruence. Qed.

(** The second word of a header. *)
Lemma bearer_token_second_word scheme token tail :
  ~ In " "%char (list_ascii_of_string scheme) ->
  ~ In " "%char (list_ascii_of_string token) ->
  tail = "" \/ (exists t, tail = String " " t) ->
  bearer_token (Some (scheme ++ " " ++ token ++ tail)) = Some token.
Proof.
  intros Hs Ht Htail. unfold bearer_token.
  change (scheme ++ " " ++ token ++ tail)
    with (scheme ++ String " " (token ++ tail)).
  rewrite append_sep_not_empty, split_at_first_sep by exact Hs.
  cbn [nth_error].
  destruct Htail as [-> | (t & ->)].
  - now rewrite append_empty, split_without_sep.
  - now rewrite split_at_first_sep.
Qed.

Lemma Bearer_is_a_word : ~ In " "%char (list_ascii_of_string "Bearer").
Proof. cbn. intros [E | [E | [E | [E | [E | [E | []]]]]]]; discriminate E. Qed.

Lemma bearer_token_of_Bearer token :
  ~ In " "%char (list_ascii_of_string token) ->
  bearer_token (Some ("Bearer " ++ token)) = Some token.
Proof.
  intros Ht.
  replace ("Bearer " ++ token) with ("Bearer" ++ " " ++ token ++ "")
    by (cbn; now rewrite append_empty).
  apply bearer_token_second_word;
    [exact Bearer_is_a_word | exact Ht | now left].
Qed.

Section Tokens.

Variable O : Oracles.

(** X1.  The header that [apiFetch] builds is read back by
    [authenticateToken] as the token it was built from: for a token
    without a space, the middleware answers what [jwt.verify] says of
    exactly that token (403 when it refuses it, [req.user] set to its
    claims otherwise); when the client holds no token, or an empty one,
    no header is sent and the answer is 401. *)
Theorem client_token_reaches_verify (token : option string) :
  (forall t, token = Some t -> ~ In " "%char (list_ascii_of_string t)) ->
  authenticateToken O (App.authorization token) =
  match truthy token with
  | None => inl (res_error 401 "Access denied. Token missing.")
  | Some t =>
      match jwt_verify O t with
      | Some user => inr user
      | None => inl (res_error 403 "Invalid token.")
      end
  end.
Proof.
  intros Hsp. unfold App.authorization.
  destruct (truthy token) as [t |] eqn:Ht; [| reflexivity].
  apply truthy_Some in Ht as [-> Hne].
  unfold authenticateToken.
  rewrite bearer_token_of_Bearer by now apply Hsp.
  cbn [truthy]. now rewrite Hne.
Qed.

(** X2.  [authenticateToken] looks at the second space-separated word
    of the header and at nothing else: whatever the scheme word is
    (["Bearer"] or not, even empty) and whatever follows a second space,
    the header is treated as ["Bearer <token>"]; a header that is one
    word only, such as a bare token, is answered 401. *)
Theorem authenticateToken_reads_the_second_word (scheme token tail : string) :
  ~ In " "%char (list_ascii_of_string scheme) ->
  ~ In " "%char (list_ascii_of_string token) ->
  tail = "" \/ (exists t, tail = String " " t) ->
  authenticateToken O (Some (scheme ++ " " ++ token ++ tail))
  = authenticateToken O (Some ("Bearer " ++ token)) /\
  authenticateToken O (Some scheme)
  = inl (res_error 401 "Access denied. Token missing.").
Proof.
  intros Hs Ht Htail. split.
  - unfold authenticateToken.
    rewrite (bearer_token_second_word scheme token tail Hs Ht Htail).
    now rewrite bearer_token_of_Bearer.
  - unfold authenticateToken, bearer_token.
    destruct (scheme =? "") eqn:E; [reflexivity |].
    now rewrite split_without_sep.
Qed.

(** *** The token of signup and login *)

Hypothesis verify_sign : forall p, jwt_verify O (jwt_sign O p) = Some p.
Hypothesis sign_word :
  forall p, jwt_sign O p <> "" /\
            ~ In " "%char (list_ascii_of_string (jwt_sign O p)).

Lemma signed_token_authenticates p :
  authenticateToken O (App.authorization (Some (jwt_sign O p))) = inr p.
Proof.
  destruct (sign_word p) as [Hne Hsp]. apply String.eqb_neq in Hne.
  unfold App.authorization, authenticateToken. cbn [truthy]. rewrite Hne.
  rewrite bearer_token_of_Bearer by exact Hsp.
  cbn [truthy]. now rewrite Hne, verify_sign.
Qed.

(** X3.  Provided [jwt.verify] accepts what [jwt.sign] produced and a
    token is one non-empty word, the token of a 200 answer of signup or
    login, sent back through [apiFetch], makes [authenticateToken] set
    [req.user] to the id and email of a stored account: the one just
    created with the email of the request, or the one that logged in. *)
Theorem issued_token_authenticates (v : revision) :
  (forall b w r w',
     handle O v (PostSignup b) w = (Ok r, w') ->
     status r = 200 ->
     exists u token user_json,
       In u (users (db w')) /\ Some (u_email u) = sb_email b /\
       r = token_response token user_json /\
       authenticateToken O (App.authorization (Some token))
       = inr (mkPayload (u_id u) (u_email u))) /\
  (forall b w r w',
     handle O v (PostLogin b) w = (Ok r, w') ->
     status r = 200 ->
     exists u token user_json,
       In u (users (db w)) /\ u_email u = lb_email b /\
       r = token_response token user_json /\
       authenticateToken O (App.authorization (Some token))
       = inr (mkPayload (u_id u) (u_email u))).
Proof.
  split.
  - intros b w r w' Hrun Hs.
    apply (MongoFacts.signup_inv O) in Hrun
      as (name & email & password & salt & u
          & _ & He & _ & _ & _ & Hue & _ & Hus & ->);
      [| exact Hs].
    apply truthy_Some in He as [He _].
    exists u. eexists. eexists. split; [| split; [| split; [reflexivity |]]].
    + rewrite Hus. apply in_or_app. right. now left.
    + now rewrite Hue, He.
    + rewrite <- Hue. apply signed_token_authenticates.
  - intros b w r w' Hrun Hs.
    unfold handle in Hrun. cbn [protected] in Hrun. unfold run in Hrun.
    apply try_catch_inv in Hrun as [Hok | (e & _ & ->)]; [| discriminate Hs].
    cbn [try_block] in Hok. unfold login_try in Hok.
    apply bind_inv in Hok as (found & w1 & Hfind & Hok).
    apply MongoFacts.User_findOne_inv in Hfind as [-> _].
    destruct (find _ (users (db w))) as [u |] eqn:Hf;
      [| unfold ret in Hok; injection Hok as <- <-; discriminate Hs].
    unfold bind, compare_password in Hok.
    destruct (lb_password b) as [password |];
      [| unfold throw in Hok; discriminate Hok].
    unfold ret in Hok.
    destruct (bcrypt_compare O password (u_password u));
      injection Hok as <- <-; [| discriminate Hs].
    apply find_some in Hf as [Hin He]. apply String.eqb_eq in He.
    exists u. eexists. eexists.
    split; [exact Hin |]. split; [exact He |]. split; [reflexivity |].
    apply signed_token_authenticates.
Qed.

End Tokens.

(** *** The stand-in that verifies what it signed *)

Lemma unescape_escape s : Sample.unescape (Sample.escape s) = s.
Proof.
  induction s as [| c s IH]; cbn; [reflexivity |].
  destruct (Ascii.eqb c " ") eqn:Es.
  - apply Ascii.eqb_eq in Es. subst c. cbn. now rewrite IH.
  - destruct (Ascii.eqb c "%") eqn:Ep.
    + apply Ascii.eqb_eq in Ep. subst c. cbn. now rewrite IH.
    + cbn. rewrite Ep. now rewrite IH.
Qed.

Lemma escape_word s :
  ~ In " "%char (list_ascii_of_string (Sample.escape s)).
Proof.
  induction s as [| c s IH]; cbn; [intros [] |].
  destruct (Ascii.eqb c " ") eqn:Es; cbn.
  - intros [E | [E | H]]; [discriminate E | discriminate E | now apply IH].
  - destruct (Ascii.eqb c "%") eqn:Ep; cbn.
    + intros [E | [E | H]]; [discriminate E | discriminate E | now apply IH].
    + intros [E | H]; [| now apply IH].
      subst c. discriminate Es.
Qed.

Lemma verify_id_unary n e :
  Sample.verify_id (Sample.unary n (String "." e))
  = Some (mkPayload n (Sample.unescape e)).
Proof.
  induction n as [| n IH]; cbn; [reflexivity |]. now rewrite IH.
Qed.

Lemma verify_id_sign_id p : Sample.verify_id (Sample.sign_id p) = Some p.
Proof.
  unfold Sample.sign_id. rewrite verify_id_unary, unescape_escape.
  now destruct p.
Qed.

Lemma sign_id_word p :
  Sample.sign_id p <> "" /\
  ~ In " "%char (list_ascii_of_string (Sample.sign_id p)).
Proof.
  unfold Sample.sign_id. generalize (pl_id p) as n. intros n. split.
  - destruct n; discriminate.
  - induction n as [| n IH]; cbn.
    + intros [E | H]; [discriminate E | now apply (escape_word (pl_email p))].
    + intros [E | H]; [discriminate E | now apply IH].
Qed.

Lemma client_token_reaches_verify_witness :
  authenticateToken Sample.answering
    (App.authorization (Some "token-of-alice@example.com"))
  = inr Sample.alice.
Proof.
  apply (client_token_reaches_verify Sample.answering
           (Some "token-of-alice@example.com")).
  intros t [= <-]. vm_compute. intuition discriminate.
Defined.

Lemma authenticateToken_reads_the_second_word_witness :
  authenticateToken Sample.answering (Some "Basic token-of-alice@example.com")
  = authenticateToken Sample.answering Sample.alice_header /\
  authenticateToken Sample.answering (Some "token-of-alice@example.com")
  = inl (res_error 401 "Access denied. Token missing.").
Proof.
  split.
  - apply (proj1 (authenticateToken_reads_the_second_word Sample.answering
                    "Basic" "token-of-alice@example.com" ""
                    ltac:(vm_compute; intuition discriminate)
                    ltac:(vm_compute; intuition discriminate)
                    (or_introl eq_refl))).
  - apply (proj2 (authenticateToken_reads_the_second_word Sample.answering
                    "token-of-alice@example.com" "" ""
                    ltac:(vm_compute; intuition discriminate)
                    ltac:(vm_compute; intuition discriminate)
                    (or_introl eq_refl))).
Defined.

Lemma issued_token_authenticates_witness :
  exists u token user_json,
    In u (users (db (snd (handle Sample.keyed ServerTs
                            (PostSignup (mkSignupBody (Some "Bob")
                                           (Some "bob@example.com")
                                           (Some "builder")))
                            (Sample.world_of Sample.mongo_alice))))) /\
    Some (u_email u) = Some "bob@example.com" /\
    res_json (JObj [("token", JStr "11111111111.bob@example.com");
                    ("user", User_public 11 "Bob" "bob@example.com" "#e24a4a")])
    = token_response token user_json /\
    authenticateToken Sample.keyed (App.authorization (Some token))
    = inr (mkPayload (u_id u) (u_email u)).
Proof.
  exact (proj1 (issued_token_authenticates Sample.keyed
                  verify_id_sign_id sign_id_word ServerTs)
           (mkSignupBody (Some "Bob") (Some "bob@example.com") (Some "builder"))
           (Sample.world_of Sample.mongo_alice) _ _ eq_refl eq_refl).
Defined.

End TokenFacts.

(** ** What each Mongoose operation changes *)

Module MongoEffects.
Import Mongo RuntimeFacts.

Ltac open_world w :=
  let d := fresh "d" in
  destruct w as [d ? ? ? ? ?]; destruct d as [? ? ? ? ? ?].

Ltac run_all :=
  unfold bind, await_db, get_db, put_db, ret, throw, Date_now, fresh_id,
         random_draw, random_below, set_db, set_faults;
  cbn [db faults clock ticks random draws users conversations messages
       projects tasks next_id].

Ltac by_faults :=
  match goal with
  | |- context [match ?fs with [] => _ | _ => _ end] => destruct fs as [| [] ?]
  end; cbn.

Ltac unchanged := eexists _, _; split; [reflexivity | now left].

Ltac appended :=
  eexists _, _; split;
  [reflexivity | right; eexists; split; [reflexivity |]; cbn; repeat split; assumption].

(** What each operation can do to the database, whether it returns or
    throws and whatever the schedule of failures. *)

Lemma User_findOne_effect email w : db (snd (User_findOne email w)) = db w.
Proof.
  open_world w. unfold User_findOne. run_all. by_faults; reflexivity.
Qed.

Lemma User_save_effect n e p c w :
  exists us k,
    db (snd (User_save n e p c w)) =
    mkDatabase us (conversations (db w)) (messages (db w)) (projects (db w))
               (tasks (db w)) k /\
    (us = users (db w) \/
     exists u, us = (users (db w) ++ [u])%list /\
               u_name u = n /\ u_email u = e /\ u_password u = p /\
               n <> "" /\ e <> "" /\ p <> "" /\
               existsb (fun u' => u_email u' =? e) (users (db w)) = false).
Proof.
  open_world w. unfold User_save. run_all.
  destruct (n =? "") eqn:En; cbn; [unchanged |].
  destruct (e =? "") eqn:Ee; cbn; [unchanged |].
  destruct (p =? "") eqn:Ep; cbn; [unchanged |].
  apply String.eqb_neq in En, Ee, Ep.
  by_faults; try unchanged;
    match goal with
    | |- context [existsb ?f ?l] => destruct (existsb f l) eqn:Ex
    end; cbn; try unchanged; appended.
Qed.

Lemma Conversation_save_effect uid title w :
  exists cs k,
    db (snd (Conversation_save uid title w)) =
    mkDatabase (users (db w)) cs (messages (db w)) (projects (db w))
               (tasks (db w)) k /\
    (cs = conversations (db w) \/
     exists c, cs = (conversations (db w) ++ [c])%list /\ c_userId c = uid).
Proof.
  open_world w. unfold Conversation_save. run_all.
  by_faults; try unchanged; appended.
Qed.

Lemma Conversation_findByIdAndUpdate_effect cido now w :
  exists cs k,
    db (snd (Conversation_findByIdAndUpdate cido now w)) =
    mkDatabase (users (db w)) cs (messages (db w)) (projects (db w))
               (tasks (db w)) k /\
    (cs = conversations (db w) \/
     exists id, cs = map (touch id now) (conversations (db w))).
Proof.
  open_world w. unfold Conversation_findByIdAndUpdate. run_all.
  destruct cido as [id |]; by_faults; try unchanged;
    eexists _, _; (split; [reflexivity | right; now exists id]).
Qed.

Lemma Message_save_effect cido uid role text w :
  exists ms k,
    db (snd (Message_save cido uid role text w)) =
    mkDatabase (users (db w)) (conversations (db w)) ms (projects (db w))
               (tasks (db w)) k /\
    (ms = messages (db w) \/
     exists m, ms = (messages (db w) ++ [m])%list /\
               m_userId m = uid /\ m_text m <> "").
Proof.
  open_world w. unfold Message_save. run_all.
  destruct cido as [cid |]; cbn; [| unchanged].
  destruct (text =? "") eqn:Et; cbn; [unchanged |].
  apply String.eqb_neq in Et.
  by_faults; try unchanged; appended.
Qed.

Lemma Project_save_effect uid name description content w :
  exists ps k,
    db (snd (Project_save uid name description content w)) =
    mkDatabase (users (db w)) (conversations (db w)) (messages (db w)) ps
               (tasks (db w)) k /\
    (ps = projects (db w) \/
     exists p, ps = (projects (db w) ++ [p])%list /\
               p_userId p = uid /\ p_name p <> "").
Proof.
  open_world w. unfold Project_save. run_all.
  destruct name as [n |]; cbn; [| unchanged].
  destruct (n =? "") eqn:En; cbn; [unchanged |].
  apply String.eqb_neq in En.
  by_faults; try unchanged; appended.
Qed.

Lemma Task_save_effect uid title w :
  exists ts k,
    db (snd (Task_save uid title w)) =
    mkDatabase (users (db w)) (conversations (db w)) (messages (db w))
               (projects (db w)) ts k /\
    (ts = tasks (db w) \/
     exists t, ts = (tasks (db w) ++ [t])%list /\
               t_userId t = uid /\ t_title t <> "").
Proof.
  open_world w. unfold Task_save. run_all.
  destruct title as [n |]; cbn; [| unchanged].
  destruct (n =? "") eqn:En; cbn; [unchanged |].
  apply String.eqb_neq in En.
  by_faults; try unchanged; appended.
Qed.

Lemma Conversation_find_effect uid w : db (snd (Conversation_find uid w)) = db w.
Proof.
  open_world w. unfold Conversation_find. run_all. by_faults; reflexivity.
Qed.

Lemma Message_find_effect uid cido w : db (snd (Message_find uid cido w)) = db w.
Proof.
  open_world w. unfold Message_find. run_all. by_faults; reflexivity.
Qed.

Lemma Project_find_effect uid w : db (snd (Project_find uid w)) = db w.
Proof.
  open_world w. unfold Project_find. run_all. by_faults; reflexivity.
Qed.

Lemma Task_find_effect uid w : db (snd (Task_find uid w)) = db w.
Proof.
  open_world w. unfold Task_find. run_all. by_faults; reflexivity.
Qed.

Lemma Message_deleteMany_effect id uid w :
  exists ms,
    db (snd (Message_deleteMany id uid w)) =
    mkDatabase (users (db w)) (conversations (db w)) ms (projects (db w))
               (tasks (db w)) (next_id (db w)) /\
    (ms = messages (db w) \/
     ms = filter (fun m => negb (Nat.eqb (m_conversationId m) id &&
                                 Nat.eqb (m_userId m) uid))
                 (messages (db w))).
Proof.
  open_world w. unfold Message_deleteMany. run_all.
  by_faults; eexists; (split; [reflexivity |]); (now left) || (now right).
Qed.

Lemma Conversation_deleteOne_effect id uid w :
  exists cs,
    db (snd (Conversation_deleteOne id uid w)) =
    mkDatabase (users (db w)) cs (messages (db w)) (projects (db w))
               (tasks (db w)) (next_id (db w)) /\
    (cs = conversations (db w) \/
     cs = remove_first (fun c => Nat.eqb (c_id c) id && Nat.eqb (c_userId c) uid)
                       (conversations (db w))).
Proof.
  open_world w. unfold Conversation_deleteOne. run_all.
  by_faults; eexists; (split; [reflexivity |]); (now left) || (now right).
Qed.

Lemma Task_findOneAndUpdate_effect id uid completed w :
  exists ts,
    db (snd (Task_findOneAndUpdate id uid completed w)) =
    mkDatabase (users (db w)) (conversations (db w)) (messages (db w))
               (projects (db w)) ts (next_id (db w)) /\
    (ts = tasks (db w) \/
     exists b,
       ts = update_first
              (fun t => Nat.eqb (t_id t) id && Nat.eqb (t_userId t) uid)
              (fun t => mkTask (t_id t) (t_userId t) (t_title t) b (t_createdAt t))
              (tasks (db w))).
Proof.
  open_world w. unfold Task_findOneAndUpdate. run_all.
  destruct completed as [b |]; by_faults;
    eexists; (split; [reflexivity |]); try (now left); right; now exists b.
Qed.

End MongoEffects.

(** ** What a route keeps, from what its operations keep *)

Module RouteFrames.
Import Mongo RuntimeFacts FrameFacts MongoEffects.

Section Frames.

Variable O : Oracles.
Variable R : world database -> world database -> Prop.
Hypothesis R_refl : forall w, R w w.
Hypothesis R_trans : forall w1 w2 w3, R w1 w2 -> R w2 w3 -> R w1 w3.
Hypothesis R_db : forall w w', db w' = db w -> R w w'.

Variable user : Payload.

Hypothesis keeps_User_save : forall n e p c, keeps R (User_save n e p c).
Hypothesis keeps_Conversation_save :
  forall title, keeps R (Conversation_save (pl_id user) title).
Hypothesis keeps_Conversation_findByIdAndUpdate :
  forall cido now, keeps R (Conversation_findByIdAndUpdate cido now).
Hypothesis keeps_Message_save :
  forall cido role text, keeps R (Message_save cido (pl_id user) role text).
Hypothesis keeps_Project_save :
  forall n d c, keeps R (Project_save (pl_id user) n d c).
Hypothesis keeps_Task_save : forall t, keeps R (Task_save (pl_id user) t).
Hypothesis keeps_Message_deleteMany :
  forall id, keeps R (Message_deleteMany id (pl_id user)).
Hypothesis keeps_Conversation_deleteOne :
  forall id, keeps R (Conversation_deleteOne id (pl_id user)).
Hypothesis keeps_Task_findOneAndUpdate :
  forall id c, keeps R (Task_findOneAndUpdate id (pl_id user) c).

Lemma keeps_reading {A} (m : H A) :
  (forall w, db (snd (m w)) = db w) -> keeps R m.
Proof. intros Hm w. apply R_db, Hm. Qed.

Ltac frame :=
  repeat first
    [ apply (keeps_ret R R_refl)
    | apply (keeps_throw R R_refl)
    | apply (keeps_lift_outcome R R_refl)
    | apply keeps_reading, User_findOne_effect
    | apply keeps_reading, Conversation_find_effect
    | apply keeps_reading, Message_find_effect
    | apply keeps_reading, Project_find_effect
    | apply keeps_reading, Task_find_effect
    | apply keeps_User_save
    | apply keeps_Conversation_save
    | apply keeps_Conversation_findByIdAndUpdate
    | apply keeps_Message_save
    | apply keeps_Project_save
    | apply keeps_Task_save
    | apply keeps_Message_deleteMany
    | apply keeps_Conversation_deleteOne
    | apply keeps_Task_findOneAndUpdate
    | apply keeps_reading; intros ?; reflexivity
    | apply (keeps_bind R R_trans); [| intros ?]
    | match goal with
      | |- keeps _ (match ?x with _ => _ end) => destruct x
      end ].

Lemma keeps_signup b : keeps R (signup_try O b).
Proof.
  unfold signup_try. frame.
Qed.

Lemma keeps_login b : keeps R (login_try O b).
Proof.
  unfold login_try, compare_password. frame.
Qed.

Lemma keeps_chat v auth b : keeps R (try_block O v (PostChat auth b) user).
Proof.
  destruct v; cbn [try_block]; [unfold chat_try_server_ts | unfold chat_try_part_001];
    frame.
Qed.

Lemma keeps_image v auth p :
  keeps R (try_block O v (PostGenerateImage auth p) user).
Proof.
  destruct v; cbn [try_block];
    [unfold generate_image_try_server_ts | unfold generate_image_try_part_001];
    frame.
Qed.

Lemma keeps_conversations_get : keeps R (conversations_get_try user).
Proof.
  unfold conversations_get_try. frame.
Qed.

Lemma keeps_conversations_post title : keeps R (conversations_post_try user title).
Proof. unfold conversations_post_try. frame. Qed.

Lemma keeps_conversations_delete id : keeps R (conversations_delete_try user id).
Proof. unfold conversations_delete_try. frame. Qed.

Lemma keeps_messages_get cido : keeps R (messages_get_try user cido).
Proof.
  unfold messages_get_try. frame.
Qed.

Lemma keeps_projects_get : keeps R (projects_get_try user).
Proof.
  unfold projects_get_try. frame.
Qed.

Lemma keeps_projects_post b : keeps R (projects_post_try user b).
Proof. unfold projects_post_try. frame. Qed.

Lemma keeps_tasks_get : keeps R (tasks_get_try user).
Proof.
  unfold tasks_get_try. frame.
Qed.

Lemma keeps_tasks_post title : keeps R (tasks_post_try user title).
Proof. unfold tasks_post_try. frame. Qed.

Lemma keeps_tasks_patch id c : keeps R (tasks_patch_try user id c).
Proof. unfold tasks_patch_try. frame. Qed.

(** Every route but [POST /api/chat] and signup. *)
Lemma keeps_try_block_plain v r auth :
  protected r = Some auth -> (forall a b, r <> PostChat a b) ->
  keeps R (try_block O v r user).
Proof.
  intros Hp Hc. destruct r; try discriminate Hp; try apply keeps_image;
    cbn [try_block].
  - now contradiction (Hc auth0 b).
  - apply keeps_conversations_get.
  - apply keeps_conversations_post.
  - apply keeps_conversations_delete.
  - apply keeps_messages_get.
  - apply keeps_projects_get.
  - apply keeps_projects_post.
  - apply keeps_tasks_get.
  - apply keeps_tasks_post.
  - apply keeps_tasks_patch.
Qed.

Lemma keeps_try_block_protected v r auth :
  protected r = Some auth -> keeps R (try_block O v r user).
Proof.
  intros Hp. destruct r; try discriminate Hp;
    try (apply (keeps_try_block_plain v _ auth0);
         [reflexivity | intros a b' E; discriminate E]).
  apply keeps_chat.
Qed.

Lemma keeps_try_block v r : keeps R (try_block O v r user).
Proof.
  destruct (protected r) as [auth |] eqn:Hp.
  - now apply (keeps_try_block_protected v r auth).
  - destruct r; try discriminate Hp; cbn [try_block];
      [apply keeps_signup | apply keeps_login].
Qed.

Lemma keeps_try_block_reading v r :
  read_only r = true -> keeps R (try_block O v r user).
Proof.
  intros Hr. destruct r; try discriminate Hr; try apply keeps_image;
    cbn [try_block].
  - apply keeps_login.
  - apply keeps_conversations_get.
  - apply keeps_messages_get.
  - apply keeps_projects_get.
  - apply keeps_tasks_get.
Qed.

Lemma keeps_run v r :
  keeps R (try_block O v r user) -> keeps R (run O v r user).
Proof.
  intros Hk. unfold run. apply (keeps_try_catch R R_trans); [exact Hk |].
  intros e. apply (keeps_ret R R_refl).
Qed.

End Frames.

(** The middleware writes nothing. *)
Lemma keeps_handle O (R : world database -> world database -> Prop) v r :
  (forall w, R w w) ->
  (forall user, keeps R (run O v r user)) -> keeps R (handle O v r).
Proof.
  intros R_refl Hk. unfold handle.
  destruct (protected r) as [auth |]; [| apply Hk].
  destruct (authenticateToken O auth) as [refusal | user];
    [apply (keeps_ret R R_refl) | apply Hk].
Qed.

End RouteFrames.

(** ** Requests that are refused *)

Module MongoRefusals.
Import Mongo RuntimeFacts MongoEffects.

Section Refusals.

Variable O : Oracles.

Lemma catch_block_is_500 r e : status (catch_block r e) = 500.
Proof. now destruct r. Qed.

(** The last step of a route that answers with [res.json]. *)
Ltac answered_200 H Hs :=
  repeat (apply bind_inv in H as (? & ? & _ & H));
  repeat match type of H with
         | (match ?x with _ => _ end) _ = _ => destruct x
         end;
  unfold ret in H; injection H as <- <-; discriminate Hs.

Lemma try_block_4xx v r user w resp w' :
  try_block O v r user w = (Ok resp, w') ->
  is_4xx (status resp) = true ->
  db w' = db w.
Proof.
  intros H Hs. destruct r; cbn [try_block] in H.
  - (* signup *)
    unfold signup_try in H.
    destruct (truthy (sb_name b)) as [s |], (truthy (sb_email b)) as [s0 |],
             (truthy (sb_password b)) as [s1 |];
      try (unfold ret in H; injection H as <- <-; reflexivity).
    apply bind_inv in H as (existing & w1 & Hfind & H).
    pose proof (User_findOne_effect s0 w) as Hdb. rewrite Hfind in Hdb.
    destruct existing.
    + unfold ret in H. injection H as <- <-. exact Hdb.
    + answered_200 H Hs.
  - (* login *)
    unfold login_try in H.
    apply bind_inv in H as (found & w1 & Hfind & H).
    pose proof (User_findOne_effect (lb_email b) w) as Hdb. rewrite Hfind in Hdb.
    destruct found as [u |].
    + unfold bind, compare_password in H.
      destruct (lb_password b) as [password |];
        [| unfold throw in H; discriminate H].
      unfold ret in H.
      destruct (bcrypt_compare O password (u_password u));
        injection H as <- <-; [discriminate Hs | exact Hdb].
    + unfold ret in H. injection H as <- <-. exact Hdb.
  - (* chat *)
    destruct v.
    + unfold chat_try_server_ts in H.
      destruct (truthy (cb_text b));
        [answered_200 H Hs | unfold ret in H; injection H as <- <-; reflexivity].
    + unfold chat_try_part_001 in H.
      destruct (truthy (cb_text b)), (cb_image b);
        try (unfold ret in H; injection H as <- <-; reflexivity);
        answered_200 H Hs.
  - (* image *)
    destruct v.
    + unfold generate_image_try_server_ts in H.
      destruct (truthy prompt);
        [answered_200 H Hs | unfold ret in H; injection H as <- <-; reflexivity].
    + unfold generate_image_try_part_001 in H.
      destruct (truthy prompt);
        [| unfold ret in H; injection H as <- <-; reflexivity].
      apply bind_inv in H as (res & w1 & _ & H).
      destruct (first_candidate_parts res) as [ps |];
        [destruct (first_inlineData ps) |];
        unfold ret in H; injection H as <- <-; discriminate Hs.
  - unfold conversations_get_try in H. answered_200 H Hs.
  - unfold conversations_post_try in H. answered_200 H Hs.
  - unfold conversations_delete_try in H. answered_200 H Hs.
  - unfold messages_get_try in H. answered_200 H Hs.
  - unfold projects_get_try in H. answered_200 H Hs.
  - unfold projects_post_try in H. answered_200 H Hs.
  - unfold tasks_get_try in H. answered_200 H Hs.
  - unfold tasks_post_try in H. answered_200 H Hs.
  - unfold tasks_patch_try in H. answered_200 H Hs.
Qed.

(** X4.  A request that [src/server.ts] or [part_001] refuses writes
    nothing: whenever the answer has a 4xx status (400 for missing
    fields or an email that is taken, 401 and 403 from the middleware
    or for wrong credentials), the database is the one before the
    request. *)
Theorem refused_requests_write_nothing
  (v : revision) (r : api_request) (w w' : world database) (resp : response) :
  handle O v r w = (Ok resp, w') ->
  is_4xx (status resp) = true ->
  db w' = db w.
Proof.
  intros H Hs. unfold handle in H.
  assert (Hrun : forall user, run O v r user w = (Ok resp, w') -> db w' = db w).
  { intros user Hr. unfold run in Hr.
    apply try_catch_inv in Hr as [Hok | (e & _ & ->)].
    - exact (try_block_4xx v r user w resp w' Hok Hs).
    - rewrite catch_block_is_500 in Hs. discriminate Hs. }
  destruct (protected r) as [auth |]; [| now apply (Hrun (mkPayload 0 ""))].
  destruct (authenticateToken O auth) as [refusal | user];
    [| now apply (Hrun user)].
  unfold ret in H. now injection H as _ <-.
Qed.

End Refusals.

(** A chat request of Alice without a text is answered 400 and changes
    nothing. *)
Lemma refused_requests_write_nothing_witness :
  db (snd (handle Sample.answering ServerTs
             (PostChat Sample.alice_header
                (mkChatBody (Some 10) None (Some []) None))
             (Sample.world_of Sample.mongo_shared)))
  = Sample.mongo_shared.
Proof.
  apply (refused_requests_write_nothing Sample.answering ServerTs
           (PostChat Sample.alice_header
              (mkChatBody (Some 10) None (Some []) None))
           (Sample.world_of Sample.mongo_shared) _
           (res_error 400 "Message text is required"));
    reflexivity.
Defined.

End MongoRefusals.

(** ** What a request may change *)

Module MongoInvariants.
Import Mongo RuntimeFacts FrameFacts MongoEffects RouteFrames.

(** *** Routes that only read *)

(** X5.  The routes that only read never write: whatever login, the
    image route and the four list routes of [src/server.ts] and
    [part_001] answer, and whether or not the database or the model
    fails meanwhile, the database after the request is the one before
    it. *)
Theorem reading_routes_never_write
  (O : Oracles) (v : revision) (r : api_request) (w : world database) :
  read_only r = true ->
  db (snd (handle O v r w)) = db w.
Proof.
  intros Hr.
  apply (keeps_handle O (fun w w' => db w' = db w) v r); [reflexivity |].
  intros user. apply keeps_run; [reflexivity | congruence |].
  apply keeps_try_block_reading; [reflexivity | congruence | auto | exact Hr].
Qed.

(** *** The records of the other users *)

Lemma of_others_app {A} (owner : A -> ObjectId) uid (l : list A) a :
  owner a = uid -> of_others owner uid (l ++ [a]) = of_others owner uid l.
Proof.
  intros Ha. unfold of_others. rewrite filter_app. cbn.
  rewrite Ha, Nat.eqb_refl. cbn. apply app_nil_r.
Qed.

Lemma of_others_filter {A} (owner : A -> ObjectId) uid (f : A -> bool) (l : list A) :
  (forall a, f a = false -> owner a = uid) ->
  of_others owner uid (filter f l) = of_others owner uid l.
Proof.
  intros Hf. unfold of_others.
  induction l as [| a t IH]; cbn; [reflexivity |].
  destruct (f a) eqn:Ea; cbn; [now rewrite IH |].
  rewrite (Hf a Ea), Nat.eqb_refl. cbn. exact IH.
Qed.

Lemma of_others_remove_first {A} (owner : A -> ObjectId) uid (f : A -> bool)
  (l : list A) :
  (forall a, f a = true -> owner a = uid) ->
  of_others owner uid (remove_first f l) = of_others owner uid l.
Proof.
  intros Hf. unfold of_others.
  induction l as [| a t IH]; cbn; [reflexivity |].
  destruct (f a) eqn:Ea; cbn.
  - rewrite (Hf a Ea), Nat.eqb_refl. reflexivity.
  - now rewrite IH.
Qed.

Lemma of_others_update_first {A} (owner : A -> ObjectId) uid (f : A -> bool)
  (g : A -> A) (l : list A) :
  (forall a, f a = true -> owner a = uid) ->
  (forall a, owner (g a) = owner a) ->
  of_others owner uid (update_first f g l) = of_others owner uid l.
Proof.
  intros Hf Hg. unfold of_others.
  induction l as [| a t IH]; cbn; [reflexivity |].
  destruct (f a) eqn:Ea; cbn.
  - rewrite Hg, (Hf a Ea), Nat.eqb_refl. reflexivity.
  - now rewrite IH.
Qed.

Lemma of_others_touch uid id now (l : list Conversation) :
  map dateless (of_others c_userId uid (map (touch id now) l)) =
  map dateless (of_others c_userId uid l).
Proof.
  unfold of_others. induction l as [| c t IH]; cbn; [reflexivity |].
  assert (Hu : c_userId (touch id now c) = c_userId c)
    by (unfold touch; now destruct (Nat.eqb (c_id c) id)).
  assert (Hd : dateless (touch id now c) = dateless c)
    by (unfold touch; now destruct (Nat.eqb (c_id c) id)).
  rewrite Hu. destruct (negb (Nat.eqb (c_userId c) uid)); cbn;
    [now rewrite Hd, IH | exact IH].
Qed.

Section Others.

Context {X : Type} (see : Conversation -> X) (uid : ObjectId).

Lemma others_kept_refl d : others_kept see uid d d.
Proof. unfold others_kept. repeat split. Qed.

Lemma others_kept_trans d1 d2 d3 :
  others_kept see uid d1 d2 -> others_kept see uid d2 d3 ->
  others_kept see uid d1 d3.
Proof.
  unfold others_kept.
  intros (U1 & C1 & M1 & P1 & T1) (U2 & C2 & M2 & P2 & T2).
  repeat split; congruence.
Qed.

Lemma kept_refl w : kept_for see uid w w.
Proof. apply others_kept_refl. Qed.

Lemma kept_trans w1 w2 w3 :
  kept_for see uid w1 w2 -> kept_for see uid w2 w3 -> kept_for see uid w1 w3.
Proof. apply others_kept_trans. Qed.

Lemma kept_db w w' : db w' = db w -> kept_for see uid w w'.
Proof. unfold kept_for. intros ->. apply others_kept_refl. Qed.

Lemma kept_Conversation_save title : keeps (kept_for see uid) (Conversation_save uid title).
Proof.
  intros w. unfold kept_for.
  destruct (Conversation_save_effect uid title w) as (cs & k & -> & [-> | (c & -> & Hc)]);
    unfold others_kept; cbn [users conversations messages projects tasks];
    repeat split.
  now rewrite of_others_app.
Qed.

Lemma kept_Message_save cido role text :
  keeps (kept_for see uid) (Message_save cido uid role text).
Proof.
  intros w. unfold kept_for.
  destruct (Message_save_effect cido uid role text w)
    as (ms & k & -> & [-> | (m & -> & Hm & _)]);
    unfold others_kept; cbn [users conversations messages projects tasks];
    repeat split.
  now rewrite of_others_app.
Qed.

Lemma kept_Project_save n d c : keeps (kept_for see uid) (Project_save uid n d c).
Proof.
  intros w. unfold kept_for.
  destruct (Project_save_effect uid n d c w)
    as (ps & k & -> & [-> | (p & -> & Hp & _)]);
    unfold others_kept; cbn [users conversations messages projects tasks];
    repeat split.
  now rewrite of_others_app.
Qed.

Lemma kept_Task_save t : keeps (kept_for see uid) (Task_save uid t).
Proof.
  intros w. unfold kept_for.
  destruct (Task_save_effect uid t w)
    as (ts & k & -> & [-> | (t' & -> & Ht & _)]);
    unfold others_kept; cbn [users conversations messages projects tasks];
    repeat split.
  now rewrite of_others_app.
Qed.

Lemma kept_Message_deleteMany id : keeps (kept_for see uid) (Message_deleteMany id uid).
Proof.
  intros w. unfold kept_for.
  destruct (Message_deleteMany_effect id uid w) as (ms & -> & [-> | ->]);
    unfold others_kept; cbn [users conversations messages projects tasks];
    repeat split.
  apply of_others_filter. intros m Hm.
  apply negb_false_iff, andb_true_iff in Hm as [_ Hm]. now apply Nat.eqb_eq.
Qed.

Lemma kept_Conversation_deleteOne id : keeps (kept_for see uid) (Conversation_deleteOne id uid).
Proof.
  intros w. unfold kept_for.
  destruct (Conversation_deleteOne_effect id uid w) as (cs & -> & [-> | ->]);
    unfold others_kept; cbn [users conversations messages projects tasks];
    repeat split.
  f_equal. apply of_others_remove_first. intros c Hc.
  apply andb_true_iff in Hc as [_ Hc]. now apply Nat.eqb_eq.
Qed.

Lemma kept_Task_findOneAndUpdate id c :
  keeps (kept_for see uid) (Task_findOneAndUpdate id uid c).
Proof.
  intros w. unfold kept_for.
  destruct (Task_findOneAndUpdate_effect id uid c w) as (ts & -> & [-> | (b & ->)]);
    unfold others_kept; cbn [users conversations messages projects tasks];
    repeat split.
  apply of_others_update_first; [| reflexivity].
  intros t Ht. apply andb_true_iff in Ht as [_ Ht]. now apply Nat.eqb_eq.
Qed.

End Others.

Lemma kept_Conversation_findByIdAndUpdate uid cido now :
  keeps (kept_for dateless uid) (Conversation_findByIdAndUpdate cido now).
Proof.
  intros w. unfold kept_for.
  destruct (Conversation_findByIdAndUpdate_effect cido now w)
    as (cs & k & -> & [-> | (id & ->)]);
    unfold others_kept; cbn [users conversations messages projects tasks];
    repeat split.
  apply of_others_touch.
Qed.

(** X6.  A request to a protected route of [src/server.ts] or
    [part_001] leaves the other users alone: whatever it answers, the
    accounts are unchanged and so are the conversations, messages,
    projects and tasks of every user but the one the token names.  The
    one exception is the date of a conversation: [POST /api/chat] gives
    [Conversation.findByIdAndUpdate] the [conversationId] of the body
    without asking whose it is, so it can re-date a conversation of
    somebody else, and nothing but the date. *)
Theorem requests_keep_the_records_of_others
  (O : Oracles) (v : revision) (r : api_request) (auth : option string)
  (user : Payload) (w : world database) :
  protected r = Some auth ->
  authenticateToken O auth = inr user ->
  others_kept dateless (pl_id user) (db w) (db (snd (handle O v r w))) /\
  ((forall a b, r <> PostChat a b) ->
   others_kept (fun c => c) (pl_id user) (db w) (db (snd (handle O v r w)))).
Proof.
  intros Hp Ha. unfold handle. rewrite Hp, Ha. split.
  - apply (keeps_run O _ (kept_refl dateless (pl_id user))
             (kept_trans dateless (pl_id user))).
    apply (keeps_try_block_protected O _ (kept_refl dateless (pl_id user))
             (kept_trans dateless (pl_id user))
             (kept_db dateless (pl_id user)) user) with (auth := auth);
      try exact Hp.
    + apply kept_Conversation_save.
    + apply kept_Conversation_findByIdAndUpdate.
    + apply kept_Message_save.
    + apply kept_Project_save.
    + apply kept_Task_save.
    + apply kept_Message_deleteMany.
    + apply kept_Conversation_deleteOne.
    + apply kept_Task_findOneAndUpdate.
  - intros Hc.
    apply (keeps_run O _ (kept_refl (fun c => c) (pl_id user))
             (kept_trans (fun c => c) (pl_id user))).
    apply (keeps_try_block_plain O _ (kept_refl (fun c => c) (pl_id user))
             (kept_trans (fun c => c) (pl_id user))
             (kept_db (fun c => c) (pl_id user)) user) with (auth := auth);
      try assumption.
    + apply kept_Conversation_save.
    + apply kept_Project_save.
    + apply kept_Task_save.
    + apply kept_Message_deleteMany.
    + apply kept_Conversation_deleteOne.
    + apply kept_Task_findOneAndUpdate.
Qed.

(** The image route with the model unreachable and the database about to
    fail leaves Alice's and Bob's records as they were. *)
Lemma reading_routes_never_write_witness :
  db (snd (handle Sample.unreachable Part001
             (PostGenerateImage Sample.alice_header (Some "a cat"))
             (Sample.failing_second Sample.mongo_shared)))
  = Sample.mongo_shared.
Proof.
  exact (reading_routes_never_write Sample.unreachable Part001
           (PostGenerateImage Sample.alice_header (Some "a cat"))
           (Sample.failing_second Sample.mongo_shared) eq_refl).
Defined.

(** Alice asks to delete Bob's conversation 20: his records stay. *)
Lemma requests_keep_the_records_of_others_witness :
  others_kept (fun c => c) 1 Sample.mongo_shared
    (db (snd (handle Sample.answering ServerTs
                (DeleteConversation Sample.alice_header 20)
                (Sample.world_of Sample.mongo_shared)))).
Proof.
  apply (proj2 (requests_keep_the_records_of_others Sample.answering ServerTs
                  (DeleteConversation Sample.alice_header 20)
                  Sample.alice_header Sample.alice
                  (Sample.world_of Sample.mongo_shared) eq_refl eq_refl)).
  intros a b. discriminate.
Defined.

End MongoInvariants.

(** ** What the schemas ask of the stored documents *)

Module MongoSchema.
Import Mongo RuntimeFacts FrameFacts ListFacts MongoEffects RouteFrames.

Lemma fresh_email e (us : list User) :
  existsb (fun u => u_email u =? e) us = false -> ~ In e (map u_email us).
Proof.
  intros Hx Hin. apply in_map_iff in Hin as (u & He & Hu).
  assert (Ht : existsb (fun u => u_email u =? e) us = true).
  { apply existsb_exists. exists u. split; [exact Hu |]. now apply String.eqb_eq. }
  congruence.
Qed.

Section Schema.

Lemma schema_kept_refl w : schema_kept w w.
Proof. intros H. exact H. Qed.

Lemma schema_kept_trans w1 w2 w3 : schema_kept w1 w2 -> schema_kept w2 w3 -> schema_kept w1 w3.
Proof. unfold schema_kept. auto. Qed.

Lemma schema_kept_db w w' : db w' = db w -> schema_kept w w'.
Proof. unfold schema_kept. now intros ->. Qed.

Ltac wf_start E :=
  unfold schema_kept, well_formed; rewrite E;
  cbn [users conversations messages projects tasks];
  intros (HU & HE & HM & HP & HT).

Lemma wf_User_save n e p c : keeps schema_kept (User_save n e p c).
Proof.
  intros w.
  destruct (User_save_effect n e p c w) as (us & k & E & H). wf_start E.
  destruct H as [-> | (u & -> & Hn & He & Hp & Nn & Ne & Np & Hx)];
    repeat split; try assumption.
  - apply Forall_app. split; [assumption |].
    constructor; [| constructor]. now rewrite Hn, He, Hp.
  - rewrite map_app. cbn. apply NoDup_snoc; [assumption |].
    rewrite He. now apply fresh_email.
Qed.

Lemma wf_Conversation_save uid title : keeps schema_kept (Conversation_save uid title).
Proof.
  intros w.
  destruct (Conversation_save_effect uid title w) as (cs & k & E & _).
  wf_start E. repeat split; assumption.
Qed.

Lemma wf_Conversation_findByIdAndUpdate cido now :
  keeps schema_kept (Conversation_findByIdAndUpdate cido now).
Proof.
  intros w.
  destruct (Conversation_findByIdAndUpdate_effect cido now w) as (cs & k & E & _).
  wf_start E. repeat split; assumption.
Qed.

Lemma wf_Message_save cido uid role text :
  keeps schema_kept (Message_save cido uid role text).
Proof.
  intros w.
  destruct (Message_save_effect cido uid role text w) as (ms & k & E & H).
  wf_start E.
  destruct H as [-> | (m & -> & _ & Hm)]; repeat split; try assumption.
  apply Forall_app. split; [assumption | now constructor].
Qed.

Lemma wf_Project_save uid n d c : keeps schema_kept (Project_save uid n d c).
Proof.
  intros w.
  destruct (Project_save_effect uid n d c w) as (ps & k & E & H).
  wf_start E.
  destruct H as [-> | (p & -> & _ & Hp')]; repeat split; try assumption.
  apply Forall_app. split; [assumption | now constructor].
Qed.

Lemma wf_Task_save uid t : keeps schema_kept (Task_save uid t).
Proof.
  intros w.
  destruct (Task_save_effect uid t w) as (ts & k & E & H).
  wf_start E.
  destruct H as [-> | (t' & -> & _ & Ht')]; repeat split; try assumption.
  apply Forall_app. split; [assumption | now constructor].
Qed.

Lemma wf_Message_deleteMany id uid : keeps schema_kept (Message_deleteMany id uid).
Proof.
  intros w.
  destruct (Message_deleteMany_effect id uid w) as (ms & E & H).
  wf_start E.
  destruct H as [-> | ->]; repeat split; try assumption.
  now apply Forall_filter_keeps.
Qed.

Lemma wf_Conversation_deleteOne id uid :
  keeps schema_kept (Conversation_deleteOne id uid).
Proof.
  intros w.
  destruct (Conversation_deleteOne_effect id uid w) as (cs & E & _).
  wf_start E. repeat split; assumption.
Qed.

Lemma wf_Task_findOneAndUpdate id uid c :
  keeps schema_kept (Task_findOneAndUpdate id uid c).
Proof.
  intros w.
  destruct (Task_findOneAndUpdate_effect id uid c w) as (ts & E & H).
  wf_start E.
  destruct H as [-> | (b & ->)]; repeat split; try assumption.
  apply Forall_update_first; [| assumption]. intros t Ht. exact Ht.
Qed.

(** X7.  The requests keep what the schemas of [src/server.ts] and
    [part_001] ask of the stored documents: if no stored name, email,
    password, message text, project name or task title is empty and no
    two accounts share an email, the same holds after any request,
    whatever it answers. *)
Theorem requests_keep_the_schema
  (O : Oracles) (v : revision) (r : api_request) (w : world database) :
  well_formed (db w) -> well_formed (db (snd (handle O v r w))).
Proof.
  apply (keeps_handle O schema_kept v r schema_kept_refl). intros user.
  apply (keeps_run O _ schema_kept_refl schema_kept_trans).
  apply (keeps_try_block O _ schema_kept_refl schema_kept_trans schema_kept_db user).
  - apply wf_User_save.
  - intros title. apply wf_Conversation_save.
  - apply wf_Conversation_findByIdAndUpdate.
  - intros cido role text. apply wf_Message_save.
  - intros n d c. apply wf_Project_save.
  - intros t. apply wf_Task_save.
  - intros id. apply wf_Message_deleteMany.
  - intros id. apply wf_Conversation_deleteOne.
  - intros id c. apply wf_Task_findOneAndUpdate.
Qed.

End Schema.

(** A second signup with Alice's address leaves the accounts with
    distinct addresses. *)
Lemma requests_keep_the_schema_witness :
  well_formed
    (db (snd (handle Sample.answering Part001
                (PostSignup (mkSignupBody (Some "Mallory")
                               (Some "alice@example.com") (Some "guess")))
                (Sample.world_of Sample.mongo_shared)))).
Proof.
  apply (requests_keep_the_schema Sample.answering Part001).
  unfold well_formed. cbn.
  repeat split; repeat constructor; try discriminate;
    cbn; intuition discriminate.
Defined.

End MongoSchema.

(** ** Deleting a conversation and updating a task *)

Module MongoDeletes.
Import Mongo RuntimeFacts ListFacts.

(** *** Operations whose round trip succeeds *)

Lemma Message_deleteMany_quiet id uid w :
  quiet 1 w ->
  Message_deleteMany id uid w =
  (Ok tt,
   set_db (mkDatabase (users (db w)) (conversations (db w))
             (filter (fun m => negb (Nat.eqb (m_conversationId m) id &&
                                     Nat.eqb (m_userId m) uid))
                     (messages (db w)))
             (projects (db w)) (tasks (db w)) (next_id (db w)))
          (after_db_op w)).
Proof.
  intros Hq. unfold Message_deleteMany.
  rewrite (bind_Ok _ _ _ _ _ (await_db_quiet w Hq)). reflexivity.
Qed.

Lemma Conversation_deleteOne_quiet id uid w :
  quiet 1 w ->
  Conversation_deleteOne id uid w =
  (Ok tt,
   set_db (mkDatabase (users (db w))
             (remove_first (fun c => Nat.eqb (c_id c) id &&
                                     Nat.eqb (c_userId c) uid)
                           (conversations (db w)))
             (messages (db w)) (projects (db w)) (tasks (db w)) (next_id (db w)))
          (after_db_op w)).
Proof.
  intros Hq. unfold Conversation_deleteOne.
  rewrite (bind_Ok _ _ _ _ _ (await_db_quiet w Hq)). reflexivity.
Qed.

Lemma Task_findOneAndUpdate_quiet id uid b w :
  quiet 1 w ->
  Task_findOneAndUpdate id uid (Some b) w =
  (Ok tt,
   set_db (mkDatabase (users (db w)) (conversations (db w)) (messages (db w))
             (projects (db w))
             (update_first
                (fun t => Nat.eqb (t_id t) id && Nat.eqb (t_userId t) uid)
                (fun t => mkTask (t_id t) (t_userId t) (t_title t) b (t_createdAt t))
                (tasks (db w)))
             (next_id (db w)))
          (after_db_op w)).
Proof.
  intros Hq. unfold Task_findOneAndUpdate.
  rewrite (bind_Ok _ _ _ _ _ (await_db_quiet w Hq)). reflexivity.
Qed.

(** *** Lists after [deleteOne] and [findOneAndUpdate] when a key is unique *)

Lemma filter_after_delete {A} (f g : A -> bool) (l : list A) :
  (forall a, g a = true -> f a = true) ->
  filter g (filter (fun a => negb (f a)) l) = [].
Proof.
  intros Hfg. induction l as [| a t IH]; cbn; [reflexivity |].
  destruct (f a) eqn:Ef; cbn; [exact IH |].
  destruct (g a) eqn:Eg; [| exact IH].
  rewrite (Hfg a Eg) in Ef. discriminate Ef.
Qed.

Section Deletes.

Variable O : Oracles.

Lemma handle_as user v r auth w :
  protected r = Some auth -> authenticateToken O auth = inr user ->
  handle O v r w = run O v r user w.
Proof. intros Hp Ha. unfold handle. now rewrite Hp, Ha. Qed.

(** The list routes when the round trip succeeds. *)
Lemma conversations_get_quiet v auth user w :
  authenticateToken O auth = inr user -> quiet 1 w ->
  handle O v (GetConversations auth) w =
  (Ok (res_json (JArr (map Conversation_summary
         (sort_by (descending c_updatedAt)
            (filter (fun c => Nat.eqb (c_userId c) (pl_id user))
                    (conversations (db w))))))),
   after_db_op w).
Proof.
  intros Ha Hq. rewrite (handle_as user v _ auth) by (reflexivity || exact Ha).
  apply (list_route_quiet
           (fun d => sort_by (descending c_updatedAt)
                       (filter (fun c => Nat.eqb (c_userId c) (pl_id user))
                               (conversations d)))).
  exact Hq.
Qed.

Lemma messages_get_quiet v auth user cid w :
  authenticateToken O auth = inr user -> quiet 1 w ->
  handle O v (GetMessages auth (Some cid)) w =
  (Ok (res_json (JArr (map Message_toJSON
         (sort_by (ascending m_timestamp)
            (filter (fun m => Nat.eqb (m_userId m) (pl_id user) &&
                              Nat.eqb (m_conversationId m) cid)
                    (messages (db w))))))),
   after_db_op w).
Proof.
  intros Ha Hq. rewrite (handle_as user v _ auth) by (reflexivity || exact Ha).
  apply (list_route_quiet
           (fun d => sort_by (ascending m_timestamp)
                       (filter (fun m => Nat.eqb (m_userId m) (pl_id user) &&
                                         Nat.eqb (m_conversationId m) cid)
                               (messages d)))).
  exact Hq.
Qed.

(** X8.  Deleting removes.  In [src/server.ts] and [part_001], when the
    two database operations of [DELETE /api/conversations/:id] succeed,
    the answer is [{ success: true }]; afterwards the user's
    [GET /api/messages] for that conversation is empty and, ids being
    unique, the user's [GET /api/conversations] holds no conversation
    with that id. *)
Theorem deleted_conversation_is_gone
  (v : revision) (auth : option string) (user : Payload) (id : ObjectId)
  (w : world database) :
  authenticateToken O auth = inr user ->
  quiet 2 w ->
  NoDup (map c_id (conversations (db w))) ->
  exists w',
    handle O v (DeleteConversation auth id) w = (Ok (res_json success_body), w') /\
    forall w2, later w' w2 ->
      handle O v (GetMessages auth (Some id)) w2
      = (Ok (res_json (JArr [])), after_db_op w2) /\
      exists l,
        handle O v (GetConversations auth) w2
        = (Ok (res_json (JArr (map Conversation_summary l))), after_db_op w2) /\
        Forall (fun c => c_id c <> id) l.
Proof.
  intros Ha Hq Hnd.
  assert (Hq1 : quiet 1 w) by now apply quiet_pred.
  assert (Hq2 : quiet 1 (set_db
             (mkDatabase (users (db w)) (conversations (db w))
                (filter (fun m => negb (Nat.eqb (m_conversationId m) id &&
                                        Nat.eqb (m_userId m) (pl_id user)))
                        (messages (db w)))
                (projects (db w)) (tasks (db w)) (next_id (db w)))
             (after_db_op w))).
  { apply (quiet_tail 1 w); [exact Hq | reflexivity]. }
  eexists. split.
  - rewrite (handle_as user v _ auth) by (reflexivity || exact Ha).
    unfold run. apply try_catch_Ok. cbn [try_block]. unfold conversations_delete_try.
    rewrite (bind_Ok _ _ _ _ _ (Message_deleteMany_quiet id (pl_id user) w Hq1)).
    rewrite (bind_Ok _ _ _ _ _ (Conversation_deleteOne_quiet id (pl_id user) _ Hq2)).
    reflexivity.
  - intros w2 [Hdb Hq3]. cbn [db set_db after_db_op set_faults] in Hdb. split.
    + rewrite (messages_get_quiet v auth user id w2 Ha Hq3). rewrite Hdb.
      cbn [messages].
      rewrite filter_after_delete; [reflexivity |].
      intros m Hm. apply andb_true_iff in Hm as [Hu Hc]. now rewrite Hu, Hc.
    + eexists. split.
      * exact (conversations_get_quiet v auth user w2 Ha Hq3).
      * rewrite Hdb. cbn [conversations].
        apply sort_by_Forall, Forall_forall. intros c Hc.
        apply filter_In in Hc as [Hin Hown].
        apply (remove_first_In c_id id) in Hin as [_ Hf]; [| exact Hnd |].
        -- intros E. cbn beta in Hf. rewrite E, Hown, Nat.eqb_refl in Hf.
           discriminate Hf.
        -- intros x Hx. apply andb_true_iff in Hx as [Hx _]. now apply Nat.eqb_eq.
Qed.

(** X9.  Deleting is not atomic.  When [Message.deleteMany] succeeds
    and [Conversation.deleteOne] fails, the route answers 500 "Failed to
    delete conversation": the conversation is still stored and the
    user's messages in it are gone. *)
Theorem failed_delete_keeps_the_conversation
  (v : revision) (auth : option string) (user : Payload) (id : ObjectId)
  (w : world database) (fs : list bool) :
  authenticateToken O auth = inr user ->
  faults w = false :: true :: fs ->
  exists w',
    handle O v (DeleteConversation auth id) w
    = (Ok (res_error 500 "Failed to delete conversation"), w') /\
    conversations (db w') = conversations (db w) /\
    messages (db w') =
    filter (fun m => negb (Nat.eqb (m_conversationId m) id &&
                           Nat.eqb (m_userId m) (pl_id user)))
           (messages (db w)).
Proof.
  intros Ha Hf. destruct w as [d fs0 ck tk rn dr]. cbn [faults] in Hf. subst fs0.
  eexists. split.
  - rewrite (handle_as user v _ auth) by (reflexivity || exact Ha).
    unfold run. cbn [try_block]. unfold conversations_delete_try.
    reflexivity.
  - split; reflexivity.
Qed.

(** X10.  [PATCH /api/tasks/:id] of [src/server.ts] and [part_001],
    when its database operation succeeds, answers [{ success: true }]
    whether or not a task matched.  It changes nothing but [completed]:
    ids, owners, titles and dates stay, every task with another id or
    another owner stays as it is, the database is unchanged when the id
    names no task of the user, and, ids being unique, the user's task
    with that id gets the [completed] that was sent. *)
Theorem patch_changes_only_an_own_task
  (v : revision) (auth : option string) (user : Payload) (id : ObjectId)
  (completed : bool) (w : world database) :
  authenticateToken O auth = inr user ->
  quiet 1 w ->
  exists w',
    handle O v (PatchTask auth id (Some completed)) w
    = (Ok (res_json success_body), w') /\
    map (fun t => (t_id t, t_userId t, t_title t, t_createdAt t)) (tasks (db w'))
    = map (fun t => (t_id t, t_userId t, t_title t, t_createdAt t)) (tasks (db w)) /\
    (forall t, In t (tasks (db w)) ->
               t_id t <> id \/ t_userId t <> pl_id user ->
               In t (tasks (db w'))) /\
    ((forall t, In t (tasks (db w)) -> t_id t = id -> t_userId t <> pl_id user) ->
     db w' = db w) /\
    (NoDup (map t_id (tasks (db w))) ->
     forall t, In t (tasks (db w)) -> t_id t = id -> t_userId t = pl_id user ->
               In (mkTask (t_id t) (t_userId t) (t_title t) completed (t_createdAt t))
                  (tasks (db w'))).
Proof.
  intros Ha Hq. eexists. split; [| split; [| split; [| split]]].
  - rewrite (handle_as user v _ auth) by (reflexivity || exact Ha).
    unfold run. apply try_catch_Ok. cbn [try_block]. unfold tasks_patch_try.
    rewrite (bind_Ok _ _ _ _ _ (Task_findOneAndUpdate_quiet id (pl_id user) completed w Hq)).
    reflexivity.
  - cbn [db set_db tasks]. now apply update_first_map.
  - cbn [db set_db tasks]. intros t Hin Hne. apply update_first_other; [exact Hin |].
    apply andb_false_iff.
    destruct Hne as [Hne | Hne]; [left | right]; now apply Nat.eqb_neq.
  - cbn [db set_db tasks]. intros Hnone.
    rewrite update_first_none.
    + now destruct w as [[] ? ? ? ? ?].
    + intros t Hin. apply andb_false_iff.
      destruct (Nat.eqb (t_id t) id) eqn:Ei; [right | now left].
      apply Nat.eqb_neq. apply Hnone; [exact Hin | now apply Nat.eqb_eq].
  - cbn [db set_db tasks]. intros Hnd t Hin Hi Hu.
    apply (update_first_hit t_id
             (fun t => Nat.eqb (t_id t) id && Nat.eqb (t_userId t) (pl_id user))
             (fun t => mkTask (t_id t) (t_userId t) (t_title t) completed
                              (t_createdAt t))); try assumption.
    + intros x y Hx Hy.
      apply andb_true_iff in Hx as [Hx _]. apply andb_true_iff in Hy as [Hy _].
      apply Nat.eqb_eq in Hx, Hy. congruence.
    + rewrite Hi, Hu, !Nat.eqb_refl. reflexivity.
Qed.

End Deletes.

Lemma deleted_conversation_is_gone_witness :
  exists w',
    handle Sample.answering ServerTs
      (DeleteConversation Sample.alice_header 10)
      (Sample.world_of Sample.mongo_shared)
    = (Ok (res_json success_body), w') /\
    handle Sample.answering ServerTs
      (GetMessages Sample.alice_header (Some 10)) (set_faults [] w')
    = (Ok (res_json (JArr [])), after_db_op (set_faults [] w')).
Proof.
  assert (Hids : NoDup (map c_id (conversations
                                   (db (Sample.world_of Sample.mongo_shared))))).
  { cbn. repeat constructor; cbn; intuition discriminate. }
  destruct (deleted_conversation_is_gone Sample.answering ServerTs
              Sample.alice_header Sample.alice 10
              (Sample.world_of Sample.mongo_shared) eq_refl eq_refl Hids)
    as (w' & Hrun & Hlater).
  exists w'. split; [exact Hrun |].
  exact (proj1 (Hlater (set_faults [] w') (conj eq_refl eq_refl))).
Defined.

Lemma failed_delete_keeps_the_conversation_witness :
  exists w',
    handle Sample.answering Part001
      (DeleteConversation Sample.alice_header 10)
      (Sample.failing_second Sample.mongo_shared)
    = (Ok (res_error 500 "Failed to delete conversation"), w') /\
    conversations (db w') = conversations Sample.mongo_shared /\
    messages (db w') = [mkMessage 21 20 2 RoleUser "Yo" 951%Z].
Proof.
  destruct (failed_delete_keeps_the_conversation Sample.answering Part001
              Sample.alice_header Sample.alice 10
              (Sample.failing_second Sample.mongo_shared) [] eq_refl eq_refl)
    as (w' & Hrun & Hc & Hm).
  exists w'. split; [exact Hrun |]. split; [exact Hc |].
  rewrite Hm. reflexivity.
Defined.

(** Alice names Bob's task 23: the answer is a success and nothing
    changed. *)
Lemma patch_changes_only_an_own_task_witness :
  exists w',
    handle Sample.answering Part001
      (PatchTask Sample.alice_header 23 (Some false))
      (Sample.world_of Sample.mongo_shared)
    = (Ok (res_json success_body), w') /\
    db w' = Sample.mongo_shared.
Proof.
  destruct (patch_changes_only_an_own_task Sample.answering Part001
              Sample.alice_header Sample.alice 23 false
              (Sample.world_of Sample.mongo_shared) eq_refl eq_refl)
    as (w' & Hrun & _ & _ & Hsame & _).
  exists w'. split; [exact Hrun |].
  apply Hsame. intros t [<- | [<- | []]] Hid; [discriminate Hid | discriminate].
Defined.

End MongoDeletes.

(** ** The replies of the model *)

Module ModelFacts.
Import Mongo RuntimeFacts.

(** *** The loop over the parts of the model's reply *)

Lemma first_inlineData_skips before q after i :
  Forall (fun p => part_inlineData p = None) before ->
  part_inlineData q = Some i ->
  first_inlineData (before ++ q :: after)%list = Some i.
Proof.
  intros Hb Hq. induction Hb as [| p t Hp Ht IH]; cbn; [now rewrite Hq |].
  now rewrite Hp.
Qed.

Lemma first_inlineData_None ps :
  first_inlineData ps = None <-> Forall (fun p => part_inlineData p = None) ps.
Proof.
  induction ps as [| p t IH]; cbn.
  - split; [constructor | reflexivity].
  - destruct (part_inlineData p) eqn:E.
    + split; [discriminate |]. intros H. inversion H; congruence.
    + rewrite IH. split; [now constructor | intros H; now inversion H].
Qed.

Section Image.

Variable O : Oracles.

(** X11.  What [part_001] does with the reply of the image model.  It
    looks at the parts of the first candidate only and answers with the
    first part that carries [inlineData], whatever text parts come
    before it and whatever comes after; when no part of the first
    candidate carries [inlineData], the answer is 500 "No image
    generated in response". *)
Theorem image_route_uses_the_first_inline_part
  (auth : option string) (user : Payload) (prompt : option string) (p : string)
  (w : world database) (res : GenerateContentResponse) :
  authenticateToken O auth = inr user ->
  truthy prompt = Some p ->
  generateContent O (image_model Part001) p = Ok res ->
  exists resp,
    handle O Part001 (PostGenerateImage auth prompt) w = (Ok resp, w) /\
    (forall c rest before q after i,
       candidates res = Some (c :: rest) ->
       cand_parts c = Some (Some (before ++ q :: after)%list) ->
       Forall (fun p' => part_inlineData p' = None) before ->
       part_inlineData q = Some i ->
       resp = res_json (JObj [("imageUrl", JStr (imageUrl i))])) /\
    ((forall c rest ps,
        candidates res = Some (c :: rest) ->
        cand_parts c = Some (Some ps) ->
        Forall (fun p' => part_inlineData p' = None) ps) ->
     resp = res_error 500 "No image generated in response").
Proof.
  intros Ha Hp Hres.
  assert (Hrun : handle O Part001 (PostGenerateImage auth prompt) w =
                 (Ok match first_candidate_parts res with
                     | Some ps =>
                         match first_inlineData ps with
                         | Some i => res_json (JObj [("imageUrl", JStr (imageUrl i))])
                         | None => res_error 500 "No image generated in response"
                         end
                     | None => res_error 500 "No image generated in response"
                     end, w)).
  { unfold handle. cbn [protected]. rewrite Ha.
    unfold run, try_catch. cbn [try_block]. unfold generate_image_try_part_001.
    rewrite Hp. cbn [image_model] in Hres. unfold bind. rewrite Hres.
    cbn [lift_outcome]. unfold ret.
    destruct (first_candidate_parts res) as [ps |]; [| reflexivity].
    now destruct (first_inlineData ps). }
  eexists. split; [exact Hrun |]. split.
  - intros c rest before q after i Hc Hps Hb Hq.
    unfold first_candidate_parts. rewrite Hc, Hps.
    now rewrite (first_inlineData_skips before q after i Hb Hq).
  - intros Hnone. unfold first_candidate_parts.
    destruct (candidates res) as [[| c rest] |]; try reflexivity.
    destruct (cand_parts c) as [[ps |] |] eqn:Ec; try reflexivity.
    specialize (Hnone c rest ps eq_refl Ec).
    apply first_inlineData_None in Hnone. now rewrite Hnone.
Qed.

End Image.

Section ImageOnly.

Variable O : Oracles.

(** X12.  A chat request with an image and no text.  [src/server.ts]
    refuses it with 400 "Message text is required" and writes nothing.
    [part_001] accepts it: it stores ["[Image attached]"] as the user's
    message, sends the model the image alone, and stores and returns the
    reply. *)
Theorem image_only_chat_by_revision
  (auth : option string) (user : Payload) (b : chat_body) (i : InlineData)
  (cid : ObjectId) (h : list HistoryMsg) (reply : string) (w : world database) :
  authenticateToken O auth = inr user ->
  truthy (cb_text b) = None ->
  cb_image b = Some i ->
  cb_conversationId b = Some cid ->
  chat_history Part001 b = Some h ->
  quiet 3 w ->
  sendMessage O "gemini-3-flash-preview" (map format_history h)
    (SendParts [mkPart None (Some (mkInlineData (data i) (mimeType i)))])
  = Ok reply ->
  (reply =? "") = false ->
  handle O ServerTs (PostChat auth b) w
  = (Ok (res_error 400 "Message text is required"), w) /\
  exists w',
    handle O Part001 (PostChat auth b) w
    = (Ok (res_json (JObj [("text", JStr reply)])), w') /\
    messages (db w') =
    (messages (db w) ++
     [mkMessage (next_id (db w)) cid (pl_id user) RoleUser "[Image attached]"
                (clock w (ticks w));
      mkMessage (S (next_id (db w))) cid (pl_id user) RoleAi reply
                (clock w (S (S (ticks w))))])%list.
Proof.
  intros Ha Ht Hi Hc Hh Hq Hm Hne. split.
  - unfold handle. cbn [protected]. rewrite Ha.
    unfold run, try_catch. cbn [try_block]. unfold chat_try_server_ts.
    now rewrite Ht.
  - assert (Hut : user_text Part001 b = Some "[Image attached]").
    { cbn [user_text]. rewrite Ht, Hi. f_equal.
      destruct (cb_text b) as [t |]; cbn in *; [| reflexivity].
      now destruct (t =? ""). }
    assert (Hparts : chat_parts (cb_text b) (cb_image b)
                     = [mkPart None (Some (mkInlineData (data i) (mimeType i)))]).
    { unfold chat_parts. now rewrite Ht, Hi. }
    eexists. split.
    + unfold handle. cbn [protected]. rewrite Ha. unfold run.
      apply try_catch_Ok.
      rewrite (MongoFacts.chat_try_until_model O Part001 user b w
                 "[Image attached]" cid h (quiet_pred 2 w Hq) Hut Hc Hh).
      unfold model_reply. cbn [chat_model chat_message]. rewrite Hparts, Hm.
      cbn [lift_outcome]. unfold bind at 1. unfold ret at 1.
      assert (Hq3 : quiet 1 (world_at_model_call w cid (pl_id user)
                               "[Image attached]")).
      { apply (quiet_tail 1 (after_db_op w)); [| reflexivity].
        apply (quiet_tail 2 w); [exact Hq | reflexivity]. }
      rewrite (bind_Ok _ _ _ _ _
                 (MongoFacts.Message_save_quiet _ cid (pl_id user) RoleAi reply
                    Hq3 Hne)).
      reflexivity.
    + cbn [db messages world_at_model_call next_id user_message clock ticks].
      now rewrite <- app_assoc.
Qed.

End ImageOnly.

(** The sample model answers with a text part and then a PNG: the PNG
    is what Alice gets. *)
Lemma image_route_uses_the_first_inline_part_witness :
  exists resp,
    handle Sample.answering Part001
      (PostGenerateImage Sample.alice_header (Some "a cat"))
      (Sample.world_of Sample.mongo_alice)
    = (Ok resp, Sample.world_of Sample.mongo_alice) /\
    resp = res_json
             (JObj [("imageUrl", JStr "data:image/png;base64,iVBORw0KGgo=")]).
Proof.
  destruct (image_route_uses_the_first_inline_part Sample.answering
              Sample.alice_header Sample.alice (Some "a cat") "a cat"
              (Sample.world_of Sample.mongo_alice) _ eq_refl eq_refl eq_refl)
    as (resp & Hrun & Hfirst & _).
  exists resp. split; [exact Hrun |].
  apply (Hfirst
           (mkCandidate (Some (Some [mkPart (Some "Here you go") None;
                                     mkPart None (Some Sample.png)])))
           [] [mkPart (Some "Here you go") None]
           (mkPart None (Some Sample.png)) [] Sample.png);
    try reflexivity.
  repeat constructor.
Defined.

(** Alice sends a PNG and no text. *)
Lemma image_only_chat_by_revision_witness :
  handle Sample.answering ServerTs
    (PostChat Sample.alice_header
       (mkChatBody (Some 10) None (Some []) (Some Sample.png)))
    (Sample.world_of Sample.mongo_alice)
  = (Ok (res_error 400 "Message text is required"),
     Sample.world_of Sample.mongo_alice) /\
  exists w',
    handle Sample.answering Part001
      (PostChat Sample.alice_header
         (mkChatBody (Some 10) None (Some []) (Some Sample.png)))
      (Sample.world_of Sample.mongo_alice)
    = (Ok (res_json (JObj [("text", JStr "Hello, human.")])), w') /\
    map m_text (messages (db w')) = ["[Image attached]"; "Hello, human."].
Proof.
  destruct (image_only_chat_by_revision Sample.answering
              Sample.alice_header Sample.alice
              (mkChatBody (Some 10) None (Some []) (Some Sample.png))
              Sample.png 10 [] "Hello, human."
              (Sample.world_of Sample.mongo_alice)
              eq_refl eq_refl eq_refl eq_refl eq_refl eq_refl eq_refl eq_refl)
    as (H400 & w' & Hrun & Hmsgs).
  split; [exact H400 |]. exists w'. split; [exact Hrun |].
  rewrite Hmsgs. reflexivity.
Defined.

End ModelFacts.

(** ** The order and the content of the lists *)


Module OrderFacts.
Import RuntimeFacts.

Section Sorting.

Context {A : Type} (le : A -> A -> bool) (R : A -> A -> Prop).
Hypothesis le_R : forall x y, le x y = true -> R x y.
Hypothesis le_total : forall x y, le x y = false -> R y x.
Hypothesis R_trans : forall x y z, R x y -> R y z -> R x z.

Lemma insert_by_Permutation x l : Permutation (insert_by le x l) (x :: l).
Proof.
  induction l as [| y t IH]; cbn; [reflexivity |].
  destruct (le x y); [reflexivity |].
  rewrite IH. apply perm_swap.
Qed.

Lemma sort_by_Permutation l : Permutation (sort_by le l) l.
Proof.
  induction l as [| x t IH]; cbn; [reflexivity |].
  rewrite insert_by_Permutation. now constructor.
Qed.

Lemma insert_by_sorted x l :
  StronglySorted R l -> StronglySorted R (insert_by le x l).
Proof.
  induction 1 as [| y t Ht IH Hy]; cbn.
  - constructor; constructor.
  - destruct (le x y) eqn:E.
    + constructor; [now constructor |].
      constructor; [now apply le_R |].
      rewrite Forall_forall in *. intros z Hz.
      apply (R_trans x y z); [now apply le_R | now apply Hy].
    + constructor; [exact IH |].
      rewrite Forall_forall in *. intros z Hz.
      apply insert_by_In in Hz as [-> | Hz]; [now apply le_total | now apply Hy].
Qed.

Lemma sort_by_sorted l : StronglySorted R (sort_by le l).
Proof.
  induction l as [| x t IH]; cbn; [constructor | now apply insert_by_sorted].
Qed.

End Sorting.

Lemma ascending_sorted {A} (key : A -> Z) (l : list A) :
  StronglySorted (fun a b => (key a <= key b)%Z) (sort_by (ascending key) l).
Proof.
  apply sort_by_sorted; unfold ascending.
  - intros x y H. now apply Z.leb_le.
  - intros x y H. apply Z.leb_gt in H. now apply Z.lt_le_incl.
  - intros x y z. apply Z.le_trans.
Qed.

Lemma descending_sorted {A} (key : A -> Z) (l : list A) :
  StronglySorted (fun a b => (key b <= key a)%Z) (sort_by (descending key) l).
Proof.
  apply sort_by_sorted; unfold descending.
  - intros x y H. now apply Z.leb_le.
  - intros x y H. apply Z.leb_gt in H. now apply Z.lt_le_incl.
  - intros x y z H1 H2. now apply (Z.le_trans _ (key y)).
Qed.

Section MongoLists.
Import Mongo.

Variable O : Oracles.

(** X13.  The list routes of [src/server.ts] and [part_001] return
    everything the user owns, in order.  When the query succeeds, the
    answer of [GET /api/conversations], [GET /api/messages] (for a
    conversation), [GET /api/projects] and [GET /api/tasks] holds
    exactly the stored records of the user (of that conversation, for
    messages), each as often as it is stored: conversations by
    [updatedAt], newest first; messages by [timestamp], oldest first;
    projects and tasks by [createdAt], newest first. *)
Theorem lists_are_complete_and_ordered
  (v : revision) (auth : option string) (user : Payload) (w : world database) :
  authenticateToken O auth = inr user ->
  quiet 1 w ->
  (exists l,
     handle O v (GetConversations auth) w
     = (Ok (res_json (JArr (map Conversation_summary l))), after_db_op w) /\
     Permutation l (filter (fun c => Nat.eqb (c_userId c) (pl_id user))
                           (conversations (db w))) /\
     StronglySorted (fun a b => (c_updatedAt b <= c_updatedAt a)%Z) l) /\
  (forall cid, exists l,
     handle O v (GetMessages auth (Some cid)) w
     = (Ok (res_json (JArr (map Message_toJSON l))), after_db_op w) /\
     Permutation l (filter (fun m => Nat.eqb (m_userId m) (pl_id user) &&
                                     Nat.eqb (m_conversationId m) cid)
                           (messages (db w))) /\
     StronglySorted (fun a b => (m_timestamp a <= m_timestamp b)%Z) l) /\
  (exists l,
     handle O v (GetProjects auth) w
     = (Ok (res_json (JArr (map Project_toJSON l))), after_db_op w) /\
     Permutation l (filter (fun p => Nat.eqb (p_userId p) (pl_id user))
                           (projects (db w))) /\
     StronglySorted (fun a b => (p_createdAt b <= p_createdAt a)%Z) l) /\
  (exists l,
     handle O v (GetTasks auth) w
     = (Ok (res_json (JArr (map Task_toJSON l))), after_db_op w) /\
     Permutation l (filter (fun t => Nat.eqb (t_userId t) (pl_id user))
                           (tasks (db w))) /\
     StronglySorted (fun a b => (t_createdAt b <= t_createdAt a)%Z) l).
Proof.
  intros Ha Hq.
  assert (Hh : forall r, protected r = Some auth ->
                         handle O v r w = run O v r user w).
  { intros r Hp. unfold handle. now rewrite Hp, Ha. }
  split; [| split; [| split]]; [| intros cid | |];
    eexists; (split; [rewrite Hh by reflexivity |
                      split; [apply sort_by_Permutation |]]).
  - apply (list_route_quiet
             (fun d => sort_by (descending c_updatedAt)
                         (filter (fun c => Nat.eqb (c_userId c) (pl_id user))
                                 (conversations d)))).
    exact Hq.
  - apply descending_sorted.
  - apply (list_route_quiet
             (fun d => sort_by (ascending m_timestamp)
                         (filter (fun m => Nat.eqb (m_userId m) (pl_id user) &&
                                           Nat.eqb (m_conversationId m) cid)
                                 (messages d)))).
    exact Hq.
  - apply ascending_sorted.
  - apply (list_route_quiet
             (fun d => sort_by (descending p_createdAt)
                         (filter (fun p => Nat.eqb (p_userId p) (pl_id user))
                                 (projects d)))).
    exact Hq.
  - apply descending_sorted.
  - apply (list_route_quiet
             (fun d => sort_by (descending t_createdAt)
                         (filter (fun t => Nat.eqb (t_userId t) (pl_id user))
                                 (tasks d)))).
    exact Hq.
  - apply descending_sorted.
Qed.

End MongoLists.

Section SqliteLists.
Import Sqlite.

(** X14.  The same for the list routes of the SQLite revision, for the
    [userId] of the query string: all rows of that user and no other,
    conversations by [updated_at] and projects and tasks by
    [created_at], newest first, messages by [timestamp], oldest
    first. *)
Theorem sqlite_lists_are_complete_and_ordered (uid : nat) (w : world database) :
  quiet 1 w ->
  (exists l,
     handle (GetConversations (Some uid)) w
     = (Ok (res_json (JArr (map conversation_toJSON l))), after_db_op w) /\
     Permutation l (filter (fun c => Nat.eqb (cr_user_id c) uid)
                           (conversations (db w))) /\
     StronglySorted (fun a b => (cr_updated_at b <= cr_updated_at a)%Z) l) /\
  (forall cid, exists l,
     handle (GetMessages (Some uid) (Some cid)) w
     = (Ok (res_json (JArr (map message_toJSON l))), after_db_op w) /\
     Permutation l (filter (fun m => Nat.eqb (mr_user_id m) uid &&
                                     Nat.eqb (mr_conversation_id m) cid)
                           (chat_messages (db w))) /\
     StronglySorted (fun a b => (mr_timestamp a <= mr_timestamp b)%Z) l) /\
  (exists l,
     handle (GetProjects (Some uid)) w
     = (Ok (res_json (JArr (map project_toJSON l))), after_db_op w) /\
     Permutation l (filter (fun p => Nat.eqb (pr_user_id p) uid)
                           (projects (db w))) /\
     StronglySorted (fun a b => (pr_created_at b <= pr_created_at a)%Z) l) /\
  (exists l,
     handle (GetTasks (Some uid)) w
     = (Ok (res_json (JArr (map task_toJSON l))), after_db_op w) /\
     Permutation l (filter (fun t => Nat.eqb (tr_user_id t) uid)
                           (tasks (db w))) /\
     StronglySorted (fun a b => (tr_created_at b <= tr_created_at a)%Z) l).
Proof.
  intros Hq.
  split; [| split; [| split]]; [| intros cid | |];
    eexists; (split; [| split; [apply sort_by_Permutation |]]).
  - apply (list_route_quiet
             (fun d => sort_by (descending cr_updated_at)
                         (filter (fun c => Nat.eqb (cr_user_id c) uid)
                                 (conversations d)))).
    exact Hq.
  - apply descending_sorted.
  - apply (list_route_quiet
             (fun d => sort_by (ascending mr_timestamp)
                         (filter (fun m => Nat.eqb (mr_user_id m) uid &&
                                           Nat.eqb (mr_conversation_id m) cid)
                                 (chat_messages d)))).
    exact Hq.
  - apply ascending_sorted.
  - apply (list_route_quiet
             (fun d => sort_by (descending pr_created_at)
                         (filter (fun p => Nat.eqb (pr_user_id p) uid)
                                 (projects d)))).
    exact Hq.
  - apply descending_sorted.
  - apply (list_route_quiet
             (fun d => sort_by (descending tr_created_at)
                         (filter (fun t => Nat.eqb (tr_user_id t) uid)
                                 (tasks d)))).
    exact Hq.
  - apply descending_sorted.
Qed.

End SqliteLists.

Lemma lists_are_complete_and_ordered_witness :
  exists l,
    Mongo.handle Sample.answering Mongo.Part001
      (Mongo.GetTasks Sample.alice_header) (Sample.world_of Sample.mongo_shared)
    = (Ok (res_json (JArr (map Mongo.Task_toJSON l))),
       after_db_op (Sample.world_of Sample.mongo_shared)) /\
    Permutation l [Mongo.mkTask 13 1 "Follow the rabbit" false 903%Z].
Proof.
  destruct (lists_are_complete_and_ordered Sample.answering Mongo.Part001
              Sample.alice_header Sample.alice
              (Sample.world_of Sample.mongo_shared) eq_refl eq_refl)
    as (_ & _ & _ & l & Hrun & Hperm & _).
  exists l. split; [exact Hrun | exact Hperm].
Defined.

Lemma sqlite_lists_are_complete_and_ordered_witness :
  exists l,
    Sqlite.handle (Sqlite.GetConversations (Some 2))
      (Sample.world_of Sample.sqlite_shared)
    = (Ok (res_json (JArr (map Sqlite.conversation_toJSON l))),
       after_db_op (Sample.world_of Sample.sqlite_shared)) /\
    Permutation l [Sqlite.mkConversationRow 2 2 "Bob's chat" 950%Z].
Proof.
  destruct (sqlite_lists_are_complete_and_ordered 2
              (Sample.world_of Sample.sqlite_shared) eq_refl)
    as ((l & Hrun & Hperm & _) & _).
  exists l. split; [exact Hrun | exact Hperm].
Defined.

End OrderFacts.

(** ** Writes of the SQLite server *)

Module SqliteWrites.
Import Sqlite RuntimeFacts ListFacts.

Ltac open_world w :=
  let d := fresh "d" in
  destruct w as [d ? ? ? ? ?]; destruct d as [? ? ? ? ? ? ? ? ? ?].

Ltac run_all :=
  unfold exec, bind, await_db, get_db, put_db, ret, throw, Date_now,
         random_below, set_db, set_faults;
  cbn [db faults clock ticks random draws users conversations chat_messages
       projects tasks seq_users seq_conversations seq_chat_messages
       seq_projects seq_tasks].

Lemma update_task_quiet flag id w :
  quiet 1 w ->
  update_task flag id w =
  (Ok tt,
   set_db (mkDatabase (users (db w)) (conversations (db w))
             (chat_messages (db w)) (projects (db w))
             (map (fun t => if Nat.eqb (tr_id t) id
                            then mkTaskRow (tr_id t) (tr_user_id t) (tr_title t)
                                           flag (tr_created_at t)
                            else t)
                  (tasks (db w)))
             (seq_users (db w)) (seq_conversations (db w))
             (seq_chat_messages (db w)) (seq_projects (db w)) (seq_tasks (db w)))
          (after_db_op w)).
Proof.
  intros Hq. unfold update_task, exec.
  rewrite (bind_Ok _ _ _ _ _ (await_db_quiet w Hq)). reflexivity.
Qed.

(** X15.  [PATCH /api/tasks/:id] of the SQLite revision asks for no
    user: when its statement succeeds it answers [{ success: true }] and
    the task with that id, whoever owns it, has [completed] set to 1 for
    a truthy value and to 0 otherwise; the other tasks stay and no task
    is added or removed. *)
Theorem sqlite_patch_reaches_any_task
  (id : nat) (completed : option bool) (w : world database) :
  quiet 1 w ->
  let flag := match completed with Some true => 1%Z | _ => 0%Z end in
  exists w',
    handle (PatchTask id completed) w = (Ok (res_json success_body), w') /\
    (forall t, In t (tasks (db w)) -> tr_id t = id ->
       In (mkTaskRow (tr_id t) (tr_user_id t) (tr_title t) flag (tr_created_at t))
          (tasks (db w'))) /\
    (forall t, In t (tasks (db w)) -> tr_id t <> id -> In t (tasks (db w'))) /\
    List.length (tasks (db w')) = List.length (tasks (db w)).
Proof.
  intros Hq flag. eexists. split; [| split; [| split]].
  - unfold handle. apply try_catch_Ok. cbn [try_block]. unfold tasks_patch_try.
    rewrite (bind_Ok _ _ _ _ _ (update_task_quiet flag id w Hq)). reflexivity.
  - cbn [db set_db tasks]. intros t Hin Hid.
    apply in_map_iff. exists t. split; [| exact Hin].
    now rewrite Hid, Nat.eqb_refl.
  - cbn [db set_db tasks]. intros t Hin Hid.
    apply in_map_iff. exists t. split; [| exact Hin].
    apply Nat.eqb_neq in Hid. now rewrite Hid.
  - cbn [db set_db tasks]. apply length_map.
Qed.

(** X16.  The SQLite revision without a [userId].  The list routes
    answer 200 with an empty array (so does [GET /api/messages] without
    a [conversationId]); creating a conversation, project or task and
    both delete routes answer 401 "Unauthorized"; [POST /api/messages]
    without a [userId] or a [conversationId] answers 400 "Missing
    fields".  None of them touches the database. *)
Theorem sqlite_requests_without_a_user (w : world database) :
  handle (GetConversations None) w = (Ok (res_json (JArr [])), w) /\
  handle (GetProjects None) w = (Ok (res_json (JArr [])), w) /\
  handle (GetTasks None) w = (Ok (res_json (JArr [])), w) /\
  (forall uid cid,
     uid = None \/ cid = None ->
     handle (GetMessages uid cid) w = (Ok (res_json (JArr [])), w)) /\
  (forall uid title,
     truthy_number uid = None ->
     handle (PostConversations uid title) w
     = (Ok (res_error 401 "Unauthorized"), w) /\
     handle (PostTasks uid title) w = (Ok (res_error 401 "Unauthorized"), w)) /\
  (forall b,
     truthy_number (pb_userId b) = None ->
     handle (PostProjects b) w = (Ok (res_error 401 "Unauthorized"), w)) /\
  (forall id,
     handle (DeleteConversation id None) w
     = (Ok (res_error 401 "Unauthorized"), w)) /\
  handle (DeleteMessages None) w = (Ok (res_error 401 "Unauthorized"), w) /\
  (forall b,
     truthy_number (mb_userId b) = None \/
     truthy_number (mb_conversationId b) = None ->
     handle (PostMessages b) w = (Ok (res_error 400 "Missing fields"), w)).
Proof.
  repeat (split; [reflexivity |]).
  split; [| split; [| split; [| split; [| split]]]].
  - intros uid cid [-> | ->]; [reflexivity | now destruct uid].
  - intros uid title Hu.
    unfold handle, try_catch; cbn [try_block].
    unfold conversations_post_try, tasks_post_try. now rewrite Hu.
  - intros b Hu. unfold handle, try_catch; cbn [try_block].
    unfold projects_post_try. now rewrite Hu.
  - reflexivity.
  - reflexivity.
  - intros b Hb. unfold handle, try_catch. cbn [try_block].
    unfold messages_post_try.
    destruct Hb as [-> | Hb]; [reflexivity |].
    rewrite Hb. now destruct (truthy_number (mb_userId b)).
Qed.

(** *** Deleting *)

Lemma delete_user_messages_quiet uid w :
  quiet 1 w ->
  delete_user_messages uid w =
  (Ok tt,
   set_db (mkDatabase (users (db w)) (conversations (db w))
             (filter (fun m => negb (Nat.eqb (mr_user_id m) uid))
                     (chat_messages (db w)))
             (projects (db w)) (tasks (db w))
             (seq_users (db w)) (seq_conversations (db w))
             (seq_chat_messages (db w)) (seq_projects (db w)) (seq_tasks (db w)))
          (after_db_op w)).
Proof.
  intros Hq. unfold delete_user_messages, exec.
  rewrite (bind_Ok _ _ _ _ _ (await_db_quiet w Hq)). reflexivity.
Qed.

Lemma delete_user_conversations_quiet uid w :
  quiet 1 w ->
  existsb (fun c => Nat.eqb (cr_user_id c) uid &&
                    referenced (chat_messages (db w)) c)
          (conversations (db w)) = false ->
  delete_user_conversations uid w =
  (Ok tt,
   set_db (mkDatabase (users (db w))
             (filter (fun c => negb (Nat.eqb (cr_user_id c) uid))
                     (conversations (db w)))
             (chat_messages (db w)) (projects (db w)) (tasks (db w))
             (seq_users (db w)) (seq_conversations (db w))
             (seq_chat_messages (db w)) (seq_projects (db w)) (seq_tasks (db w)))
          (after_db_op w)).
Proof.
  intros Hq Hfree. unfold delete_user_conversations, exec.
  rewrite (bind_Ok _ _ _ _ _ (await_db_quiet w Hq)).
  unfold bind, get_db. cbn [db after_db_op set_faults]. now rewrite Hfree.
Qed.

Lemma delete_conversation_messages_quiet id uid w :
  quiet 1 w ->
  delete_conversation_messages id uid w =
  (Ok tt,
   set_db (mkDatabase (users (db w)) (conversations (db w))
             (filter (fun m => negb (Nat.eqb (mr_conversation_id m) id &&
                                     Nat.eqb (mr_user_id m) uid))
                     (chat_messages (db w)))
             (projects (db w)) (tasks (db w))
             (seq_users (db w)) (seq_conversations (db w))
             (seq_chat_messages (db w)) (seq_projects (db w)) (seq_tasks (db w)))
          (after_db_op w)).
Proof.
  intros Hq. unfold delete_conversation_messages, exec.
  rewrite (bind_Ok _ _ _ _ _ (await_db_quiet w Hq)). reflexivity.
Qed.

Lemma delete_conversation_quiet id uid w :
  quiet 1 w ->
  existsb (fun c => Nat.eqb (cr_id c) id && Nat.eqb (cr_user_id c) uid &&
                    referenced (chat_messages (db w)) c)
          (conversations (db w)) = false ->
  delete_conversation id uid w =
  (Ok tt,
   set_db (mkDatabase (users (db w))
             (filter (fun c => negb (Nat.eqb (cr_id c) id &&
                                     Nat.eqb (cr_user_id c) uid))
                     (conversations (db w)))
             (chat_messages (db w)) (projects (db w)) (tasks (db w))
             (seq_users (db w)) (seq_conversations (db w))
             (seq_chat_messages (db w)) (seq_projects (db w)) (seq_tasks (db w)))
          (after_db_op w)).
Proof.
  intros Hq Hfree. unfold delete_conversation, exec.
  rewrite (bind_Ok _ _ _ _ _ (await_db_quiet w Hq)).
  unfold bind, get_db. cbn [db after_db_op set_faults]. now rewrite Hfree.
Qed.

Lemma delete_conversation_blocked id uid w :
  quiet 1 w ->
  existsb (fun c => Nat.eqb (cr_id c) id && Nat.eqb (cr_user_id c) uid &&
                    referenced (chat_messages (db w)) c)
          (conversations (db w)) = true ->
  delete_conversation id uid w = (Throw foreign_key, after_db_op w).
Proof.
  intros Hq Hheld. unfold delete_conversation, exec.
  rewrite (bind_Ok _ _ _ _ _ (await_db_quiet w Hq)).
  unfold bind, get_db. cbn [db after_db_op set_faults]. now rewrite Hheld.
Qed.

(** No row of [cs] picked by [pick] is named by a message that is left
    after the messages picked by [gone] are deleted, when every message
    that names such a row is picked by [gone]. *)
Lemma unreferenced_after_delete
  (pick : conversation_row -> bool) (gone : chat_message_row -> bool)
  (cs : list conversation_row) (ms : list chat_message_row) :
  (forall c m, In c cs -> In m ms -> pick c = true ->
               mr_conversation_id m = cr_id c -> gone m = true) ->
  existsb (fun c => pick c &&
                    referenced (filter (fun m => negb (gone m)) ms) c) cs
  = false.
Proof.
  intros Hown.
  destruct (existsb _ cs) eqn:E; [exfalso | reflexivity].
  apply existsb_exists in E as (c & Hc & E).
  apply andb_true_iff in E as [Hp Hr].
  apply existsb_exists in Hr as (m & Hm & Em).
  apply filter_In in Hm as [Hm Hkeep]. apply Nat.eqb_eq in Em.
  rewrite (Hown c m Hc Hm Hp Em) in Hkeep. discriminate Hkeep.
Qed.

Lemma sqlite_conversations_get_quiet uid w :
  quiet 1 w ->
  handle (GetConversations (Some uid)) w =
  (Ok (res_json (JArr (map conversation_toJSON
         (sort_by (descending cr_updated_at)
            (filter (fun c => Nat.eqb (cr_user_id c) uid)
                    (conversations (db w))))))),
   after_db_op w).
Proof.
  intros Hq.
  apply (list_route_quiet
           (fun d => sort_by (descending cr_updated_at)
                       (filter (fun c => Nat.eqb (cr_user_id c) uid)
                               (conversations d)))).
  exact Hq.
Qed.

Lemma sqlite_messages_get_quiet uid cid w :
  quiet 1 w ->
  handle (GetMessages (Some uid) (Some cid)) w =
  (Ok (res_json (JArr (map message_toJSON
         (sort_by (ascending mr_timestamp)
            (filter (fun m => Nat.eqb (mr_user_id m) uid &&
                              Nat.eqb (mr_conversation_id m) cid)
                    (chat_messages (db w))))))),
   after_db_op w).
Proof.
  intros Hq.
  apply (list_route_quiet
           (fun d => sort_by (ascending mr_timestamp)
                       (filter (fun m => Nat.eqb (mr_user_id m) uid &&
                                         Nat.eqb (mr_conversation_id m) cid)
                               (chat_messages d)))).
  exact Hq.
Qed.

Lemma filter_none_left {A} (f g : A -> bool) (l : list A) :
  (forall a, g a = true -> f a = true) ->
  filter g (filter (fun a => negb (f a)) l) = [].
Proof.
  intros Hfg. induction l as [| a t IH]; cbn; [reflexivity |].
  destruct (f a) eqn:Ef; cbn; [exact IH |].
  destruct (g a) eqn:Eg; [| exact IH].
  rewrite (Hfg a Eg) in Ef. discriminate Ef.
Qed.

Lemma filter_others_kept {A} (f g : A -> bool) (l : list A) :
  (forall a, g a = true -> f a = false) ->
  filter g (filter (fun a => negb (f a)) l) = filter g l.
Proof.
  intros Hfg. induction l as [| a t IH]; cbn; [reflexivity |].
  destruct (f a) eqn:Ef; cbn.
  - destruct (g a) eqn:Eg; [| exact IH].
    rewrite (Hfg a Eg) in Ef. discriminate Ef.
  - now rewrite IH.
Qed.

(** X17.  [DELETE /api/messages] of the SQLite revision clears the
    history of one user.  When its two statements succeed and the
    messages in the user's conversations are the user's own (otherwise a
    foreign key holds a conversation back), the answer is
    [{ success: true }]; the conversations and messages of every other
    user, the accounts, the projects and the tasks stay, and afterwards
    the user's [GET /api/conversations] and [GET /api/messages] are
    empty. *)
Theorem sqlite_delete_all_empties_the_history (uid : nat) (w : world database) :
  quiet 2 w ->
  (forall c m, In c (conversations (db w)) -> In m (chat_messages (db w)) ->
               cr_user_id c = uid -> mr_conversation_id m = cr_id c ->
               mr_user_id m = uid) ->
  exists w',
    handle (DeleteMessages (Some uid)) w = (Ok (res_json success_body), w') /\
    (forall other, other <> uid ->
       filter (fun c => Nat.eqb (cr_user_id c) other) (conversations (db w')) =
       filter (fun c => Nat.eqb (cr_user_id c) other) (conversations (db w)) /\
       filter (fun m => Nat.eqb (mr_user_id m) other) (chat_messages (db w')) =
       filter (fun m => Nat.eqb (mr_user_id m) other) (chat_messages (db w))) /\
    users (db w') = users (db w) /\
    projects (db w') = projects (db w) /\
    tasks (db w') = tasks (db w) /\
    forall w2, later w' w2 ->
      handle (GetConversations (Some uid)) w2
      = (Ok (res_json (JArr [])), after_db_op w2) /\
      forall cid,
        handle (GetMessages (Some uid) (Some cid)) w2
        = (Ok (res_json (JArr [])), after_db_op w2).
Proof.
  intros Hq Hown.
  assert (Hq1 : quiet 1 w) by now apply quiet_pred.
  assert (Hfree :
    existsb (fun c => Nat.eqb (cr_user_id c) uid &&
                      referenced
                        (filter (fun m => negb (Nat.eqb (mr_user_id m) uid))
                                (chat_messages (db w))) c)
            (conversations (db w)) = false).
  { apply (unreferenced_after_delete
             (fun c => Nat.eqb (cr_user_id c) uid)
             (fun m => Nat.eqb (mr_user_id m) uid)).
    intros c m Hc Hm Hp Em. apply Nat.eqb_eq in Hp. apply Nat.eqb_eq.
    exact (Hown c m Hc Hm Hp Em). }
  eexists. split; [| split; [| split; [| split; [| split]]]].
  - unfold handle. apply try_catch_Ok. cbn [try_block]. unfold messages_delete_try.
    rewrite (bind_Ok _ _ _ _ _ (delete_user_messages_quiet uid w Hq1)).
    rewrite (bind_Ok _ _ _ _ _
               (delete_user_conversations_quiet uid
                  (set_db
                     (mkDatabase (users (db w)) (conversations (db w))
                        (filter (fun m => negb (Nat.eqb (mr_user_id m) uid))
                                (chat_messages (db w)))
                        (projects (db w)) (tasks (db w))
                        (seq_users (db w)) (seq_conversations (db w))
                        (seq_chat_messages (db w)) (seq_projects (db w))
                        (seq_tasks (db w)))
                     (after_db_op w))
                  (quiet_after 1 _ w Hq) Hfree)).
    reflexivity.
  - cbn [db set_db after_db_op set_faults conversations chat_messages].
    intros other Hne. split; apply filter_others_kept; intros a Ha;
      apply Nat.eqb_eq in Ha; rewrite Ha; now apply Nat.eqb_neq.
  - reflexivity.
  - reflexivity.
  - reflexivity.
  - intros w2 [Hdb Hq2].
    cbn [db set_db after_db_op set_faults conversations chat_messages] in Hdb.
    split; [| intros cid].
    + rewrite (sqlite_conversations_get_quiet uid w2 Hq2), Hdb.
      cbn [conversations]. rewrite filter_none_left; [reflexivity |].
      intros c Hc. exact Hc.
    + rewrite (sqlite_messages_get_quiet uid cid w2 Hq2), Hdb.
      cbn [chat_messages]. rewrite filter_none_left; [reflexivity |].
      intros m Hm. now apply andb_true_iff in Hm as [Hm _].
Qed.

(** X18.  [DELETE /api/conversations/:id] of the SQLite revision.  When
    its two statements succeed and every message in that conversation is
    the user's own, the answer is [{ success: true }]; the conversations
    and messages of the other users stay, and afterwards the user's
    [GET /api/messages] for that conversation is empty and the user's
    [GET /api/conversations] holds no conversation with that id. *)
Theorem sqlite_deleted_conversation_is_gone (id uid : nat) (w : world database) :
  quiet 2 w ->
  (forall m, In m (chat_messages (db w)) ->
             mr_conversation_id m = id -> mr_user_id m = uid) ->
  exists w',
    handle (DeleteConversation id (Some uid)) w
    = (Ok (res_json success_body), w') /\
    (forall other, other <> uid ->
       filter (fun c => Nat.eqb (cr_user_id c) other) (conversations (db w')) =
       filter (fun c => Nat.eqb (cr_user_id c) other) (conversations (db w)) /\
       filter (fun m => Nat.eqb (mr_user_id m) other) (chat_messages (db w')) =
       filter (fun m => Nat.eqb (mr_user_id m) other) (chat_messages (db w))) /\
    forall w2, later w' w2 ->
      handle (GetMessages (Some uid) (Some id)) w2
      = (Ok (res_json (JArr [])), after_db_op w2) /\
      exists l,
        handle (GetConversations (Some uid)) w2
        = (Ok (res_json (JArr (map conversation_toJSON l))), after_db_op w2) /\
        Forall (fun c => cr_id c <> id) l.
Proof.
  intros Hq Hown.
  assert (Hq1 : quiet 1 w) by now apply quiet_pred.
  assert (Hfree :
    existsb (fun c => Nat.eqb (cr_id c) id && Nat.eqb (cr_user_id c) uid &&
                      referenced
                        (filter (fun m => negb (Nat.eqb (mr_conversation_id m) id &&
                                                Nat.eqb (mr_user_id m) uid))
                                (chat_messages (db w))) c)
            (conversations (db w)) = false).
  { apply (unreferenced_after_delete
             (fun c => Nat.eqb (cr_id c) id && Nat.eqb (cr_user_id c) uid)
             (fun m => Nat.eqb (mr_conversation_id m) id &&
                       Nat.eqb (mr_user_id m) uid)).
    intros c m _ Hm Hp Em. apply andb_true_iff in Hp as [Hp _].
    apply Nat.eqb_eq in Hp. rewrite Hp in Em.
    rewrite Em, (Hown m Hm Em), !Nat.eqb_refl. reflexivity. }
  eexists. split; [| split].
  - unfold handle. apply try_catch_Ok. cbn [try_block].
    unfold conversations_delete_try.
    rewrite (bind_Ok _ _ _ _ _ (delete_conversation_messages_quiet id uid w Hq1)).
    rewrite (bind_Ok _ _ _ _ _
               (delete_conversation_quiet id uid
                  (set_db
                     (mkDatabase (users (db w)) (conversations (db w))
                        (filter (fun m => negb (Nat.eqb (mr_conversation_id m) id &&
                                                Nat.eqb (mr_user_id m) uid))
                                (chat_messages (db w)))
                        (projects (db w)) (tasks (db w))
                        (seq_users (db w)) (seq_conversations (db w))
                        (seq_chat_messages (db w)) (seq_projects (db w))
                        (seq_tasks (db w)))
                     (after_db_op w))
                  (quiet_after 1 _ w Hq) Hfree)).
    reflexivity.
  - cbn [db set_db after_db_op set_faults conversations chat_messages].
    intros other Hne. split; apply filter_others_kept; intros a Ha;
      apply Nat.eqb_eq in Ha; rewrite Ha;
      apply andb_false_iff; right; now apply Nat.eqb_neq.
  - intros w2 [Hdb Hq2].
    cbn [db set_db after_db_op set_faults conversations chat_messages] in Hdb.
    split.
    + rewrite (sqlite_messages_get_quiet uid id w2 Hq2), Hdb.
      cbn [chat_messages]. rewrite filter_none_left; [reflexivity |].
      intros m Hm. apply andb_true_iff in Hm as [Hu Hc]. now rewrite Hu, Hc.
    + eexists. split; [exact (sqlite_conversations_get_quiet uid w2 Hq2) |].
      rewrite Hdb. cbn [conversations].
      apply sort_by_Forall, Forall_forall. intros c Hc.
      apply filter_In in Hc as [Hin Hmine].
      apply filter_In in Hin as [_ Hkeep]. intros E.
      rewrite E, Hmine, Nat.eqb_refl in Hkeep. discriminate Hkeep.
Qed.

(** X19.  A foreign key can hold a conversation back.  The SQLite
    revision lets any user post into any conversation, and
    [DELETE /api/conversations/:id] deletes only the caller's messages
    before the conversation.  When somebody else has a message in the
    caller's conversation, the second statement violates
    [FOREIGN KEY(conversation_id)] and the route answers 500 "Failed to
    delete conversation": the conversation is still stored and the
    caller's messages in it are gone. *)
Theorem sqlite_delete_stops_at_a_foreign_key
  (id uid : nat) (w : world database) (c : conversation_row)
  (m : chat_message_row) :
  quiet 2 w ->
  In c (conversations (db w)) -> cr_id c = id -> cr_user_id c = uid ->
  In m (chat_messages (db w)) ->
  mr_conversation_id m = id -> mr_user_id m <> uid ->
  exists w',
    handle (DeleteConversation id (Some uid)) w
    = (Ok (res_error 500 "Failed to delete conversation"), w') /\
    conversations (db w') = conversations (db w) /\
    chat_messages (db w') =
    filter (fun x => negb (Nat.eqb (mr_conversation_id x) id &&
                           Nat.eqb (mr_user_id x) uid))
           (chat_messages (db w)).
Proof.
  intros Hq Hc Hid Hu Hm Hmc Hmu.
  assert (Hq1 : quiet 1 w) by now apply quiet_pred.
  eexists. split; [| split].
  - unfold handle.
    erewrite (try_catch_Throw _ _ w foreign_key); [reflexivity |].
    cbn [try_block]. unfold conversations_delete_try.
    rewrite (bind_Ok _ _ _ _ _ (delete_conversation_messages_quiet id uid w Hq1)).
    apply bind_Throw. apply delete_conversation_blocked.
    + exact (quiet_after 1 _ w Hq).
    + cbn [db set_db after_db_op set_faults conversations chat_messages].
      apply existsb_exists. exists c. split; [exact Hc |].
      rewrite Hid, Hu, !Nat.eqb_refl. cbn [andb].
      apply existsb_exists. exists m. split.
      * apply filter_In. split; [exact Hm |].
        apply negb_true_iff, andb_false_iff. right. now apply Nat.eqb_neq.
      * rewrite Hmc, <- Hid. apply Nat.eqb_refl.
  - reflexivity.
  - reflexivity.
Qed.

(** *** Rows that name a user who does not exist *)

Ltac quiet_cases Hq :=
  unfold quiet in Hq; cbn [faults firstn existsb] in Hq;
  repeat match goal with
         | |- context [match ?fs with [] => _ | _ => _ end] =>
             destruct fs as [| [] ?]; cbn [firstn existsb orb] in Hq;
             try discriminate Hq; cbn
         end.

(** X20.  The SQLite revision takes the [userId] of a creation request
    from the body and never looks the user up; the foreign keys do.
    When no row of [users] has that id, creating a conversation, a
    project, a task or a message is answered with the 500 of the route's
    catch block and the database stays as it was. *)
Theorem sqlite_creations_need_their_user (uid : nat) (w : world database) :
  quiet 1 w ->
  user_exists (db w) uid = false ->
  (forall userId title,
     truthy_number userId = Some uid ->
     exists w',
       handle (PostConversations userId title) w
       = (Ok (res_error 500 "Failed to create conversation"), w') /\
       db w' = db w) /\
  (forall b,
     truthy_number (pb_userId b) = Some uid ->
     exists w',
       handle (PostProjects b) w
       = (Ok (res_error 500 "Failed to create project"), w') /\
       db w' = db w) /\
  (forall userId title,
     truthy_number userId = Some uid ->
     exists w',
       handle (PostTasks userId title) w
       = (Ok (res_error 500 "Failed to create task"), w') /\
       db w' = db w) /\
  (forall b cid,
     truthy_number (mb_userId b) = Some uid ->
     truthy_number (mb_conversationId b) = Some cid ->
     exists w',
       handle (PostMessages b) w
       = (Ok (res_error 500 "Failed to save message"), w') /\
       db w' = db w).
Proof.
  intros Hq Hno. repeat apply conj.
  - intros userId title Hu. unfold handle, try_catch. cbn [try_block].
    unfold conversations_post_try. rewrite Hu. unfold insert_conversation.
    destruct w as [d fs ck tk rn dr]. cbn [db] in Hno |- *. run_all.
    quiet_cases Hq; rewrite Hno; eexists; split; reflexivity.
  - intros b Hu. unfold handle, try_catch. cbn [try_block].
    unfold projects_post_try. rewrite Hu. unfold insert_project.
    destruct w as [d fs ck tk rn dr]. cbn [db] in Hno |- *. run_all.
    quiet_cases Hq; rewrite Hno; eexists; split; reflexivity.
  - intros userId title Hu. unfold handle, try_catch. cbn [try_block].
    unfold tasks_post_try. rewrite Hu. unfold insert_task.
    destruct w as [d fs ck tk rn dr]. cbn [db] in Hno |- *. run_all.
    quiet_cases Hq; rewrite Hno; eexists; split; reflexivity.
  - intros b cid Hu Hc. unfold handle, try_catch. cbn [try_block].
    unfold messages_post_try. rewrite Hu, Hc. unfold insert_message.
    destruct w as [d fs ck tk rn dr]. cbn [db] in Hno |- *. run_all.
    quiet_cases Hq; rewrite Hno; eexists; split; reflexivity.
Qed.

(** *** Requests that are refused *)

Ltac sqlite_200 H Hs :=
  repeat (apply bind_inv in H as (? & ? & _ & H));
  repeat match type of H with
         | (match ?x with _ => _ end) _ = _ => destruct x
         end;
  unfold ret in H; injection H as <- <-; discriminate Hs.

Lemma select_user_effect email password w :
  db (snd (select_user email password w)) = db w.
Proof.
  open_world w. unfold select_user. run_all.
  match goal with
  | |- context [match ?fs with [] => _ | _ => _ end] => destruct fs as [| [] ?]
  end; reflexivity.
Qed.

Lemma signup_throw_effect b w e w' :
  signup_try b w = (Throw e, w') -> db w' = db w.
Proof.
  unfold signup_try.
  destruct (truthy (sb_name b)) as [name |]; [| discriminate].
  destruct (truthy (sb_email b)) as [email |]; [| discriminate].
  destruct (truthy (sb_password b)) as [password |]; [| discriminate].
  open_world w. unfold insert_user. run_all.
  match goal with
  | |- context [match ?fs with [] => _ | _ => _ end] => destruct fs as [| [] ?]
  end; cbn;
    try match goal with
        | |- context [existsb ?f ?l] => destruct (existsb f l)
        end; cbn; intros [= <- <-] || discriminate; reflexivity.
Qed.

Lemma sqlite_try_block_4xx r w resp w' :
  try_block r w = (Ok resp, w') ->
  is_4xx (status resp) = true ->
  db w' = db w.
Proof.
  intros H Hs. destruct r; cbn [try_block] in H.
  - unfold signup_try in H.
    destruct (truthy (sb_name b)), (truthy (sb_email b)), (truthy (sb_password b));
      try (unfold ret in H; injection H as <- <-; reflexivity).
    sqlite_200 H Hs.
  - unfold login_try in H.
    apply bind_inv in H as (found & w1 & Hfind & H).
    pose proof (select_user_effect email password w) as Hdb.
    rewrite Hfind in Hdb.
    destruct found; unfold ret in H; injection H as <- <-;
      [discriminate Hs | exact Hdb].
  - unfold conversations_get_try in H.
    destruct userId; [sqlite_200 H Hs | unfold ret in H; injection H as <- <-; discriminate Hs].
  - unfold conversations_post_try in H.
    destruct (truthy_number userId);
      [sqlite_200 H Hs | unfold ret in H; injection H as <- <-; reflexivity].
  - unfold conversations_delete_try in H.
    destruct userId;
      [sqlite_200 H Hs | unfold ret in H; injection H as <- <-; reflexivity].
  - unfold messages_get_try in H.
    destruct userId, conversationId;
      try (unfold ret in H; injection H as <- <-; discriminate Hs).
    sqlite_200 H Hs.
  - unfold messages_post_try in H.
    destruct (truthy_number (mb_userId b)), (truthy_number (mb_conversationId b));
      try (unfold ret in H; injection H as <- <-; reflexivity).
    sqlite_200 H Hs.
  - unfold messages_delete_try in H.
    destruct userId;
      [sqlite_200 H Hs | unfold ret in H; injection H as <- <-; reflexivity].
  - unfold projects_get_try in H.
    destruct userId; [sqlite_200 H Hs | unfold ret in H; injection H as <- <-; discriminate Hs].
  - unfold projects_post_try in H.
    destruct (truthy_number (pb_userId b));
      [sqlite_200 H Hs | unfold ret in H; injection H as <- <-; reflexivity].
  - unfold tasks_get_try in H.
    destruct userId; [sqlite_200 H Hs | unfold ret in H; injection H as <- <-; discriminate Hs].
  - unfold tasks_post_try in H.
    destruct (truthy_number userId);
      [sqlite_200 H Hs | unfold ret in H; injection H as <- <-; reflexivity].
  - unfold tasks_patch_try in H. sqlite_200 H Hs.
Qed.

(** X21.  A request that the SQLite revision refuses writes nothing:
    whenever the answer has a 4xx status (400 for missing fields or an
    email that is taken, 401 for a missing [userId] or wrong
    credentials), the database is the one before the request. *)
Theorem sqlite_refused_requests_write_nothing
  (r : api_request) (w w' : world database) (resp : response) :
  handle r w = (Ok resp, w') ->
  is_4xx (status resp) = true ->
  db w' = db w.
Proof.
  intros H Hs. unfold handle in H.
  apply try_catch_inv in H as [Hok | (e & Hthrow & ->)].
  - exact (sqlite_try_block_4xx r w resp w' Hok Hs).
  - destruct r; try discriminate Hs.
    cbn [try_block] in Hthrow. exact (signup_throw_effect b w e w' Hthrow).
Qed.

(** Alice completes Bob's task 2. *)
Lemma sqlite_patch_reaches_any_task_witness :
  exists w',
    handle (PatchTask 2 (Some false)) (Sample.world_of Sample.sqlite_shared)
    = (Ok (res_json success_body), w') /\
    In (mkTaskRow 2 2 (Some "Fix it") 0%Z 953%Z) (tasks (db w')).
Proof.
  destruct (sqlite_patch_reaches_any_task 2 (Some false)
              (Sample.world_of Sample.sqlite_shared) eq_refl)
    as (w' & Hrun & Hhit & _).
  exists w'. split; [exact Hrun |].
  apply (Hhit (mkTaskRow 2 2 (Some "Fix it") 1%Z 953%Z));
    [right; left |]; reflexivity.
Defined.

Lemma sqlite_delete_all_empties_the_history_witness :
  exists w',
    handle (DeleteMessages (Some 1)) (Sample.world_of Sample.sqlite_shared)
    = (Ok (res_json success_body), w') /\
    users (db w') = users Sample.sqlite_shared /\
    tasks (db w') = tasks Sample.sqlite_shared.
Proof.
  assert (Hown : forall c m,
             In c (conversations (db (Sample.world_of Sample.sqlite_shared))) ->
             In m (chat_messages (db (Sample.world_of Sample.sqlite_shared))) ->
             cr_user_id c = 1 -> mr_conversation_id m = cr_id c ->
             mr_user_id m = 1).
  { intros c m [<- | [<- | []]] [<- | [<- | []]] Hu Hc;
      first [reflexivity | discriminate Hu | discriminate Hc]. }
  destruct (sqlite_delete_all_empties_the_history 1
              (Sample.world_of Sample.sqlite_shared) eq_refl Hown)
    as (w' & Hrun & _ & Hu & _ & Ht & _).
  exists w'. split; [exact Hrun |]. split; [exact Hu | exact Ht].
Defined.

Lemma sqlite_deleted_conversation_is_gone_witness :
  exists w',
    handle (DeleteConversation 1 (Some 1)) (Sample.world_of Sample.sqlite_shared)
    = (Ok (res_json success_body), w') /\
    handle (GetMessages (Some 1) (Some 1)) (set_faults [] w')
    = (Ok (res_json (JArr [])), after_db_op (set_faults [] w')).
Proof.
  assert (Hown : forall m,
             In m (chat_messages (db (Sample.world_of Sample.sqlite_shared))) ->
             mr_conversation_id m = 1 -> mr_user_id m = 1).
  { intros m [<- | [<- | []]] Hc; first [reflexivity | discriminate Hc]. }
  destruct (sqlite_deleted_conversation_is_gone 1 1
              (Sample.world_of Sample.sqlite_shared) eq_refl Hown)
    as (w' & Hrun & _ & Hlater).
  exists w'. split; [exact Hrun |].
  exact (proj1 (Hlater (set_faults [] w') (conj eq_refl eq_refl))).
Defined.

(** Bob wrote into Alice's conversation 1, and Alice deletes it. *)
Lemma sqlite_delete_stops_at_a_foreign_key_witness :
  exists w',
    handle (DeleteConversation 1 (Some 1)) (Sample.world_of Sample.sqlite_guest)
    = (Ok (res_error 500 "Failed to delete conversation"), w') /\
    conversations (db w') = conversations Sample.sqlite_guest /\
    chat_messages (db w') = [mkChatMessageRow 2 1 2 (Some "user") (Some "Yo") 951%Z].
Proof.
  destruct (sqlite_delete_stops_at_a_foreign_key 1 1
              (Sample.world_of Sample.sqlite_guest)
              (mkConversationRow 1 1 "Alice's chat" 900%Z)
              (mkChatMessageRow 2 1 2 (Some "user") (Some "Yo") 951%Z)
              eq_refl (or_introl eq_refl) eq_refl eq_refl
              (or_intror (or_introl eq_refl)) eq_refl
              (fun E => ltac:(discriminate E)))
    as (w' & Hrun & Hc & Hm).
  exists w'. split; [exact Hrun |]. split; [exact Hc |].
  rewrite Hm. reflexivity.
Defined.

(** A task for the user 7, whom the sample database does not have. *)
Lemma sqlite_creations_need_their_user_witness :
  exists w',
    handle (PostTasks (Some 7) (Some "Paint")) (Sample.world_of Sample.sqlite_shared)
    = (Ok (res_error 500 "Failed to create task"), w') /\
    db w' = Sample.sqlite_shared.
Proof.
  destruct (sqlite_creations_need_their_user 7
              (Sample.world_of Sample.sqlite_shared) eq_refl eq_refl)
    as (_ & _ & Htask & _).
  exact (Htask (Some 7) (Some "Paint") eq_refl).
Defined.

(** A second signup with Alice's address is answered 400 by the catch
    block and stores nothing. *)
Lemma sqlite_refused_requests_write_nothing_witness :
  db (snd (handle
             (PostSignup (mkSignupBody (Some "Mallory")
                            (Some "alice@example.com") (Some "guess")))
             (Sample.world_of Sample.sqlite_alice)))
  = Sample.sqlite_alice.
Proof.
  apply (sqlite_refused_requests_write_nothing
           (PostSignup (mkSignupBody (Some "Mallory")
                          (Some "alice@example.com") (Some "guess")))
           (Sample.world_of Sample.sqlite_alice) _
           (res_error 400 "Email already exists"));
    reflexivity.
Defined.

End SqliteWrites.

(** ** The avatar colour of a new account *)

Module PaletteFacts.
Import RuntimeFacts.

Lemma random_below_bound {D} n (w w1 : world D) k :
  n <> 0 -> random_below n w = (Ok k, w1) -> k < n.
Proof.
  intros Hn. unfold random_below. intros [= <- _].
  now apply Nat.mod_upper_bound.
Qed.

(** X22.  In the three revisions a signup answered 200 adds exactly one
    account, the avatar colour it stores is one of the five of the
    palette, and the answer carries the stored id, name, email and
    colour (and never the password). *)
Theorem new_accounts_get_a_palette_colour :
  (forall (O : Mongo.Oracles) (v : Mongo.revision) (b : Mongo.signup_body)
          (w w' : world Mongo.database) (r : response),
     Mongo.handle O v (Mongo.PostSignup b) w = (Ok r, w') ->
     status r = 200 ->
     exists u token,
       Mongo.users (db w') = (Mongo.users (db w) ++ [u])%list /\
       In (Mongo.u_avatarColor u) Mongo.colors /\
       r = Mongo.token_response token
             (Mongo.User_public (Mongo.u_id u) (Mongo.u_name u) (Mongo.u_email u)
                (Mongo.u_avatarColor u))) /\
  (forall (b : Sqlite.signup_body) (w w' : world Sqlite.database) (r : response),
     Sqlite.handle (Sqlite.PostSignup b) w = (Ok r, w') ->
     status r = 200 ->
     exists u,
       Sqlite.users (db w') = (Sqlite.users (db w) ++ [u])%list /\
       In (Sqlite.ur_avatarColor u) Sqlite.colors /\
       r = res_json (Sqlite.user_public (Sqlite.ur_id u) (Sqlite.ur_name u)
                       (Sqlite.ur_email u) (Sqlite.ur_avatarColor u))).
Proof.
  split.
  - intros O v b w w' r Hrun Hs.
    unfold Mongo.handle in Hrun. cbn [Mongo.protected] in Hrun.
    unfold Mongo.run in Hrun.
    apply try_catch_inv in Hrun as [Hok | (e & _ & ->)]; [| discriminate Hs].
    cbn [Mongo.try_block] in Hok. unfold Mongo.signup_try in Hok.
    destruct (truthy (Mongo.sb_name b)) as [name |];
      [| injection Hok as <- <-; discriminate Hs].
    destruct (truthy (Mongo.sb_email b)) as [email |];
      [| injection Hok as <- <-; discriminate Hs].
    destruct (truthy (Mongo.sb_password b)) as [password |];
      [| injection Hok as <- <-; discriminate Hs].
    apply bind_inv in Hok as (existing & w1 & Hfind & Hok).
    apply MongoFacts.User_findOne_inv in Hfind as [_ Hdb1].
    destruct existing; [injection Hok as <- <-; discriminate Hs |].
    apply bind_inv in Hok as (salt & w2 & Hsalt & Hok).
    apply MongoFacts.random_draw_inv in Hsalt as Hdb2.
    apply bind_inv in Hok as (k & w3 & Hk & Hok).
    assert (Hlt : k < List.length Mongo.colors)
      by (apply (random_below_bound _ w2 w3); [discriminate | exact Hk]).
    apply MongoFacts.random_below_inv in Hk as Hdb3.
    apply bind_inv in Hok as (u & w4 & Hsave & Hok).
    apply MongoFacts.User_save_inv in Hsave as [Hu Husers].
    unfold ret in Hok. injection Hok as <- <-.
    exists u. eexists. rewrite Husers, Hdb3, Hdb2, Hdb1, Hu.
    cbn [Mongo.u_id Mongo.u_name Mongo.u_email Mongo.u_avatarColor].
    split; [reflexivity |]. split; [| reflexivity].
    now apply nth_In.
  - intros b w w' r Hrun Hs. unfold Sqlite.handle in Hrun.
    apply try_catch_inv in Hrun as [Hok | (e & _ & ->)];
      [| now apply SqliteFacts.signup_catch_not_200 in Hs].
    cbn [Sqlite.try_block] in Hok. unfold Sqlite.signup_try in Hok.
    destruct (truthy (Sqlite.sb_name b)) as [name |];
      [| injection Hok as <- <-; discriminate Hs].
    destruct (truthy (Sqlite.sb_email b)) as [email |];
      [| injection Hok as <- <-; discriminate Hs].
    destruct (truthy (Sqlite.sb_password b)) as [password |];
      [| injection Hok as <- <-; discriminate Hs].
    apply bind_inv in Hok as (k & w1 & Hk & Hok).
    assert (Hlt : k < List.length Sqlite.colors)
      by (apply (random_below_bound _ w w1); [discriminate | exact Hk]).
    apply SqliteFacts.sqlite_random_below_inv in Hk as [Hdb1 _].
    apply bind_inv in Hok as (id & w2 & Hins & Hok).
    apply SqliteFacts.insert_user_inv in Hins as [_ Husers].
    unfold ret in Hok. injection Hok as <- <-.
    rewrite Hdb1 in Husers.
    exists (Sqlite.mkUserRow id name email password (nth k Sqlite.colors "")).
    split; [exact Husers |]. split; [| reflexivity].
    cbn [Sqlite.ur_avatarColor]. now apply nth_In.
Qed.

End PaletteFacts.

(** ** The client: what [App] sends and what it keeps *)

Module ClientFacts.
Import App.

Lemma blank_empty text : (text =? "") = true -> blank text = true.
Proof. intros E. apply String.eqb_eq in E. now subst. Qed.

Lemma not_blank_not_empty text : blank text = false -> (text =? "") = false.
Proof.
  intros Hb. destruct (text =? "") eqn:E; [| reflexivity].
  now rewrite (blank_empty text E) in Hb.
Qed.

(** X23.  What [handleSend] sends is what [POST /api/chat] accepts.
    The body that [src/src/App.tsx] sends passes the check of the
    message text of both servers, the one that [part_000] sends passes
    the check of [part_001] (with an image and no text as well), and
    [part_000] sends nothing unless the user is signed in.  In each case the text the
    server stores for the user's message is the text the client shows
    for it, and the history is the list of messages the client
    holds. *)
Theorem sent_chat_passes_the_guard
  (signedIn : bool) (text : string) (activeConvId : option Mongo.ObjectId)
  (messages : list Mongo.HistoryMsg) (file : option Mongo.InlineData)
  (b : Mongo.chat_body) :
  (handleSend_chat AppTsx signedIn text activeConvId messages file = Some b ->
   forall v,
     Mongo.user_text v b = Some (userMsg_text AppTsx text) /\
     Mongo.chat_history v b = Some messages) /\
  (handleSend_chat Part000 signedIn text activeConvId messages file = Some b ->
   Mongo.user_text Mongo.Part001 b = Some (userMsg_text Part000 text) /\
   Mongo.chat_history Mongo.Part001 b = Some messages /\
   signedIn = true).
Proof.
  split.
  - cbn [handleSend_chat]. destruct (blank text) eqn:Hb; [discriminate |].
    intros [= <-]. apply not_blank_not_empty in Hb.
    intros []; cbn; rewrite Hb; split; reflexivity.
  - cbn [handleSend_chat].
    destruct (blank text && match file with Some _ => false | None => true end)
      eqn:Hg; [discriminate |].
    destruct signedIn; [| discriminate]. cbn [negb].
    intros [= <-]. cbn. repeat split.
    destruct (text =? "") eqn:E.
    + rewrite (blank_empty text E) in Hg. cbn in Hg.
      destruct file; [reflexivity | discriminate Hg].
    + now destruct file.
Qed.









End ClientFacts.

Module LinkFacts.
Import Particles.

Section WithHypot.

Variable hypot : float -> float -> float.

Lemma strokes_app cs1 cs2 : strokes (cs1 ++ cs2) = strokes cs1 + strokes cs2.
Proof.
  induction cs1 as [| c cs IH]; cbn; [reflexivity |].
  destruct c; cbn; now rewrite IH.
Qed.

Lemma strokes_link theme a b : strokes (link hypot theme a b) <= 1.
Proof. unfold link. destruct (_ <? _)%float; cbn; lia. Qed.

Lemma strokes_flat_map_link theme a ns :
  strokes (flat_map (link hypot theme a) ns) <= List.length ns.
Proof.
  induction ns as [| b t IH]; cbn; [lia |].
  rewrite strokes_app. pose proof (strokes_link theme a b). lia.
Qed.

Lemma strokes_links theme ns :
  2 * strokes (links hypot theme ns) <= List.length ns * (List.length ns - 1).
Proof.
  induction ns as [| a t IH]; cbn [links List.length]; [cbn; lia |].
  rewrite strokes_app. pose proof (strokes_flat_map_link theme a t).
  replace (S (List.length t) - 1) with (List.length t) by lia.
  destruct (List.length t) as [| n]; [cbn in *; lia |].
  replace (S n - 1) with n in IH by lia. nia.
Qed.

Lemma strokes_draws theme ns : strokes (flat_map (draw theme) ns) = 0.
Proof. induction ns as [| n t IH]; cbn; [reflexivity | exact IH]. Qed.

(** X26.  A frame of the particle background strokes each pair of
    nodes at most once: with the 80 nodes of the array, whatever the
    frames before did, one call of [animate] strokes at most 3160
    lines, and drawing the discs strokes none. *)
Theorem a_frame_links_each_pair_at_most_once
  (theme : Theme) (w h : float) (rnd : nat -> float)
  (fs : list frame_input) (f : frame_input) :
  let nodes := frames hypot theme fs (nodes_init w h rnd) in
  strokes (snd (animate hypot theme (fi_w f) (fi_h f) (fi_mouse f) nodes))
  <= 3160.
Proof.
  intros nodes. subst nodes. unfold animate. cbn [snd].
  rewrite !strokes_app, strokes_draws. cbn [strokes].
  assert (Hlen : List.length
                   (map (update hypot (fi_mouse f))
                      (frames hypot theme fs (nodes_init w h rnd))) = 80).
  { rewrite length_map, ParticleFacts.frames_length.
    apply ParticleFacts.make_nodes_length. }
  pose proof (strokes_links theme
                (map (update hypot (fi_mouse f))
                   (frames hypot theme fs (nodes_init w h rnd)))) as Hl.
  rewrite Hlen in Hl. lia.
Qed.

End WithHypot.

End LinkFacts.
